(** * Outlier sequences in multiple sequence alignments

    A shallow embedding of [09_msa_outlier.py]: the pairwise distance matrix
    of an alignment (Biopython's [DistanceCalculator]), the per-sequence mean
    distance and its z-score (NumPy's [mean], SciPy's [stats.zscore]), the
    threshold test of [analyze_distances], and the text report.

    Python floats are IEEE 754 binary64 numbers; they are modelled by Rocq's
    primitive floats, so that every function below can be evaluated, and
    their properties are derived from the specification of the primitive
    operations ([SpecFloat], [FloatAxioms]). *)

From Stdlib Require Import List String Ascii Bool Arith ZArith Lia.
From Stdlib Require Import DecimalString Floats Zpower.
Import ListNotations.

(** ** Python exceptions and results *)

Module Py.

(** The exceptions raised on the modelled paths, with their message. *)
Inductive exn : Type :=
| ValueError (msg : string)
| TypeError (msg : string)
| IndexError (msg : string).

(** [str(e)] *)
Definition str (e : exn) : string :=
  match e with
  | ValueError msg | TypeError msg | IndexError msg => msg
  end.

(** A computation that returns a value or raises. *)
Definition result (A : Type) : Type := (exn + A)%type.

Definition ret {A} (a : A) : result A := inr a.
Definition raise {A} (e : exn) : result A := inl e.

Definition bind {A B} (m : result A) (k : A -> result B) : result B :=
  match m with
  | inl e => inl e
  | inr a => k a
  end.

(** A comprehension [[f x for x in xs]]: elements are evaluated from left
    to right and the first exception ends the evaluation. *)
Fixpoint mapM {A B} (f : A -> result B) (xs : list A) : result (list B) :=
  match xs with
  | [] => ret []
  | x :: xs' =>
      bind (f x) (fun y => bind (mapM f xs') (fun ys => ret (y :: ys)))
  end.

(** A [for] loop that updates a state. *)
Fixpoint foldM {A S} (f : S -> A -> result S) (xs : list A) (s : S)
  : result S :=
  match xs with
  | [] => ret s
  | x :: xs' => bind (f s x) (foldM f xs')
  end.

(** [xs[i]] for [0 <= i]. *)
Definition list_get {A} (xs : list A) (i : nat) : result A :=
  match nth_error xs i with
  | Some x => ret x
  | None => raise (IndexError "list index out of range")
  end.

(** [xs[i] = v] for [0 <= i], on a copy of the list. *)
Fixpoint list_set {A} (xs : list A) (i : nat) (v : A) : result (list A) :=
  match xs, i with
  | [], _ => raise (IndexError "list assignment index out of range")
  | _ :: xs', O => ret (v :: xs')
  | x :: xs', S i' => bind (list_set xs' i' v) (fun ys => ret (x :: ys))
  end.

(** [xs.index(x)] *)
Fixpoint index (x : string) (xs : list string) : option nat :=
  match xs with
  | [] => None
  | y :: ys => if String.eqb y x then Some 0
               else option_map S (index x ys)
  end.

(** [len(set(names)) == len(names)] *)
Fixpoint unique (xs : list string) : bool :=
  match xs with
  | [] => true
  | x :: xs' => negb (existsb (String.eqb x) xs') && unique xs'
  end.

(** [itertools.combinations(xs, 2)] *)
Fixpoint combinations2 {A} (xs : list A) : list (A * A) :=
  match xs with
  | [] => []
  | x :: xs' => map (pair x) xs' ++ combinations2 xs'
  end.

(** [str(n)] for a non-negative integer. *)
Definition str_of_nat (n : nat) : string :=
  NilZero.string_of_uint (Nat.to_uint n).

(** [sep.join(xs)] *)
Definition join (sep : string) (xs : list string) : string :=
  String.concat sep xs.

End Py.

Notation "x <- m ;; k" := (Py.bind m (fun x => k))
  (at level 61, m at next level, right associativity).

(** ** Numbers *)

(** The correctly rounded conversion of an integer to binary64, as
    [float(n)] does it. *)
Definition float_of_nat (n : nat) : float :=
  SF2Prim (binary_normalize prec emax (Z.of_nat n) 0 false).

(** *** Reading the specification of binary64 *)

(** Bits have been lost in the shifts that gave [mrs]. *)
Definition inexact (mrs : shr_record) : bool := shr_r mrs || shr_s mrs.

(** The mantissa of [mrs] is at most [2 ^ k], and below it when bits have
    been lost. *)
Definition under (k : Z) (mrs : shr_record) : Prop :=
  (0 <= shr_m mrs <= 2 ^ k)%Z /\ (inexact mrs = true -> (shr_m mrs < 2 ^ k)%Z).

(** A non-negative number whose exponent is at most -52 and whose value is
    at most one. *)
Definition unit_sf (f : spec_float) : Prop :=
  f = S754_zero false
  \/ exists m e,
      f = S754_finite false m e /\ (e <= -52)%Z /\ (Zpos m <= 2 ^ (- e))%Z.

(** Positive zero. *)
Definition SF_zero : spec_float := S754_zero false.

(** A zero of either sign, or not a number. *)
Definition zero_or_nan (x : float) : Prop :=
  Prim2SF x = S754_nan \/ exists s, Prim2SF x = S754_zero s.

(** ** Biopython: alignments, distance matrices, the distance calculator *)

Module Bio.
Import Py.

(** A record of an alignment: [record.id] and the letters of [record.seq]. *)
Record SeqRecord : Type := { id : string; seq : string }.

(** A [MultipleSeqAlignment] in record order. *)
Definition MultipleSeqAlignment : Type := list SeqRecord.

(** [alignment.get_alignment_length()]: the greatest record length. *)
Definition get_alignment_length (msa : MultipleSeqAlignment) : nat :=
  fold_left (fun m r => if m <? String.length (seq r)
                        then String.length (seq r) else m) msa 0.

Section Matrix.

(** [Bio.Phylo.TreeConstruction.DistanceMatrix]: the names and the lower
    triangle, row [i] holding the entries [(i, 0)] to [(i, i)]. *)
Record DistanceMatrix : Type := {
  names : list string;
  matrix : list (list float)
}.

(** [len(dm)] *)
Definition len (dm : DistanceMatrix) : nat := List.length (names dm).

(** [[[0] * i for i in range(1, n + 1)]] *)
Definition zeros (n : nat) : list (list float) :=
  map (fun i => repeat (float_of_nat 0) i) (List.seq 1 n).

(** [DistanceMatrix(names)] *)
Definition new (ns : list string) : result DistanceMatrix :=
  if unique ns
  then ret {| names := ns; matrix := zeros (List.length ns) |}
  else raise (ValueError "Duplicate names found").

(** [dm[i, j]] for integers [0 <= i], [0 <= j].  The source tests
    [i > len(dm) - 1], which on integers is [len(dm) <= i]. *)
Definition getitem (dm : DistanceMatrix) (i j : nat) : result float :=
  if (len dm <=? i) || (len dm <=? j)
  then raise (IndexError "Index out of range.")
  else if j <? i
       then row <- list_get (matrix dm) i ;; list_get row j
       else row <- list_get (matrix dm) j ;; list_get row i.

(** [m[r][c] = v] *)
Definition set_entry (m : list (list float)) (r c : nat) (v : float)
  : result (list (list float)) :=
  row <- list_get m r ;;
  row' <- list_set row c v ;;
  list_set m r row'.

(** [_set_zero_diagonal]: [for i in range(0, len(self)): m[i][i] = 0] *)
Definition set_zero_diagonal (m : list (list float)) (n : nat)
  : result (list (list float)) :=
  foldM (fun m i => set_entry m i i (float_of_nat 0)) (List.seq 0 n) m.

(** [dm[row_name, col_name] = v] *)
Definition setitem (dm : DistanceMatrix) (row_name col_name : string)
           (v : float) : result DistanceMatrix :=
  match index row_name (names dm), index col_name (names dm) with
  | Some r, Some c =>
      m <- (if c <? r then set_entry (matrix dm) r c v
            else set_entry (matrix dm) c r v) ;;
      m' <- set_zero_diagonal m (len dm) ;;
      ret {| names := names dm; matrix := m' |}
  | _, _ => raise (ValueError "Item not found.")
  end.

(** The registered model names ([DistanceCalculator.models]) and the
    distance under a substitution matrix come from Biopython's data
    files. *)
Variable models : list string.
Variable matrix_pairwise :
  string -> list ascii -> SeqRecord -> SeqRecord -> result float.

(** [DistanceCalculator]: the letters to skip and, unless the model is
    the identity, the substitution matrix (by the name of its model). *)
Record DistanceCalculator : Type := {
  skip_letters : list ascii;
  scoring_matrix : option string
}.

(** [DistanceCalculator(model)] *)
Definition DistanceCalculator_init (model : string)
  : result DistanceCalculator :=
  let skip := if String.eqb model "identity" then []
              else ["-"%char; "*"%char] in
  if String.eqb model "identity"
  then ret {| skip_letters := skip; scoring_matrix := None |}
  else if existsb (String.eqb model) models
       then ret {| skip_letters := skip; scoring_matrix := Some model |}
       else raise (ValueError
              ("Model not supported. Available models: "
                 ++ join ", " models)).

Definition skipped (skip : list ascii) (c : ascii) : bool :=
  existsb (Ascii.eqb c) skip.

(** [sum(l1 == l2 for l1, l2 in zip(seq1, seq2)
         if l1 not in skip and l2 not in skip)] *)
Fixpoint identity_score (skip : list ascii) (s1 s2 : list ascii) : nat :=
  match s1, s2 with
  | l1 :: s1', l2 :: s2' =>
      (if negb (skipped skip l1) && negb (skipped skip l2)
          && Ascii.eqb l1 l2 then 1 else 0)
      + identity_score skip s1' s2'
  | _, _ => 0
  end.

(** [_pairwise(seq1, seq2)] *)
Definition pairwise (calc : DistanceCalculator) (seq1 seq2 : SeqRecord)
  : result float :=
  match scoring_matrix calc with
  | None =>
      let score := identity_score (skip_letters calc)
                     (list_ascii_of_string (seq seq1))
                     (list_ascii_of_string (seq seq2)) in
      let max_score := String.length (seq seq1) in
      if max_score =? 0 then ret (float_of_nat 1)
      else ret (PrimFloat.sub (float_of_nat 1)
                  (PrimFloat.div (float_of_nat score) (float_of_nat max_score)))
  | Some model => matrix_pairwise model (skip_letters calc) seq1 seq2
  end.

(** [calculator.get_distance(msa)] *)
Definition get_distance (calc : DistanceCalculator)
           (msa : MultipleSeqAlignment) : result DistanceMatrix :=
  dm <- new (map id msa) ;;
  foldM (fun dm (p : SeqRecord * SeqRecord) =>
           d <- pairwise calc (fst p) (snd p) ;;
           setitem dm (id (fst p)) (id (snd p)) d)
        (combinations2 msa) dm.

End Matrix.

End Bio.

(** ** NumPy and SciPy: mean, standard deviation, z-score *)

Module Np.
(** [r[k] += a[i + k]], for the eight running sums of a block. *)
Fixpoint add_to (r a : list float) : list float :=
  match r, a with
  | x :: r', y :: a' => PrimFloat.add x y :: add_to r' a'
  | _, _ => r
  end.

(** The loop over the full blocks of eight that follow the first one; it
    returns the running sums and the elements not yet added. *)
Fixpoint accumulate (blocks : nat) (r a : list float)
  : list float * list float :=
  match blocks with
  | O => (r, a)
  | S b => accumulate b (add_to r (firstn 8 a)) (skipn 8 a)
  end.

(** [((r[0] + r[1]) + (r[2] + r[3])) + ((r[4] + r[5]) + (r[6] + r[7]))] *)
Definition combine8 (r : list float) : float :=
  match r with
  | [r0; r1; r2; r3; r4; r5; r6; r7] =>
      PrimFloat.add
        (PrimFloat.add (PrimFloat.add r0 r1) (PrimFloat.add r2 r3))
        (PrimFloat.add (PrimFloat.add r4 r5) (PrimFloat.add r6 r7))
  | _ => PrimFloat.nan
  end.

(** The sum of at most 128 numbers: fewer than eight are added from zero
    in index order; otherwise eight running sums take every eighth element,
    are added in pairs, and the elements after the last full block of
    eight are added in index order. *)
Definition block_sum (a : list float) : float :=
  let n := List.length a in
  if n <? 8 then fold_left PrimFloat.add a (float_of_nat 0)
  else let '(r, rest) := accumulate (n / 8 - 1) (firstn 8 a) (skipn 8 a) in
       fold_left PrimFloat.add rest (combine8 r).

(** The pairwise summation of NumPy's [add.reduce] on floating-point data:
    more than 128 numbers are split in two parts, the first of
    [n / 2 - (n / 2) % 8] numbers, whose sums are added.  Each part is
    shorter than the whole, so that [fuel] is never used up when it starts
    from the length. *)
Fixpoint pairwise_sum (fuel : nat) (a : list float) : float :=
  match fuel with
  | O => block_sum a
  | S fuel' =>
      let n := List.length a in
      if n <=? 128 then block_sum a
      else let n2 := n / 2 - (n / 2) mod 8 in
           PrimFloat.add (pairwise_sum fuel' (firstn n2 a))
                         (pairwise_sum fuel' (skipn n2 a))
  end.

(** [np.sum(a)] on floating-point data: the pairwise sum is added to the
    initial value 0. *)
Definition sum (a : list float) : float :=
  PrimFloat.add (float_of_nat 0) (pairwise_sum (List.length a) a).

(** [np.mean(a)]: the sum divided by the count; [0/0] for no element. *)
Definition mean (a : list float) : float :=
  PrimFloat.div (sum a) (float_of_nat (List.length a)).

(** [np.var(a, ddof=0)]: the mean of the squared deviations from the mean. *)
Definition var (a : list float) : float :=
  let arrmean := PrimFloat.div (sum a) (float_of_nat (List.length a)) in
  let x := map (fun v => PrimFloat.sub v arrmean) a in
  let x := map (fun v => PrimFloat.mul v v) x in
  PrimFloat.div (sum x) (float_of_nat (List.length a)).

(** [np.std(a, ddof=0)] *)
Definition std (a : list float) : float := PrimFloat.sqrt (var a).

End Np.

Module Scipy.
(** [np.finfo(np.float64).eps] *)
Definition eps : float := 0x1p-52%float.

(** [scipy.stats.zscore(a)] with its defaults ([axis=0], [ddof=0],
    [nan_policy='propagate']) on one-dimensional data.  An empty input gives
    an empty output.  The standard deviation is the square root of the mean
    of the squared deviations from the mean; the scores are the deviations
    divided by it, and all of them are set to [nan] when the standard
    deviation is at most [|eps * mean|]. *)
Definition zscore (a : list float) : list float :=
  match a with
  | [] => []
  | _ :: _ =>
      let mn := Np.mean a in
      let x_mean := map (fun x => PrimFloat.sub x mn) a in
      let var := Np.mean (map (fun v => PrimFloat.mul v v) x_mean) in
      let std := PrimFloat.sqrt var in
      let z := map (fun x => PrimFloat.div (PrimFloat.sub x mn) std) a in
      if PrimFloat.leb std (PrimFloat.abs (PrimFloat.mul eps mn))
      then map (fun _ => PrimFloat.nan) z else z
  end.

End Scipy.

(** ** Matplotlib: the range of a histogram *)

Module Plt.
Import Py.

(** [np.fmin] and [np.fmax], which keep the first argument unless the
    second is smaller (greater) and do not return [nan] if one argument is
    a number. *)
Definition fmin (x y : float) : float :=
  if PrimFloat.leb x y || PrimFloat.is_nan y then x else y.

Definition fmax (x y : float) : float :=
  if PrimFloat.leb y x || PrimFloat.is_nan y then x else y.

(** [np.nanmin(a)] and [np.nanmax(a)] for a non-empty [a]: [nan] when no
    element is a number. *)
Definition nanmin (a : list float) : float :=
  match a with
  | [] => PrimFloat.nan
  | x :: a' => fold_left fmin a' x
  end.

Definition nanmax (a : list float) : float :=
  match a with
  | [] => PrimFloat.nan
  | x :: a' => fold_left fmax a' x
  end.

(** [a.min()] and [a.max()], which return [nan] if an element is not a
    number. *)
Definition minimum (x y : float) : float :=
  if PrimFloat.is_nan x then x
  else if PrimFloat.is_nan y then y
       else if PrimFloat.leb x y then x else y.

Definition maximum (x y : float) : float :=
  if PrimFloat.is_nan x then x
  else if PrimFloat.is_nan y then y
       else if PrimFloat.leb y x then x else y.

Definition amin (a : list float) : float :=
  match a with
  | [] => PrimFloat.nan
  | x :: a' => fold_left minimum a' x
  end.

Definition amax (a : list float) : float :=
  match a with
  | [] => PrimFloat.nan
  | x :: a' => fold_left maximum a' x
  end.

(** [np.isfinite(x)] *)
Definition isfinite (x : float) : bool :=
  negb (PrimFloat.is_nan x) && negb (PrimFloat.is_infinity x).

(** Python's [min(a, b)] and [max(a, b)]: [b] if it is smaller (greater),
    otherwise [a]. *)
Definition py_min (a b : float) : float := if PrimFloat.ltb b a then b else a.
Definition py_max (a b : float) : float := if PrimFloat.ltb a b then b else a.

(** What can fail in [ax.hist(x, bins=10)] for one list of numbers: the
    range of the bins.  Matplotlib takes it from the elements that are
    numbers, if there are any, and hands it to [np.histogram], which refuses
    a range that is not finite; without such an element [np.histogram]
    takes the range from all elements, and refuses it.  [float_str] is the
    text of a number in the message. *)
Definition hist (float_str : float -> string) (x : list float)
  : result unit :=
  match x with
  | [] => ret tt
  | _ :: _ =>
      let xmin := py_min PrimFloat.infinity (nanmin x) in
      let xmax := py_max PrimFloat.neg_infinity (nanmax x) in
      if PrimFloat.leb xmin xmax
      then if isfinite xmin && isfinite xmax then ret tt
           else raise (ValueError
                  ("supplied range of [" ++ float_str xmin ++ ", "
                     ++ float_str xmax ++ "] is not finite"))
      else if isfinite (amin x) && isfinite (amax x) then ret tt
           else raise (ValueError
                  ("autodetected range of [" ++ float_str (amin x) ++ ", "
                     ++ float_str (amax x) ++ "] is not finite"))
  end.

End Plt.

(** ** The script *)

(** What the script leaves behind: the lines printed, the text files
    written (the latest first) and the figures saved. *)
Record world : Type := {
  stdout : list string;
  files : list (string * string);
  figures : list string
}.

Module IO.
Import Py.

(** A command: it runs in a world and returns a value or raises. *)
Definition t (X : Type) : Type := world -> result X * world.

Definition ret {X} (x : X) : t X := fun w => (inr x, w).

Definition bind {X Y} (m : t X) (k : X -> t Y) : t Y :=
  fun w => match m w with
           | (inl e, w') => (inl e, w')
           | (inr x, w') => k x w'
           end.

(** A pure computation as a command. *)
Definition lift {X} (r : result X) : t X := fun w => (r, w).

(** [try: m  except Exception as e: h e] *)
Definition try_except {X} (m : t X) (h : exn -> t X) : t X :=
  fun w => match m w with
           | (inl e, w') => h e w'
           | (inr x, w') => (inr x, w')
           end.

(** [print(line)] *)
Definition print (line : string) : t unit :=
  fun w => (inr tt, {| stdout := stdout w ++ [line];
                       files := files w;
                       figures := figures w |}).

(** [with open(path, 'w') as f: f.write(...)] for the whole text; the file
    system is taken to accept the write. *)
Definition write_file (path text : string) : t unit :=
  fun w => (inr tt, {| stdout := stdout w;
                       files := (path, text) :: files w;
                       figures := figures w |}).

(** [plt.savefig(path)]; the file system is taken to accept the write. *)
Definition savefig (path : string) : t unit :=
  fun w => (inr tt, {| stdout := stdout w;
                       files := files w;
                       figures := figures w ++ [path] |}).

(** A [for] loop that collects one value for each element. *)
Fixpoint mapM {X Y} (f : X -> t Y) (xs : list X) : t (list Y) :=
  match xs with
  | [] => ret []
  | x :: xs' =>
      bind (f x) (fun y => bind (mapM f xs') (fun ys => ret (y :: ys)))
  end.


End IO.

Notation "x <~ m ;; k" := (IO.bind m (fun x => k))
  (at level 61, m at next level, right associativity).
Notation "m ;;; k" := (IO.bind m (fun _ => k))
  (at level 61, right associativity).

(** *** Paths and text *)

Module Text.

(** The newline character. *)
Definition nl : string := String (ascii_of_nat 10) EmptyString.

(** [s * n] *)
Fixpoint times (s : string) (n : nat) : string :=
  match n with
  | O => EmptyString
  | S n' => (s ++ times s n')%string
  end.

(** The part of [s] before the first [c]; [s.split(c)[0]]. *)
Fixpoint before (c : ascii) (s : string) : string :=
  match s with
  | EmptyString => EmptyString
  | String a s' => if Ascii.eqb a c then EmptyString
                   else String a (before c s')
  end.

(** The part of [s] after the last [c]; the whole of [s] without one. *)
Fixpoint after_last (c : ascii) (s : string) : string :=
  match s with
  | EmptyString => EmptyString
  | String a s' =>
      if existsb (Ascii.eqb c) (list_ascii_of_string s')
      then after_last c s'
      else if Ascii.eqb a c then s' else String a s'
  end.

(** [os.path.basename(path)] *)
Definition basename (path : string) : string := after_last "/"%char path.

Definition ends_with_slash (s : string) : bool :=
  match rev (list_ascii_of_string s) with
  | c :: _ => Ascii.eqb c "/"%char
  | [] => false
  end.

(** [os.path.join(a, b)] *)
Definition path_join (a b : string) : string :=
  match b with
  | String "/"%char _ => b
  | _ => if (String.eqb a "" || ends_with_slash a)%bool then (a ++ b)%string
         else (a ++ "/" ++ b)%string
  end.

End Text.

(** *** The functions of [09_msa_outlier.py] *)

(** The parsed command line ([parse_arguments]). *)
Record arguments : Type := {
  input_dir : string;
  output_dir : string;
  z_threshold : float;
  plot : bool;
  show_plots : bool
}.

(** The dictionary that [process_alignment_file] returns; an outlier is
    [(sequence_id, avg_distance, z_score)]. *)
Record results : Type := {
  alignment_name : string;
  file_path : string;
  num_sequences : nat;
  alignment_length : nat;
  outliers : list (string * float * float);
  plot_path : option string
}.

Section Script.

(** The collaborators outside the repository: the FASTA parser on the files
    of the run, the directory listing, the [:.4f] format of a number,
    Biopython's model registry and substitution-matrix distance, the
    choice of a plotting backend, the text of a number in a message of
    NumPy, [os.makedirs(path, exist_ok=True)] and [os.path.abspath] in the
    working directory of the run. *)
Variable AlignIO_read : string -> string -> Py.result Bio.MultipleSeqAlignment.
Variable glob : string -> string -> list string.
Variable format_4f : float -> string.
Variable models : list string.
Variable matrix_pairwise :
  string -> list ascii -> Bio.SeqRecord -> Bio.SeqRecord -> Py.result float.
Variable setup_matplotlib : IO.t unit.
Variable float_str : float -> string.
Variable makedirs : string -> IO.t unit.
Variable abspath : string -> string.

Definition outlier : Type := (string * float * float)%type.

(** [load_alignment(file_path)] *)
Definition load_alignment (file_path : string)
  : IO.t (option Bio.MultipleSeqAlignment) :=
  IO.try_except
    (alignment <~ IO.lift (AlignIO_read file_path "fasta") ;;
     IO.ret (Some alignment))
    (fun e =>
       IO.print ("Error loading alignment from " ++ file_path ++ ": "
                   ++ Py.str e) ;;;
       IO.ret None).

(** [calculate_distance_matrix(alignment, model)]; the calculator is built
    before the [try]. *)
Definition calculate_distance_matrix (alignment : Bio.MultipleSeqAlignment)
           (model : string) : IO.t (option Bio.DistanceMatrix) :=
  calculator <~ IO.lift (Bio.DistanceCalculator_init models model) ;;
  IO.try_except
    (distance_matrix <~
       IO.lift (Bio.get_distance matrix_pairwise calculator alignment) ;;
     IO.ret (Some distance_matrix))
    (fun e =>
       IO.print ("Error calculating distance matrix: " ++ Py.str e) ;;;
       IO.ret None).

(** [[distance_matrix[i, j] for j in range(n_sequences) if i != j]] *)
Definition seq_distances (distance_matrix : Bio.DistanceMatrix)
           (n_sequences i : nat) : Py.result (list float) :=
  Py.mapM (fun j => Bio.getitem distance_matrix i j)
          (filter (fun j => negb (i =? j)) (List.seq 0 n_sequences)).

(** [enumerate(xs)] *)
Definition enumerate {X} (xs : list X) : list (nat * X) :=
  combine (List.seq 0 (List.length xs)) xs.

(** One turn of the loop that collects the outliers. *)
Definition flag (sequence_ids : list string) (z_threshold : float)
           (found : list outlier) (item : nat * (float * float))
  : Py.result (list outlier) :=
  let '(i, (avg_dist, z_score)) := item in
  if PrimFloat.ltb z_threshold z_score
  then seq_id <- Py.list_get sequence_ids i ;;
       Py.ret (found ++ [(seq_id, avg_dist, z_score)])
  else Py.ret found.

(** [analyze_distances(distance_matrix, sequence_ids, z_threshold)] returns
    [(outliers, avg_distances, z_scores)]. *)
Definition analyze_distances (distance_matrix : Bio.DistanceMatrix)
           (sequence_ids : list string) (z_threshold : float)
  : Py.result (list outlier * list float * list float) :=
  let n_sequences := List.length sequence_ids in
  avg_distances <-
    Py.mapM (fun i => ds <- seq_distances distance_matrix n_sequences i ;;
                      Py.ret (Np.mean ds))
            (List.seq 0 n_sequences) ;;
  let z_scores := Scipy.zscore avg_distances in
  found <- Py.foldM (flag sequence_ids z_threshold)
                    (enumerate (combine avg_distances z_scores)) [] ;;
  Py.ret (found, avg_distances, z_scores).

(** [[sequence_ids.index(outlier[0]) for outlier in outliers]], the
    positions that [plot_distance_distribution] highlights; [index] raises
    [ValueError] for an identifier that is not in the list. *)
Definition outlier_indices (sequence_ids : list string)
           (found : list outlier) : Py.result (list nat) :=
  Py.mapM (fun o : outlier =>
             match Py.index (fst (fst o)) sequence_ids with
             | Some i => Py.ret i
             | None => Py.raise (Py.ValueError
                                   ("'" ++ fst (fst o)
                                        ++ "' is not in list")%string)
             end)
          found.

(** [plot_distance_distribution(avg_distances, z_scores, sequence_ids,
    outliers, alignment_name, output_dir, show_plot)]: the figure is drawn
    by matplotlib.  What can fail of it are the look-ups of the outliers and
    the histogram of the z-scores; what the script keeps of it is the path
    the figure was saved at. *)
Definition plot_distance_distribution (avg_distances z_scores : list float)
           (sequence_ids : list string) (found : list outlier)
           (alignment_name output_dir : string) : IO.t string :=
  indices <~ IO.lift (outlier_indices sequence_ids found) ;;
  IO.lift (match indices with
           | [] => Py.ret []
           | _ :: _ => Py.mapM (Py.list_get avg_distances) indices
           end) ;;;
  IO.lift (Py.mapM (fun i => seq_id <- Py.list_get sequence_ids i ;;
                             avg_dist <- Py.list_get avg_distances i ;;
                             Py.ret (seq_id, avg_dist))
                   indices) ;;;
  IO.lift (Plt.hist float_str z_scores) ;;;
  let plot_path :=
    Text.path_join output_dir (alignment_name ++ "_distance_plot.png") in
  IO.savefig plot_path ;;;
  IO.ret plot_path.

(** [process_alignment_file(file_path, output_dir, z_threshold,
    generate_plot, show_plot)] *)
Definition process_alignment_file (file_path output_dir : string)
           (z_threshold : float) (generate_plot : bool)
  : IO.t (option results) :=
  loaded <~ load_alignment file_path ;;
  match loaded with
  | None => IO.ret None
  | Some alignment =>
      let alignment_name :=
        Text.before "."%char (Text.basename file_path) in
      let sequence_ids := map Bio.id alignment in
      computed <~ calculate_distance_matrix alignment "identity" ;;
      match computed with
      | None => IO.ret None
      | Some distance_matrix =>
          analysis <~ IO.lift (analyze_distances distance_matrix
                                 sequence_ids z_threshold) ;;
          let '(found, avg_distances, z_scores) := analysis in
          saved <~ (if generate_plot
                    then path <~ plot_distance_distribution avg_distances
                                   z_scores sequence_ids found
                                   alignment_name output_dir ;;
                         IO.ret (Some path)
                    else IO.ret None) ;;
          IO.ret (Some {| alignment_name := alignment_name;
                          file_path := file_path;
                          num_sequences := List.length alignment;
                          alignment_length :=
                            Bio.get_alignment_length alignment;
                          outliers := found;
                          plot_path := saved |})
      end
  end.

(** The truth value of [result['plot_path']]. *)
Definition truthy (p : option string) : bool :=
  match p with
  | Some s => negb (String.eqb s "")
  | None => false
  end.

(** The lines of one outlier. *)
Definition outlier_line (o : outlier) : string :=
  let '(seq_id, avg_dist, z_score) := o in
  "  - " ++ seq_id ++ ": Avg Distance = " ++ format_4f avg_dist
    ++ ", Z-score = " ++ format_4f z_score ++ Text.nl.

Definition no_outliers_line : string :=
  Text.nl ++ "No outlier sequences detected." ++ Text.nl.

Definition no_outliers_statement : string :=
  "No outlier sequences were detected in any alignments." ++ Text.nl.

Definition rule : string :=
  Text.nl ++ Text.times "-" 50 ++ Text.nl ++ Text.nl.

(** The four lines that open the section of an alignment. *)
Definition section_head (result : results) : list string :=
  [ ("Alignment: " ++ alignment_name result ++ Text.nl)%string;
    ("File: " ++ file_path result ++ Text.nl)%string;
    ("Sequences: " ++ Py.str_of_nat (num_sequences result)
       ++ Text.nl)%string;
    ("Alignment Length: " ++ Py.str_of_nat (alignment_length result)
       ++ Text.nl)%string ].

Definition potential_line : string :=
  Text.nl ++ "Potential outlier sequences:" ++ Text.nl.

Definition plot_line (result : results) : string :=
  Text.nl ++ "Distance plot saved to: "
    ++ match plot_path result with
       | Some p => p
       | None => "None"
       end ++ Text.nl.

Definition title : list string :=
  [ ("OUTLIER SEQUENCE ANALYSIS REPORT" ++ Text.nl)%string;
    ("===============================" ++ Text.nl ++ Text.nl)%string ].

(** The loop of [write_report]: the strings written so far, in order, and
    [found_outliers]. *)
Fixpoint report_loop (rs : list (option results))
         (written : list string) (found_outliers : bool)
  : list string * bool :=
  match rs with
  | [] => (written, found_outliers)
  | None :: rs' => report_loop rs' written found_outliers
  | Some result :: rs' =>
      let written := written ++ section_head result in
      let '(written, found_outliers) :=
        match outliers result with
        | _ :: _ =>
            (written ++ [potential_line]
               ++ map outlier_line (outliers result)
               ++ (if truthy (plot_path result)
                   then [plot_line result] else []),
             true)
        | [] => (written ++ [no_outliers_line], found_outliers)
        end in
      report_loop rs' (written ++ [rule]) found_outliers
  end.

(** Everything [write_report] writes to the report, in order. *)
Definition report_writes (rs : list (option results)) : list string :=
  let '(written, found_outliers) := report_loop rs title false in
  if found_outliers then written else written ++ [no_outliers_statement].

(** The text of the report. *)
Definition report_text (rs : list (option results)) : string :=
  String.concat "" (report_writes rs).

(** [write_report(results, output_dir)] *)
Definition write_report (rs : list (option results))
           (output_dir : string) : IO.t string :=
  let report_path := Text.path_join output_dir "outlier_report.txt" in
  IO.write_file report_path (report_text rs) ;;;
  IO.print ("Report saved to " ++ report_path) ;;;
  IO.ret report_path.

(** The extensions that [main] looks for. *)
Definition extensions : list string :=
  [".fasta"; ".fa"; ".faa"; ".fna"; ".aln"; ".fas"]%string.

(** [main()], after the command line is parsed. *)
Definition main (args : arguments) : IO.t unit :=
  (if show_plots args then setup_matplotlib else IO.ret tt) ;;;
  makedirs (output_dir args) ;;;
  let input_files :=
    flat_map (fun ext => glob (input_dir args) ("*" ++ ext)) extensions in
  match input_files with
  | [] => IO.print ("No FASTA files found in " ++ input_dir args)
  | _ :: _ =>
      IO.print ("Found " ++ Py.str_of_nat (List.length input_files)
                  ++ " alignment files to process.") ;;;
      rs <~ IO.mapM (fun file_path =>
                       IO.print ("Processing " ++ file_path ++ "...") ;;;
                       process_alignment_file file_path (output_dir args)
                         (z_threshold args) (plot args))
                    input_files ;;
      write_report rs (output_dir args) ;;;
      IO.print "Analysis complete!" ;;;
      if plot args && negb (show_plots args)
      then IO.print (Text.nl ++ "Plots have been saved to the output "
                       ++ "directory but were not displayed.") ;;;
           IO.print ("You can find them in: "
                       ++ abspath (output_dir args)) ;;;
           IO.print ("To view plots interactively during analysis, "
                       ++ "run with --show_plots flag")
      else IO.ret tt
  end.

End Script.

(** ** Reading the results *)

(** The non-[None] entries of the list that [main] hands to
    [write_report]. *)
Fixpoint processed (rs : list (option results)) : list results :=
  match rs with
  | [] => []
  | None :: rs' => processed rs'
  | Some r :: rs' => r :: processed rs'
  end.

(** The sequence [seq_id] is in the outlier list. *)
Definition is_flagged (found : list outlier) (seq_id : string) : Prop :=
  exists avg_dist z_score, In (seq_id, avg_dist, z_score) found.

(** The outliers among the sequences numbered from [k], read off the pairs
    [(avg_distance, z_score)]. *)
Fixpoint flagged_from (sequence_ids : list string) (z_threshold : float)
         (k : nat) (pairs : list (float * float)) : list outlier :=
  match pairs with
  | [] => []
  | (avg_dist, z_score) :: pairs' =>
      (if PrimFloat.ltb z_threshold z_score
       then [(nth k sequence_ids ""%string, avg_dist, z_score)] else [])
        ++ flagged_from sequence_ids z_threshold (S k) pairs'
  end.

(** The mean distances of [analyze_distances]. *)
Definition avg_distances (dm : Bio.DistanceMatrix) (n : nat)
  : Py.result (list float) :=
  Py.mapM (fun i => ds <- seq_distances dm n i ;; Py.ret (Np.mean ds))
          (List.seq 0 n).

(** The entry of row [r] and column [c] of a stored triangle. *)
Definition entry (m : list (list float)) (r c : nat) : option float :=
  match nth_error m r with
  | Some row => nth_error row c
  | None => None
  end.

(** Every entry of the lower triangle of size [n] is stored. *)
Definition stored (n : nat) (m : list (list float)) : Prop :=
  forall r c, c <= r -> r < n -> entry m r c <> None.

(** A matrix whose triangle is complete. *)
Definition well_formed (dm : Bio.DistanceMatrix) : Prop :=
  stored (Bio.len dm) (Bio.matrix dm).

(** The state of a matrix under construction for the names [ns]: the
    triangle is complete, its diagonal is zero and every entry satisfies
    [P]. *)
Definition invariant (P : float -> Prop) (ns : list string)
           (dm : Bio.DistanceMatrix) : Prop :=
  Bio.names dm = ns
  /\ stored (List.length ns) (Bio.matrix dm)
  /\ (forall i, i < List.length ns ->
                entry (Bio.matrix dm) i i = Some (float_of_nat 0))
  /\ (forall r c v, entry (Bio.matrix dm) r c = Some v -> P v).

(** ** Reading the report *)

Section Sections.
Variable format_4f : float -> string.

(** [result['outliers']] is not empty. *)
Definition has_outliers (result : results) : bool :=
  match outliers result with
  | [] => false
  | _ :: _ => true
  end.

(** What the report says of the outliers of one alignment. *)
Definition section_body (result : results) : list string :=
  match outliers result with
  | [] => [no_outliers_line]
  | _ :: _ =>
      [potential_line]
        ++ map (outlier_line format_4f) (outliers result)
        ++ (if truthy (plot_path result) then [plot_line result] else [])
  end.

(** The section of one alignment. *)
Definition section_writes (result : results) : list string :=
  section_head result ++ section_body result ++ [rule].

(** The string [s] ends the text [text]. *)
Definition ends_with (text s : string) : Prop :=
  exists before, text = (before ++ s)%string.


(** The world after a line is printed in [w]. *)
Definition printed (line : string) (w : world) : world :=
  {| stdout := stdout w ++ [line]; files := files w; figures := figures w |}.

End Sections.

(** ** Sample data *)

Module Sample.
Import Bio.

(** No substitution matrix is loaded. *)
Definition no_matrix (model : string) (skip : list ascii)
           (seq1 seq2 : SeqRecord) : Py.result float :=
  Py.raise (Py.ValueError "no substitution matrix").

(** A fresh world. *)
Definition w0 : world := {| stdout := []; files := []; figures := [] |}.

(** Three equal sequences and one that differs at every position. *)
Definition abcd : MultipleSeqAlignment :=
  [ {| id := "A"; seq := "AAAA" |}; {| id := "B"; seq := "AAAA" |};
    {| id := "C"; seq := "AAAA" |}; {| id := "D"; seq := "TTTT" |} ].

(** Five copies of one sequence. *)
Definition copies : MultipleSeqAlignment :=
  map (fun n => {| id := n; seq := "ACGT" |})
      ["s1"; "s2"; "s3"; "s4"; "s5"]%string.

(** One sequence. *)
Definition single : MultipleSeqAlignment := [ {| id := "A"; seq := "ACGT" |} ].

(** Two records with the same identifier. *)
Definition twins : MultipleSeqAlignment :=
  [ {| id := "A"; seq := "ACGT" |}; {| id := "A"; seq := "ACGA" |} ].

(** The calculator of the identity model. *)
Definition identity : DistanceCalculator :=
  {| skip_letters := []; scoring_matrix := None |}.

(** Eleven sequences of eleven letters; two of them agree at the first
    position and nowhere else. *)
Definition eleven : MultipleSeqAlignment :=
  map (fun c => {| id := String c "";
                   seq := String "A" (string_of_list_ascii (repeat c 10)) |})
      (list_ascii_of_string "CDEFGHIKLMN").

(** The identifiers of [abcd], their mean distances and z-scores. *)
Definition abcd_ids : list string := ["A"; "B"; "C"; "D"]%string.

Definition abcd_avgs : list float :=
  [ (1 / 3)%float; (1 / 3)%float; (1 / 3)%float; 1%float ].

Definition abcd_zs : list float := Scipy.zscore abcd_avgs.

(** The z-score of [D]. *)
Definition z_D : float := nth 3 abcd_zs PrimFloat.nan.

(** A parser that finds no record in any file. *)
Definition no_records (file_path format : string)
  : Py.result MultipleSeqAlignment :=
  Py.raise (Py.ValueError "No records found in handle").

(** A parser that finds [abcd] in every file. *)
Definition reads_abcd (file_path format : string)
  : Py.result MultipleSeqAlignment :=
  Py.ret abcd.

(** A parser that finds [twins] in every file. *)
Definition reads_twins (file_path format : string)
  : Py.result MultipleSeqAlignment :=
  Py.ret twins.

(** A number format that prints a question mark. *)
Definition no_format (x : float) : string := "?".

(** A parser that finds [copies] in every file. *)
Definition reads_copies (file_path format : string)
  : Py.result MultipleSeqAlignment :=
  Py.ret copies.

(** The text of a number in a message, for the one number that occurs in
    the messages below. *)
Definition nan_str (x : float) : string :=
  if PrimFloat.is_nan x then "nan" else "?".

(** A directory with the one file [genes.fasta]. *)
Definition one_file (dir pattern : string) : list string :=
  if String.eqb pattern "*.fasta" then [(dir ++ "/genes.fasta")%string]
  else [].

(** A backend that is accepted. *)
Definition accepts (name : string) : Py.result unit := Py.ret tt.

(** An output directory that exists. *)
Definition exists_ok (path : string) : IO.t unit := IO.ret tt.

(** [--plot] on the directory [data], with the defaults otherwise. *)
Definition with_plot : arguments :=
  {| input_dir := "data"; output_dir := "out"; z_threshold := 3;
     plot := true; show_plots := false |}.

(** The result of an alignment of four sequences without outliers. *)
Definition quiet : results :=
  {| alignment_name := "genes";
     file_path := "data/genes.fasta";
     num_sequences := 4;
     alignment_length := 4;
     outliers := [];
     plot_path := None |}.

(** The matrix of an alignment under the identity model, empty if the
    calculator raises. *)
Definition matrix_of (msa : MultipleSeqAlignment)
  : DistanceMatrix :=
  match get_distance (no_matrix) identity msa with
  | inr dm => dm
  | inl _ => {| names := []; matrix := [] |}
  end.

End Sample.

(** ** Positions *)

(** The positions whose z-score is above the threshold, in increasing
    order. *)
Definition flagged_indices (z_threshold : float) (z_scores : list float)
  : list nat :=
  filter (fun i => PrimFloat.ltb z_threshold (nth i z_scores PrimFloat.nan))
         (List.seq 0 (List.length z_scores)).

(** The character [c] occurs in [s]. *)
Definition occurs (c : ascii) (s : string) : bool :=
  existsb (Ascii.eqb c) (list_ascii_of_string s).

(** The world after a figure is saved in [w]. *)
Definition saved (path : string) (w : world) : world :=
  {| stdout := stdout w; files := files w; figures := figures w ++ [path] |}.

(** The path of the plot of an alignment. *)
Definition plot_file (output_dir alignment_name : string) : string :=
  Text.path_join output_dir (alignment_name ++ "_distance_plot.png").

(** The name that [process_alignment_file] gives to the alignment of a
    file: [os.path.basename(file_path).split('.')[0]]. *)
Definition name_of (file_path : string) : string :=
  Text.before "."%char (Text.basename file_path).

(** ** The plotting backend *)

(** The backend that [setup_matplotlib] asks for, from the value of
    [DISPLAY] in the environment and from [os.name]. *)
Definition backend (display : option string) (os_name : string) : string :=
  if truthy display then "TkAgg"
  else if String.eqb os_name "nt" then "TkAgg"
       else if String.eqb os_name "posix" then "MacOSX"
            else "Agg".

(** [setup_matplotlib()]: [use] is [matplotlib.use], which may raise, and
    [get_backend] gives the name that matplotlib reports for the backend
    in use. *)
Definition setup_matplotlib (display : option string) (os_name : string)
           (use : string -> Py.result unit) (get_backend : string -> string)
  : IO.t unit :=
  IO.try_except
    (IO.lift (use (backend display os_name)) ;;;
     IO.print ("Using matplotlib backend: "
                 ++ get_backend (backend display os_name)))
    (fun e =>
       IO.print ("Warning: Could not set matplotlib backend: " ++ Py.str e) ;;;
       IO.print "Plots will be saved but may not display interactively.").

(** The figure that a result records, if any. *)
Definition figure_of (result : results) : list string :=
  match plot_path result with
  | Some p => [p]
  | None => []
  end.

(** The files that [main] processes, in its order. *)
Definition input_files (glob : string -> string -> list string)
           (args : arguments) : list string :=
  flat_map (fun ext => glob (input_dir args) ("*" ++ ext)%string) extensions.

(** ** The outcome of a file in a run *)

Section Outcome.
Variable read : string -> string -> Py.result Bio.MultipleSeqAlignment.
Variable models : list string.
Variable mp :
  string -> list ascii -> Bio.SeqRecord -> Bio.SeqRecord -> Py.result float.
Variable float_str : float -> string.
Variable args : arguments.



End Outcome.

(** * Properties *)

(** ** Results and commands *)

Lemma bind_inr {X Y} (m : Py.result X) (k : X -> Py.result Y) (y : Y) :
  Py.bind m k = inr y -> exists x, m = inr x /\ k x = inr y.
Proof.
  destruct m as [e | x]; simpl; intros H; [discriminate | eauto].
Qed.

Lemma mapM_length {X Y} (f : X -> Py.result Y) (xs : list X) (ys : list Y) :
  Py.mapM f xs = inr ys -> List.length ys = List.length xs.
Proof.
  revert ys; induction xs as [| x xs IH]; simpl; intros ys H.
  - injection H as <-. reflexivity.
  - apply bind_inr in H as (y & _ & H).
    apply bind_inr in H as (ys' & Hys & H).
    injection H as <-. simpl. f_equal. now apply IH.
Qed.

Lemma mapM_total {X Y} (f : X -> Py.result Y) (xs : list X) :
  (forall x, In x xs -> exists y, f x = inr y) ->
  exists ys, Py.mapM f xs = inr ys.
Proof.
  induction xs as [| x xs IH]; simpl; intros H.
  - now exists [].
  - destruct (H x) as (y & Hy); [now left |].
    destruct IH as (ys & Hys); [intros; apply H; now right |].
    exists (y :: ys). now rewrite Hy, Hys.
Qed.

(** ** Order of binary64 numbers *)

Ltac compare_cases :=
  repeat match goal with
  | |- context [Pos.compare_cont Eq ?a ?b] =>
      change (Pos.compare_cont Eq a b) with (Pos.compare a b)
  | H : context [Pos.compare_cont Eq ?a ?b] |- _ =>
      change (Pos.compare_cont Eq a b) with (Pos.compare a b) in H
  end;
  repeat match goal with
  | H : context [Z.compare ?a ?b] |- _ =>
      destruct (Z.compare_spec a b); simpl in H
  | |- context [Z.compare ?a ?b] =>
      destruct (Z.compare_spec a b); simpl
  | H : context [Pos.compare ?a ?b] |- _ =>
      destruct (Pos.compare_spec a b); simpl in H
  | |- context [Pos.compare ?a ?b] =>
      destruct (Pos.compare_spec a b); simpl
  end;
  subst; try discriminate; try reflexivity; try lia.

Lemma SFleb_ltb_trans a b c :
  SFleb a b = true -> SFltb b c = true -> SFltb a c = true.
Proof.
  unfold SFleb, SFltb, SFcompare.
  destruct a as [[|]|[|]| |[|] ma ea], b as [[|]|[|]| |[|] mb eb],
           c as [[|]|[|]| |[|] mc ec];
    simpl; intros H1 H2; try discriminate; try reflexivity; compare_cases.
Qed.

Lemma SFeqb_not_ltb a b : SFeqb a b = true -> SFltb b a = false.
Proof.
  unfold SFeqb, SFltb, SFcompare.
  destruct a as [[|]|[|]| |[|] ma ea], b as [[|]|[|]| |[|] mb eb];
    simpl; intros H1; try discriminate; try reflexivity; compare_cases.
Qed.

Lemma SFltb_nan_r a : SFltb a S754_nan = false.
Proof. destruct a as [[|]|[|]| |[|] ma ea]; reflexivity. Qed.

(** Nothing is below [nan]. *)
Lemma ltb_nan_r (t : float) : PrimFloat.ltb t PrimFloat.nan = false.
Proof. rewrite ltb_spec. apply SFltb_nan_r. Qed.

(** [t1 <= t2 < z] gives [t1 < z]. *)
Lemma leb_ltb_trans (t1 t2 z : float) :
  PrimFloat.leb t1 t2 = true -> PrimFloat.ltb t2 z = true ->
  PrimFloat.ltb t1 z = true.
Proof. rewrite leb_spec, !ltb_spec. apply SFleb_ltb_trans. Qed.

(** A number equal to the threshold is not above it. *)
Lemma eqb_not_ltb (z t : float) :
  PrimFloat.eqb z t = true -> PrimFloat.ltb t z = false.
Proof. rewrite eqb_spec, ltb_spec. apply SFeqb_not_ltb. Qed.

(** ** Digits of binary64 mantissas *)

Local Open Scope Z_scope.

(** The number of binary digits is the size of the number. *)
Lemma digits2_pos_size (p : positive) : digits2_pos p = Pos.size p.
Proof. induction p; simpl; congruence. Qed.

Lemma digits2_bounds (p : positive) :
  2 ^ (Zpos (digits2_pos p) - 1) <= Zpos p < 2 ^ Zpos (digits2_pos p).
Proof.
  induction p as [p IH | p IH |]; cbn [digits2_pos].
  - rewrite Pos2Z.inj_succ.
    replace (Z.succ (Zpos (digits2_pos p)) - 1) with (Zpos (digits2_pos p)) by lia.
    rewrite Z.pow_succ_r by lia.
    assert (E : 2 ^ Zpos (digits2_pos p) = 2 * 2 ^ (Zpos (digits2_pos p) - 1)).
    { rewrite <- Z.pow_succ_r by lia. f_equal. lia. }
    lia.
  - rewrite Pos2Z.inj_succ.
    replace (Z.succ (Zpos (digits2_pos p)) - 1) with (Zpos (digits2_pos p)) by lia.
    rewrite Z.pow_succ_r by lia.
    assert (E : 2 ^ Zpos (digits2_pos p) = 2 * 2 ^ (Zpos (digits2_pos p) - 1)).
    { rewrite <- Z.pow_succ_r by lia. f_equal. lia. }
    lia.
  - simpl. lia.
Qed.

(** The digits of a positive number are determined by its bounds. *)
Lemma digits2_unique (p : positive) (d : Z) :
  2 ^ (d - 1) <= Zpos p < 2 ^ d -> Zpos (digits2_pos p) = d.
Proof.
  intros [Hlo Hhi]. pose proof (digits2_bounds p) as [Hlo' Hhi'].
  assert (Hd : 0 < d).
  { destruct (Z.lt_ge_cases 0 d) as [? | Hle]; [assumption |].
    assert (2 ^ d <= 2 ^ 0) by (apply Z.pow_le_mono_r; lia).
    simpl in *. lia. }
  destruct (Z.lt_trichotomy (Zpos (digits2_pos p)) d) as [Hlt | [E | Hgt]];
    [| exact E |].
  - assert (2 ^ Zpos (digits2_pos p) <= 2 ^ (d - 1))
      by (apply Z.pow_le_mono_r; lia). lia.
  - assert (2 ^ d <= 2 ^ (Zpos (digits2_pos p) - 1))
      by (apply Z.pow_le_mono_r; lia). lia.
Qed.

Lemma digits2_le (p : positive) (k : Z) :
  0 <= k -> Zpos p <= 2 ^ k -> Zpos (digits2_pos p) <= k + 1.
Proof.
  intros Hk Hp. pose proof (digits2_bounds p) as [Hlo _].
  destruct (Z.le_gt_cases (Zpos (digits2_pos p)) (k + 1)) as [? | Hgt];
    [assumption |].
  assert (2 ^ (k + 1) <= 2 ^ (Zpos (digits2_pos p) - 1))
    by (apply Z.pow_le_mono_r; lia).
  rewrite Z.pow_add_r, Z.pow_1_r in H by lia.
  assert (0 < 2 ^ k) by (apply Z.pow_pos_nonneg; lia). lia.
Qed.

(** ** Shifting right below a power of two *)

Lemma under_shr_1 (k : Z) (mrs : shr_record) :
  0 <= k -> under (k + 1) mrs -> under k (shr_1 mrs).
Proof.
  intros Hk [[Hlo Hhi] Hin]. destruct mrs as [m r s].
  unfold under, inexact in *. cbn [shr_m shr_r shr_s] in *.
  rewrite Z.pow_add_r, Z.pow_1_r in * by lia.
  assert (Hpos : 0 < 2 ^ k) by (apply Z.pow_pos_nonneg; lia).
  destruct m as [| [p | p |] | p]; cbn [shr_1 shr_m shr_r shr_s].
  - split; [lia |]. intros _. lia.
  - split; [lia |]. intros _. lia.
  - split; [lia |]. rewrite orb_false_l. intros H. specialize (Hin H). lia.
  - split; [lia |]. intros _. lia.
  - lia.
Qed.

Lemma under_iter_shr_1 (p : positive) :
  forall (k : Z) (mrs : shr_record),
    0 <= k -> under (k + Zpos p) mrs -> under k (iter_pos shr_1 p mrs).
Proof.
  induction p as [p IH | p IH |]; intros k mrs Hk H; cbn [iter_pos].
  - apply IH; [exact Hk |]. apply IH; [lia |].
    apply under_shr_1; [lia |].
    replace (k + Zpos p + Zpos p + 1) with (k + Zpos p~1) by lia. exact H.
  - apply IH; [exact Hk |]. apply IH; [lia |].
    replace (k + Zpos p + Zpos p) with (k + Zpos p~0) by lia. exact H.
  - now apply under_shr_1.
Qed.

(** ** Rounding a number that is at most one *)

Lemma Zdigits2_le (m k : Z) :
  0 <= k -> 0 <= m <= 2 ^ k -> Zdigits2 m <= k + 1.
Proof.
  intros Hk [Hlo Hhi]. destruct m as [| p | p]; simpl; [lia | | lia].
  now apply digits2_le.
Qed.

Lemma fexp_le (d e : Z) : d + e <= 1 -> fexp prec emax (d + e) <= -52.
Proof. unfold fexp, SpecFloat.emin, prec, emax. lia. Qed.

Lemma shr_fexp_under (m e : Z) (l : location) :
  e <= -52 -> under (- e) (shr_record_of_loc m l) ->
  e <= snd (shr_fexp prec emax m e l) <= -52
  /\ under (- snd (shr_fexp prec emax m e l))
           (fst (shr_fexp prec emax m e l)).
Proof.
  intros He Hu. unfold shr_fexp, shr.
  assert (Hm : 0 <= m <= 2 ^ (- e)).
  { destruct Hu as [Hu _]. destruct l as [| []]; exact Hu. }
  assert (Hd : Zdigits2 m + e <= 1).
  { pose proof (Zdigits2_le m (- e) ltac:(lia) Hm). lia. }
  pose proof (fexp_le _ _ Hd) as Hf.
  destruct (fexp prec emax (Zdigits2 m + e) - e) as [| p | p] eqn:En;
    cbn [fst snd].
  - split; [lia | exact Hu].
  - split; [lia |].
    apply under_iter_shr_1; [lia |].
    replace (- (e + Zpos p) + Zpos p) with (- e) by lia. exact Hu.
  - split; [lia | exact Hu].
Qed.

Lemma binary_round_aux_unit (mx ex : Z) (lx : location) :
  ex <= -52 -> 0 <= mx <= 2 ^ (- ex) ->
  (lx <> loc_Exact -> mx < 2 ^ (- ex)) ->
  unit_sf (binary_round_aux prec emax false mx ex lx).
Proof.
  intros He Hm Hl. unfold binary_round_aux.
  assert (Hu : under (- ex) (shr_record_of_loc mx lx)).
  { unfold under, inexact.
    destruct lx as [| []]; cbn [shr_record_of_loc shr_m shr_r shr_s];
      (split; [exact Hm |]); intros H; try discriminate;
      apply Hl; discriminate. }
  pose proof (shr_fexp_under mx ex lx He Hu) as [[_ He1] Hu1].
  destruct (shr_fexp prec emax mx ex lx) as [mrs1 e1]. cbn [fst snd] in *.
  set (m2 := round_nearest_even (shr_m mrs1) (loc_of_shr_record mrs1)).
  assert (Hm2 : 0 <= m2 <= 2 ^ (- e1)).
  { unfold m2. destruct Hu1 as [[Hlo Hhi] Hin]. unfold inexact in Hin.
    destruct mrs1 as [m r s]. cbn [shr_m shr_r shr_s] in *.
    destruct r, s; cbn [loc_of_shr_record round_nearest_even];
      try (specialize (Hin eq_refl)); try lia.
    destruct (Z.even m); lia. }
  assert (Hu2 : under (- e1) (shr_record_of_loc m2 loc_Exact)).
  { unfold under, inexact. cbn [shr_record_of_loc shr_m shr_r shr_s].
    split; [exact Hm2 | discriminate]. }
  pose proof (shr_fexp_under m2 e1 loc_Exact He1 Hu2) as [[_ He2] Hu3].
  destruct (shr_fexp prec emax m2 e1 loc_Exact) as [mrs3 e3].
  cbn [fst snd] in *. destruct Hu3 as [[Hlo Hhi] _].
  destruct (shr_m mrs3) as [| m | m]; [now left | | lia].
  right. destruct (Z.leb_spec e3 (emax - prec)) as [_ | Hgt].
  - exists m, e3. auto.
  - unfold emax, prec in Hgt. lia.
Qed.

Lemma unit_sf_range (c : positive) (f : spec_float) :
  Zpos c = 2 ^ 52 -> unit_sf f ->
  SFleb SF_zero f = true /\ SFleb f (S754_finite false c (-52)) = true.
Proof.
  intros Hc [-> | (m & e & -> & He & Hm)]; [split; reflexivity |].
  split; [reflexivity |].
  unfold SFleb, SFcompare.
  destruct (Z.compare_spec e (-52)) as [-> | _ | ?]; [| reflexivity | lia].
  change (- -52) with 52 in Hm. rewrite <- Hc in Hm.
  change (Pos.compare_cont Eq m c) with (Pos.compare m c).
  destruct (Pos.compare_spec m c); try reflexivity. lia.
Qed.

(** ** Converting a small integer *)

Lemma fexp_canonical (ez : Z) :
  -1074 <= ez -> fexp prec emax (53 + ez) - ez = 0.
Proof. unfold fexp, SpecFloat.emin, prec, emax. lia. Qed.

Lemma binary_round_aux_exact (s : bool) (mz : positive) (ez : Z) :
  Zpos (digits2_pos mz) = 53 -> -1074 <= ez <= 971 ->
  binary_round_aux prec emax s (Zpos mz) ez loc_Exact = S754_finite s mz ez.
Proof.
  intros Hd He. unfold binary_round_aux, shr_fexp.
  cbn [Zdigits2 shr_record_of_loc]. rewrite Hd, fexp_canonical by lia.
  cbn [shr shr_m loc_of_shr_record round_nearest_even Zdigits2
       shr_record_of_loc].
  rewrite Hd, fexp_canonical by lia. cbn [shr shr_m].
  destruct (Z.leb_spec ez (emax - prec)) as [_ | Hgt]; [reflexivity |].
  unfold emax, prec in Hgt. lia.
Qed.

Lemma pow2_split (a b : Z) : 0 <= a -> 0 <= b -> 2 ^ (a + b) = 2 ^ a * 2 ^ b.
Proof. intros. now apply Z.pow_add_r. Qed.

(** The conversion of an integer below [2 ^ 53] is exact. *)
Lemma binary_normalize_small (p : positive) :
  Zpos p < 2 ^ 53 ->
  exists mz ez,
    binary_normalize prec emax (Zpos p) 0 false = S754_finite false mz ez
    /\ -52 <= ez <= 0
    /\ Zpos mz = Zpos p * 2 ^ (- ez)
    /\ Zpos (digits2_pos mz) = 53.
Proof.
  intros Hp. unfold binary_normalize, binary_round.
  pose proof (digits2_bounds p) as [Hlo Hhi].
  set (d := Zpos (digits2_pos p)) in *.
  assert (Hd : 1 <= d <= 53).
  { split; [unfold d; lia |].
    destruct (Z.le_gt_cases d 53) as [? | Hgt]; [assumption |].
    assert (2 ^ 53 <= 2 ^ (d - 1)) by (apply Z.pow_le_mono_r; lia). lia. }
  replace (fexp prec emax (d + 0)) with (d - 53)
    by (unfold fexp, SpecFloat.emin, prec, emax; lia).
  unfold shl_align.
  destruct (d - 53 - 0) as [| k | k] eqn:Ek; [| lia |].
  - assert (E : d = 53) by lia.
    rewrite binary_round_aux_exact by (fold d; lia).
    exists p, 0. rewrite Z.mul_1_r. fold d. auto with zarith.
  - assert (Hm : Zpos (Pos.iter xO p k) = Zpos p * 2 ^ Zpos k).
    { change (Pos.iter xO p k) with (shift_pos k p).
      rewrite shift_pos_correct. change (Z.pow_pos 2 k) with (2 ^ Zpos k).
      lia. }
    assert (Hdig : Zpos (digits2_pos (Pos.iter xO p k)) = 53).
    { apply digits2_unique. rewrite Hm.
      assert (Hk : Zpos k = 53 - d) by lia.
      assert (E1 : 2 ^ (53 - 1) = 2 ^ (d - 1) * 2 ^ Zpos k).
      { rewrite <- pow2_split by lia. f_equal. lia. }
      assert (E2 : 2 ^ 53 = 2 ^ d * 2 ^ Zpos k).
      { rewrite <- pow2_split by lia. f_equal. lia. }
      assert (0 < 2 ^ Zpos k) by (apply Z.pow_pos_nonneg; lia).
      rewrite E1, E2. split; nia. }
    rewrite binary_round_aux_exact by (try exact Hdig; lia).
    exists (Pos.iter xO p k), (d - 53).
    split; [reflexivity | split; [lia | split; [| exact Hdig]]].
    rewrite Hm. f_equal. f_equal. lia.
Qed.

(** ** Dividing by a greater number *)

Lemma new_location_exact (n k : Z) : new_location n k = loc_Exact -> k = 0.
Proof.
  unfold new_location, new_location_even, new_location_odd.
  destruct (Z.even n); destruct (Z.eqb_spec k 0); congruence.
Qed.

Lemma SFdiv_unit (mx my : positive) (ex ey : Z) :
  Zpos (digits2_pos mx) = 53 -> Zpos (digits2_pos my) = 53 ->
  -52 <= ex <= ey -> ey <= 0 ->
  Zpos mx <= Zpos my * 2 ^ (ey - ex) ->
  unit_sf (SFdiv prec emax (S754_finite false mx ex) (S754_finite false my ey)).
Proof.
  intros Hdx Hdy Hex Hey Hle. unfold SFdiv, SFdiv_core_binary.
  cbn [Zdigits2 xorb]. rewrite Hdx, Hdy.
  replace (Z.min (fexp prec emax (53 + ex - (53 + ey))) (ex - ey))
    with (ex - ey - 53)
    by (unfold fexp, SpecFloat.emin, prec, emax; lia).
  replace (ex - ey - (ex - ey - 53)) with 53 by lia.
  rewrite Z.shiftl_mul_pow2 by lia.
  pose proof (Z_div_mod (Zpos mx * 2 ^ 53) (Zpos my) ltac:(lia)) as Hdiv.
  destruct (Z.div_eucl (Zpos mx * 2 ^ 53) (Zpos my)) as [q r].
  destruct Hdiv as [Heq Hr].
  assert (Hpow : 2 ^ (- (ex - ey - 53)) = 2 ^ (ey - ex) * 2 ^ 53).
  { rewrite <- pow2_split by lia. f_equal. lia. }
  assert (Ht : 0 < 2 ^ (ey - ex)) by (apply Z.pow_pos_nonneg; lia).
  assert (H53 : 0 < 2 ^ 53) by (apply Z.pow_pos_nonneg; lia).
  assert (Hq0 : 0 <= q).
  { destruct (Z.le_gt_cases 0 q) as [? | Hneg]; [assumption |].
    assert (Zpos my * q <= Zpos my * (-1)) by (apply Z.mul_le_mono_nonneg_l; lia).
    nia. }
  assert (Hbound : Zpos my * q + r <= Zpos my * (2 ^ (ey - ex) * 2 ^ 53)).
  { rewrite <- Heq. rewrite Z.mul_assoc.
    apply Z.mul_le_mono_nonneg_r; lia. }
  apply binary_round_aux_unit.
  - lia.
  - rewrite Hpow. split; [exact Hq0 |].
    destruct (Z.le_gt_cases q (2 ^ (ey - ex) * 2 ^ 53)) as [? | Hgt];
      [assumption | exfalso].
    assert (Zpos my * (2 ^ (ey - ex) * 2 ^ 53 + 1) <= Zpos my * q)
      by (apply Z.mul_le_mono_nonneg_l; lia).
    lia.
  - intros Hloc. rewrite Hpow.
    assert (Hr0 : r <> 0).
    { intros ->. apply Hloc.
      unfold new_location, new_location_even, new_location_odd.
      destruct (Z.even (Zpos my)); reflexivity. }
    destruct (Z.lt_ge_cases q (2 ^ (ey - ex) * 2 ^ 53)) as [? | Hge];
      [assumption | exfalso].
    assert (Zpos my * (2 ^ (ey - ex) * 2 ^ 53) <= Zpos my * q)
      by (apply Z.mul_le_mono_nonneg_l; lia).
    lia.
Qed.

(** ** Subtracting from one *)

Lemma iter_xO_value (p k : positive) :
  Zpos (Pos.iter xO p k) = Zpos p * 2 ^ Zpos k.
Proof.
  change (Pos.iter xO p k) with (shift_pos k p).
  rewrite shift_pos_correct. change (Z.pow_pos 2 k) with (2 ^ Zpos k). lia.
Qed.

(** Rounding a positive integer with an exponent, when the value is at most
    one. *)
Lemma binary_round_unit (pz : positive) (e : Z) :
  e <= -52 -> Zpos pz <= 2 ^ (- e) ->
  unit_sf (binary_round prec emax false pz e).
Proof.
  intros He Hp. unfold binary_round, shl_align.
  assert (Hd : Zpos (digits2_pos pz) + e <= 1).
  { pose proof (digits2_le pz (- e) ltac:(lia) Hp). lia. }
  pose proof (fexp_le _ _ Hd) as Hf.
  destruct (fexp prec emax (Zpos (digits2_pos pz) + e) - e) as [| k | k] eqn:Ek.
  - apply binary_round_aux_unit; [lia | lia | congruence].
  - apply binary_round_aux_unit; [lia | lia | congruence].
  - apply binary_round_aux_unit; [lia | | congruence].
    rewrite iter_xO_value.
    replace (- fexp prec emax (Zpos (digits2_pos pz) + e))
      with (- e + Zpos k) by lia.
    rewrite pow2_split by lia.
    assert (0 < 2 ^ Zpos k) by (apply Z.pow_pos_nonneg; lia). nia.
Qed.

Lemma SFsub_one_unit (c : positive) (q : spec_float) :
  Zpos c = 2 ^ 52 -> unit_sf q ->
  unit_sf (SFsub prec emax (S754_finite false c (-52)) q).
Proof.
  intros Hc [-> | (mq & eq & -> & He & Hm)].
  - right. exists c, (-52). split; [reflexivity | split; [lia |]].
    change (- -52) with 52. lia.
  - unfold SFsub. rewrite Z.min_r by lia.
    assert (Hone : Zpos (fst (shl_align c (-52) eq)) = 2 ^ (- eq)).
    { unfold shl_align. destruct (eq - -52) as [| k | k] eqn:Ek; cbn [fst].
      - replace eq with (-52) by lia. change (- -52) with 52. exact Hc.
      - lia.
      - rewrite iter_xO_value, Hc, <- pow2_split by lia. f_equal. lia. }
    assert (Hq : fst (shl_align mq eq eq) = mq).
    { unfold shl_align. now rewrite Z.sub_diag. }
    rewrite Hone, Hq. cbn [cond_Zopp].
    unfold binary_normalize.
    destruct (2 ^ (- eq) - Zpos mq) as [| pz | pz] eqn:Ez.
    + now left.
    + apply binary_round_unit; [exact He | lia].
    + lia.
Qed.

(** ** The identity distance in binary64 *)

Lemma Prim2SF_float_of_nat (n : nat) :
  Z.of_nat n < 2 ^ 53 ->
  Prim2SF (float_of_nat n) = binary_normalize prec emax (Z.of_nat n) 0 false.
Proof.
  intros Hn. unfold float_of_nat. apply Prim2SF_SF2Prim.
  destruct (Z.of_nat n) as [| p | p] eqn:E; [reflexivity | | lia].
  destruct (binary_normalize_small p Hn) as (mz & ez & -> & He & _ & Hd).
  unfold valid_binary, bounded, canonical_mantissa. rewrite Hd.
  pose proof (fexp_canonical ez ltac:(lia)) as Hf.
  apply andb_true_intro. split.
  - apply Z.eqb_eq. lia.
  - apply Z.leb_le. unfold emax, prec. lia.
Qed.

(** The distance [1 - score / max_score] of [score] matches among
    [max_score] positions is between 0 and 1. *)
Theorem unit_distance (score max_score : nat) :
  (score <= max_score)%nat -> (1 <= max_score)%nat ->
  Z.of_nat max_score < 2 ^ 53 ->
  let d := PrimFloat.sub (float_of_nat 1)
             (PrimFloat.div (float_of_nat score) (float_of_nat max_score)) in
  PrimFloat.leb 0 d = true /\ PrimFloat.leb d 1 = true.
Proof.
  intros Hs Hm Hbig d.
  assert (Hone : Prim2SF (float_of_nat 1)
                 = S754_finite false 4503599627370496 (-52))
    by (vm_compute; reflexivity).
  assert (Hc : Zpos 4503599627370496 = 2 ^ 52) by (vm_compute; reflexivity).
  assert (Hunit : unit_sf (Prim2SF d)).
  { unfold d. rewrite sub_spec, div_spec, Hone.
    apply SFsub_one_unit; [exact Hc |].
    rewrite !Prim2SF_float_of_nat by lia.
    destruct (Z.of_nat max_score) as [| pm | pm] eqn:Em; [lia | | lia].
    destruct (binary_normalize_small pm Hbig)
      as (my & ey & -> & Hey & Hmy & Hdy).
    destruct (Z.of_nat score) as [| ps | ps] eqn:Es; [now left | | lia].
    assert (Hps : Zpos ps <= Zpos pm) by lia.
    destruct (binary_normalize_small ps ltac:(lia))
      as (mx & ex & -> & Hex & Hmx & Hdx).
    pose proof (digits2_bounds mx) as [Hxlo Hxhi].
    pose proof (digits2_bounds my) as [Hylo Hyhi].
    rewrite Hdx in Hxlo, Hxhi. rewrite Hdy in Hylo, Hyhi.
    assert (Hee : ex <= ey).
    { destruct (Z.le_gt_cases ex ey) as [? | Hgt]; [assumption | exfalso].
      assert (E : 2 ^ (- ey) = 2 ^ (- ex) * 2 ^ (ex - ey)).
      { rewrite <- pow2_split by lia. f_equal. lia. }
      assert (H2 : 2 ^ 1 <= 2 ^ (ex - ey))
        by (apply Z.pow_le_mono_r; lia).
      rewrite Z.pow_1_r in H2.
      assert (Ha : 0 < 2 ^ (- ex)) by (apply Z.pow_pos_nonneg; lia).
      assert (H53 : 2 ^ 53 = 2 * 2 ^ (53 - 1))
        by (rewrite <- Z.pow_succ_r by lia; f_equal).
      rewrite E in Hmy.
      assert (Zpos mx * 2 <= Zpos my).
      { rewrite Hmx, Hmy.
        transitivity (Zpos pm * 2 ^ (- ex) * 2); [nia |].
        rewrite Z.mul_assoc.
        apply Z.mul_le_mono_nonneg_l; nia. }
      lia. }
    apply SFdiv_unit; try assumption; try lia.
    assert (E : 2 ^ (- ex) = 2 ^ (- ey) * 2 ^ (ey - ex)).
    { rewrite <- pow2_split by lia. f_equal. lia. }
    rewrite Hmx, Hmy, E.
    assert (Ha : 0 < 2 ^ (- ey)) by (apply Z.pow_pos_nonneg; lia).
    assert (Hb : 0 < 2 ^ (ey - ex)) by (apply Z.pow_pos_nonneg; lia).
    rewrite Z.mul_assoc.
    apply Z.mul_le_mono_nonneg_r; [lia |].
    apply Z.mul_le_mono_nonneg_r; lia. }
  apply (unit_sf_range _ _ Hc) in Hunit as [H0 H1].
  rewrite !leb_spec.
  change (Prim2SF 0) with SF_zero.
  change (Prim2SF 1) with (S754_finite false 4503599627370496 (-52)).
  auto.
Qed.

Local Close Scope Z_scope.

(** ** The loop of [analyze_distances] *)

Lemma zscore_length (a : list float) :
  List.length (Scipy.zscore a) = List.length a.
Proof.
  unfold Scipy.zscore. destruct a as [| first a']; [reflexivity |].
  cbv zeta. destruct (PrimFloat.leb _ _); now rewrite ?length_map.
Qed.

(** The loop appends the flagged sequences in their order. *)
Lemma foldM_flag (ids : list string) (thr : float) :
  forall (pairs : list (float * float)) (k : nat) (acc : list outlier),
    k + List.length pairs <= List.length ids ->
    Py.foldM (flag ids thr) (combine (List.seq k (List.length pairs)) pairs)
             acc
    = inr (acc ++ flagged_from ids thr k pairs).
Proof.
  induction pairs as [| [avg z] pairs IH]; intros k acc Hlen; simpl.
  - now rewrite app_nil_r.
  - simpl in Hlen. destruct (PrimFloat.ltb thr z) eqn:Hz.
    + unfold Py.list_get.
      destruct (nth_error ids k) as [s |] eqn:Hk.
      * simpl. rewrite IH by lia. rewrite <- app_assoc. simpl.
        now rewrite (nth_error_nth _ _ _ Hk).
      * apply nth_error_None in Hk. lia.
    + simpl. rewrite IH by lia. reflexivity.
Qed.

(** What [analyze_distances] returns, from the mean distances. *)
Lemma analyze_distances_eq (dm : Bio.DistanceMatrix) (ids : list string)
      (thr : float) (avgs : list float) :
  avg_distances dm (List.length ids) = inr avgs ->
  analyze_distances dm ids thr
  = inr (flagged_from ids thr 0 (combine avgs (Scipy.zscore avgs)),
         avgs, Scipy.zscore avgs).
Proof.
  intros Havg. unfold analyze_distances. unfold avg_distances in Havg.
  rewrite Havg. simpl.
  assert (Hn : List.length avgs = List.length ids).
  { apply mapM_length in Havg. now rewrite length_seq in Havg. }
  unfold enumerate.
  rewrite foldM_flag.
  - reflexivity.
  - rewrite length_combine, zscore_length, Nat.min_id. lia.
Qed.

Lemma analyze_distances_inr (dm : Bio.DistanceMatrix) (ids : list string)
      (thr : float) found avgs zs :
  analyze_distances dm ids thr = inr (found, avgs, zs) ->
  avg_distances dm (List.length ids) = inr avgs
  /\ zs = Scipy.zscore avgs
  /\ found = flagged_from ids thr 0 (combine avgs zs).
Proof.
  intros H.
  destruct (avg_distances dm (List.length ids)) as [e | avgs'] eqn:Havg.
  - unfold analyze_distances in H. unfold avg_distances in Havg.
    rewrite Havg in H. discriminate.
  - rewrite (analyze_distances_eq dm ids thr avgs' Havg) in H.
    injection H as <- <- <-. auto.
Qed.

(** Membership in the list of flagged sequences. *)
Lemma In_flagged_from (ids : list string) (thr : float) :
  forall (pairs : list (float * float)) (k : nat) (o : outlier),
    In o (flagged_from ids thr k pairs) <->
    exists i avg z, nth_error pairs i = Some (avg, z)
                    /\ PrimFloat.ltb thr z = true
                    /\ o = (nth (k + i) ids ""%string, avg, z).
Proof.
  induction pairs as [| [avg z] pairs IH]; intros k o; simpl.
  - split; [tauto |]. intros (i & a & z & H & _). now destruct i.
  - rewrite in_app_iff, IH. split.
    + intros [H | (i & a & z' & Hi & Hz & ->)].
      * destruct (PrimFloat.ltb thr z) eqn:Hz; simpl in H; [| tauto].
        destruct H as [<- | []]. exists 0, avg, z.
        now rewrite Nat.add_0_r.
      * exists (S i), a, z'. simpl.
        now rewrite Nat.add_succ_r.
    + intros ([| i] & a & z' & Hi & Hz & ->); simpl in Hi.
      * injection Hi as -> ->. left. rewrite Hz, Nat.add_0_r. now left.
      * right. exists i, a, z'. now rewrite Nat.add_succ_r.
Qed.

(** ** Lists *)

Lemma unique_NoDup (xs : list string) : Py.unique xs = true -> NoDup xs.
Proof.
  induction xs as [| x xs IH]; simpl; intros H; constructor.
  - apply andb_prop in H as [H _]. intros Hin.
    apply negb_true_iff in H.
    assert (existsb (String.eqb x) xs = true) as E.
    { apply existsb_exists. exists x. split; [exact Hin |].
      apply String.eqb_refl. }
    congruence.
  - apply andb_prop in H as [_ H]. now apply IH.
Qed.

Lemma nth_error_combine {X Y} (xs : list X) (ys : list Y) :
  forall i x y,
    nth_error (combine xs ys) i = Some (x, y) ->
    nth_error xs i = Some x /\ nth_error ys i = Some y.
Proof.
  revert ys; induction xs as [| x0 xs IH]; intros [| y0 ys] [| i] x y;
    simpl; try discriminate.
  - intros H. injection H as -> ->. auto.
  - apply IH.
Qed.

Lemma combine_nth_error {X Y} (xs : list X) (ys : list Y) :
  forall i x y,
    nth_error xs i = Some x -> nth_error ys i = Some y ->
    nth_error (combine xs ys) i = Some (x, y).
Proof.
  revert ys; induction xs as [| x0 xs IH]; intros [| y0 ys] [| i] x y;
    simpl; try discriminate.
  - intros H1 H2. injection H1 as ->. injection H2 as ->. reflexivity.
  - apply IH.
Qed.

(** ** The threshold test *)

Section Threshold.
Variables (dm : Bio.DistanceMatrix) (ids : list string).

(** The flagged sequences of a run, by position. *)
Lemma flagged_position (thr : float) found avgs zs (o : outlier) :
  analyze_distances dm ids thr = inr (found, avgs, zs) ->
  (In o found <->
   exists i, i < List.length ids
             /\ PrimFloat.ltb thr (nth i zs PrimFloat.nan) = true
             /\ o = (nth i ids ""%string, nth i avgs PrimFloat.nan,
                     nth i zs PrimFloat.nan)).
Proof.
  intros H. apply analyze_distances_inr in H as (Havg & Hzs & ->).
  assert (Hn : List.length avgs = List.length ids).
  { apply mapM_length in Havg. now rewrite length_seq in Havg. }
  assert (Hz : List.length zs = List.length ids).
  { rewrite Hzs, zscore_length. exact Hn. }
  rewrite In_flagged_from. split.
  - intros (i & a & z & Hi & Hlt & ->).
    apply nth_error_combine in Hi as (Ha & Hzi).
    exists i. split.
    + rewrite <- Hn. apply nth_error_Some. congruence.
    + rewrite (nth_error_nth _ _ _ Ha), (nth_error_nth _ _ _ Hzi). auto.
  - intros (i & Hi & Hlt & ->).
    exists i, (nth i avgs PrimFloat.nan), (nth i zs PrimFloat.nan).
    split; [| auto].
    apply combine_nth_error; apply nth_error_nth'; lia.
Qed.

(** C6: a sequence of a run with unique identifiers is in the outlier list
    exactly when its z-score is strictly above the threshold, and then with
    its own mean distance and z-score; a sequence whose z-score equals the
    threshold is not in the list. *)
Theorem outlier_iff_above_threshold (thr : float) found avgs zs (i : nat) :
  Py.unique ids = true ->
  analyze_distances dm ids thr = inr (found, avgs, zs) ->
  i < List.length ids ->
  (is_flagged found (nth i ids ""%string)
   <-> PrimFloat.ltb thr (nth i zs PrimFloat.nan) = true)
  /\ (PrimFloat.ltb thr (nth i zs PrimFloat.nan) = true ->
      In (nth i ids ""%string, nth i avgs PrimFloat.nan,
          nth i zs PrimFloat.nan) found)
  /\ (PrimFloat.eqb (nth i zs PrimFloat.nan) thr = true ->
      ~ is_flagged found (nth i ids ""%string)).
Proof.
  intros Hu H Hi. apply unique_NoDup in Hu.
  assert (Hiff : is_flagged found (nth i ids ""%string)
                 <-> PrimFloat.ltb thr (nth i zs PrimFloat.nan) = true).
  { split.
    - intros (a & z & Hin).
      apply (flagged_position thr found avgs zs _ H) in Hin
        as (k & Hk & Hlt & E).
      injection E as E _ _.
      apply (proj1 (NoDup_nth ids ""%string) Hu i k Hi Hk) in E.
      now subst k.
    - intros Hlt. exists (nth i avgs PrimFloat.nan), (nth i zs PrimFloat.nan).
      apply (flagged_position thr found avgs zs _ H). exists i. auto. }
  split; [exact Hiff | split].
  - intros Hlt. apply (flagged_position thr found avgs zs _ H).
    exists i. auto.
  - intros Heq Hf. apply Hiff in Hf.
    apply eqb_not_ltb in Heq. simpl in *. congruence.
Qed.

(** C7: with the matrix and the identifiers fixed, a run at a threshold
    [t2] above [t1] returns the same statistics and an outlier list that is
    included in the one of the run at [t1]. *)
Theorem outliers_antitone (t1 t2 : float) found1 avgs zs :
  PrimFloat.leb t1 t2 = true ->
  analyze_distances dm ids t1 = inr (found1, avgs, zs) ->
  exists found2,
    analyze_distances dm ids t2 = inr (found2, avgs, zs)
    /\ incl found2 found1.
Proof.
  intros Hle H1.
  pose proof (analyze_distances_inr dm ids t1 found1 avgs zs H1)
    as (Havg & Hzs & _).
  pose proof (analyze_distances_eq dm ids t2 avgs Havg) as H2.
  rewrite <- Hzs in H2.
  eexists. split; [exact H2 |].
  intros o Ho.
  apply (flagged_position t2 _ avgs zs o H2) in Ho as (i & Hi & Hlt & ->).
  apply (flagged_position t1 found1 avgs zs _ H1).
  exists i. split; [exact Hi | split; [| reflexivity]].
  exact (leb_ltb_trans t1 t2 _ Hle Hlt).
Qed.

End Threshold.

(** ** The stored triangle *)

Lemma list_get_inr {X} (xs : list X) (i : nat) (x : X) :
  Py.list_get xs i = inr x <-> nth_error xs i = Some x.
Proof.
  unfold Py.list_get, Py.ret, Py.raise.
  destruct (nth_error xs i); split; congruence.
Qed.

Lemma list_set_spec {X} (xs : list X) :
  forall i v ys,
    Py.list_set xs i v = inr ys ->
    nth_error ys i = Some v
    /\ forall j, j <> i -> nth_error ys j = nth_error xs j.
Proof.
  induction xs as [| x xs IH]; intros [| i] v ys; simpl; try discriminate.
  - intros H. injection H as <-. split; [reflexivity |].
    intros [| j] Hj; [congruence | reflexivity].
  - intros H. apply bind_inr in H as (ys' & H1 & H2). injection H2 as <-.
    apply IH in H1 as (Ha & Hb). split; [exact Ha |].
    intros [| j] Hj; simpl; [reflexivity | apply Hb; lia].
Qed.

Lemma list_set_total {X} (xs : list X) :
  forall i v, nth_error xs i <> None -> exists ys, Py.list_set xs i v = inr ys.
Proof.
  induction xs as [| x xs IH]; intros [| i] v; simpl; try congruence.
  - eauto.
  - intros H. destruct (IH i v H) as (ys & ->). simpl. eauto.
Qed.

Lemma set_entry_spec (m : list (list float)) (r c : nat) (v : float) m' :
  Bio.set_entry m r c v = inr m' ->
  entry m' r c = Some v
  /\ forall r' c', r' <> r \/ c' <> c -> entry m' r' c' = entry m r' c'.
Proof.
  unfold Bio.set_entry. intros H.
  apply bind_inr in H as (row & Hrow & H).
  apply bind_inr in H as (row' & Hrow' & H).
  apply list_get_inr in Hrow.
  apply list_set_spec in Hrow' as (Hc & Hother).
  apply list_set_spec in H as (Hr & Hrows).
  unfold entry. split.
  - now rewrite Hr.
  - intros r' c' Hneq. destruct (Nat.eq_dec r' r) as [-> | Hr'].
    + rewrite Hr, Hrow. apply Hother. destruct Hneq; congruence.
    + now rewrite (Hrows r' Hr').
Qed.

Lemma set_entry_total (m : list (list float)) (r c : nat) (v : float) :
  entry m r c <> None -> exists m', Bio.set_entry m r c v = inr m'.
Proof.
  unfold entry, Bio.set_entry, Py.list_get. intros H.
  destruct (nth_error m r) as [row |] eqn:Hrow; [| congruence]. simpl.
  destruct (list_set_total row c v H) as (row' & ->). simpl.
  apply list_set_total. congruence.
Qed.

(** The loop of [_set_zero_diagonal] over any list of indices. *)
Lemma zero_diagonal_loop (l : list nat) :
  forall m m',
    Py.foldM (fun m i => Bio.set_entry m i i (float_of_nat 0)) l m = inr m' ->
    (forall i, In i l -> entry m' i i = Some (float_of_nat 0))
    /\ (forall r c, r <> c \/ ~ In r l -> entry m' r c = entry m r c).
Proof.
  induction l as [| i l IH]; simpl; intros m m' H.
  - injection H as <-. split; [tauto | reflexivity].
  - apply bind_inr in H as (m1 & H1 & H).
    apply set_entry_spec in H1 as (Hi & Hother).
    apply IH in H as (Hdiag & Hrest). split.
    + intros k [<- | Hk]; [| now apply Hdiag].
      destruct (in_dec Nat.eq_dec i l) as [Hin | Hout];
        [now apply Hdiag |].
      rewrite Hrest by now right. exact Hi.
    + intros r c Hrc. rewrite Hrest by tauto.
      apply Hother. destruct (Nat.eq_dec r i) as [-> | ?]; [| now left].
      right. intros <-. destruct Hrc as [Hrc | Hrc]; [congruence | tauto].
Qed.

Lemma zero_diagonal_loop_total (l : list nat) :
  forall m,
    (forall i, In i l -> entry m i i <> None) ->
    exists m',
      Py.foldM (fun m i => Bio.set_entry m i i (float_of_nat 0)) l m = inr m'.
Proof.
  induction l as [| i l IH]; simpl; intros m H.
  - eauto.
  - destruct (set_entry_total m i i (float_of_nat 0)) as (m1 & H1);
      [apply H; now left |].
    rewrite H1. simpl. apply IH. intros k Hk.
    pose proof (set_entry_spec _ _ _ _ _ H1) as (Hi & Hother).
    destruct (Nat.eq_dec k i) as [-> | Hki]; [congruence |].
    rewrite Hother by now left. apply H. now right.
Qed.

Lemma set_zero_diagonal_spec (m : list (list float)) (n : nat) m' :
  Bio.set_zero_diagonal m n = inr m' ->
  (forall i, i < n -> entry m' i i = Some (float_of_nat 0))
  /\ (forall r c, r <> c \/ n <= r -> entry m' r c = entry m r c).
Proof.
  unfold Bio.set_zero_diagonal. intros H.
  apply zero_diagonal_loop in H as (Hdiag & Hrest). split.
  - intros i Hi. apply Hdiag, in_seq. lia.
  - intros r c Hrc. apply Hrest.
    destruct Hrc as [? | Hr]; [now left | right].
    rewrite in_seq. lia.
Qed.

Lemma set_zero_diagonal_total (m : list (list float)) (n : nat) :
  stored n m -> exists m', Bio.set_zero_diagonal m n = inr m'.
Proof.
  intros Hs. apply zero_diagonal_loop_total.
  intros i Hi. apply in_seq in Hi. apply Hs; lia.
Qed.

(** The fresh triangle. *)
Lemma entry_zeros (n r c : nat) :
  c <= r -> r < n -> entry (Bio.zeros n) r c = Some (float_of_nat 0).
Proof.
  intros Hc Hr. unfold entry, Bio.zeros.
  rewrite nth_error_map, nth_error_seq.
  destruct (Nat.ltb_spec r n) as [_ | ?]; [| lia].
  cbn [option_map]. apply nth_error_repeat. lia.
Qed.

Lemma entry_zeros_value (n r c : nat) (v : float) :
  entry (Bio.zeros n) r c = Some v -> v = float_of_nat 0.
Proof.
  unfold entry, Bio.zeros. rewrite nth_error_map.
  destruct (nth_error (List.seq 1 n) r) as [k |]; simpl; [| discriminate].
  intros H. apply nth_error_In in H. now apply repeat_spec in H.
Qed.

(** ** Building the matrix *)

Lemma index_lt (x : string) (xs : list string) :
  forall i, Py.index x xs = Some i -> i < List.length xs.
Proof.
  induction xs as [| y ys IH]; simpl; intros i; [discriminate |].
  destruct (String.eqb y x).
  - intros H. injection H as <-. lia.
  - destruct (Py.index x ys) as [k |]; simpl; [| discriminate].
    intros H. injection H as <-. specialize (IH k eq_refl). lia.
Qed.

Lemma index_In (x : string) (xs : list string) :
  In x xs -> exists i, Py.index x xs = Some i.
Proof.
  induction xs as [| y ys IH]; simpl; [tauto |].
  intros H. destruct (String.eqb_spec y x) as [_ | Hne]; [eauto |].
  destruct H as [H | H]; [congruence |].
  destruct (IH H) as (i & ->). simpl. eauto.
Qed.

Lemma in_combinations2 {X} (xs : list X) (a b : X) :
  In (a, b) (Py.combinations2 xs) -> In a xs /\ In b xs.
Proof.
  induction xs as [| x xs IH]; simpl; [tauto |].
  rewrite in_app_iff, in_map_iff.
  intros [(y & E & Hy) | H].
  - injection E as <- <-. auto.
  - destruct (IH H). auto.
Qed.

Lemma foldM_invariant {X S} (f : S -> X -> Py.result S) (I : S -> Prop)
      (xs : list X) :
  (forall s x s', In x xs -> I s -> f s x = inr s' -> I s') ->
  forall s s', I s -> Py.foldM f xs s = inr s' -> I s'.
Proof.
  induction xs as [| x xs IH]; simpl; intros Hstep s s' Hs H.
  - injection H as <-. exact Hs.
  - apply bind_inr in H as (s1 & H1 & H).
    apply (IH (fun s x s' Hx => Hstep s x s' (or_intror Hx)) s1 s');
      [| exact H].
    apply (Hstep s x s1); auto.
Qed.

Lemma foldM_total {X S} (f : S -> X -> Py.result S) (I : S -> Prop)
      (xs : list X) :
  (forall s x, In x xs -> I s -> exists s', f s x = inr s' /\ I s') ->
  forall s, I s -> exists s', Py.foldM f xs s = inr s' /\ I s'.
Proof.
  induction xs as [| x xs IH]; simpl; intros Hstep s Hs.
  - eauto.
  - destruct (Hstep s x) as (s1 & H1 & Hs1); auto.
    rewrite H1. simpl. apply IH; auto.
Qed.

Section Build.
Variable P : float -> Prop.
Hypothesis P_zero : P (float_of_nat 0).

Lemma new_invariant (ns : list string) (dm : Bio.DistanceMatrix) :
  Bio.new ns = inr dm -> invariant P ns dm.
Proof.
  unfold Bio.new. destruct (Py.unique ns); [| discriminate].
  intros H. injection H as <-. unfold invariant. simpl.
  split; [reflexivity | split; [| split]].
  - intros r c Hc Hr. now rewrite entry_zeros.
  - intros i Hi. now apply entry_zeros.
  - intros r c v H. apply entry_zeros_value in H. now subst v.
Qed.

(** The two steps of [setitem] on the triangle. *)
Lemma store_invariant (ns : list string) (m m1 m2 : list (list float))
      (r c : nat) (v : float) :
  P v ->
  stored (List.length ns) m ->
  (forall r c v, entry m r c = Some v -> P v) ->
  Bio.set_entry m r c v = inr m1 ->
  Bio.set_zero_diagonal m1 (List.length ns) = inr m2 ->
  invariant P ns {| Bio.names := ns; Bio.matrix := m2 |}.
Proof.
  intros Hv Hs HP H1 H2.
  apply set_entry_spec in H1 as (Hrc & Hother).
  apply set_zero_diagonal_spec in H2 as (Hdiag & Hrest).
  assert (Hs1 : stored (List.length ns) m1).
  { intros r' c' Hc' Hr'.
    destruct (Nat.eq_dec r' r) as [-> | ?];
      [destruct (Nat.eq_dec c' c) as [-> | ?] |];
      [congruence | |]; rewrite Hother by auto; now apply Hs. }
  assert (HP1 : forall r' c' v', entry m1 r' c' = Some v' -> P v').
  { intros r' c' v' H.
    destruct (Nat.eq_dec r' r) as [-> | ?];
      [destruct (Nat.eq_dec c' c) as [-> | ?] |].
    - rewrite Hrc in H. injection H as <-. exact Hv.
    - rewrite Hother in H by auto. eapply HP, H.
    - rewrite Hother in H by auto. eapply HP, H. }
  unfold invariant. simpl. split; [reflexivity | split; [| split]].
  - intros r' c' Hc' Hr'.
    destruct (Nat.eq_dec r' c') as [-> | ?].
    + rewrite Hdiag by lia. discriminate.
    + rewrite Hrest by auto. now apply Hs1.
  - exact Hdiag.
  - intros r' c' v' H.
    destruct (Nat.eq_dec r' c') as [-> | ?];
      [destruct (Nat.lt_ge_cases c' (List.length ns)) |].
    + rewrite Hdiag in H by lia. injection H as <-. exact P_zero.
    + rewrite Hrest in H by auto. eapply HP1, H.
    + rewrite Hrest in H by auto. eapply HP1, H.
Qed.

Lemma setitem_invariant (ns : list string) (dm dm' : Bio.DistanceMatrix)
      (a b : string) (v : float) :
  P v -> invariant P ns dm ->
  Bio.setitem dm a b v = inr dm' -> invariant P ns dm'.
Proof.
  intros Hv (Hn & Hs & _ & HP). unfold Bio.setitem, Bio.len.
  rewrite Hn.
  destruct (Py.index a ns) as [r |]; [| discriminate].
  destruct (Py.index b ns) as [c |]; [| discriminate].
  intros H. apply bind_inr in H as (m1 & H1 & H).
  apply bind_inr in H as (m2 & H2 & H). injection H as <-.
  destruct (c <? r); eapply store_invariant; eauto.
Qed.

Lemma setitem_total (ns : list string) (dm : Bio.DistanceMatrix)
      (a b : string) (v : float) :
  P v -> invariant P ns dm -> In a ns -> In b ns ->
  exists dm', Bio.setitem dm a b v = inr dm'.
Proof.
  intros Hv (Hn & Hs & Hd & HP) Ha Hb. unfold Bio.setitem, Bio.len.
  rewrite Hn.
  destruct (index_In a ns Ha) as (r & Hr). rewrite Hr.
  destruct (index_In b ns Hb) as (c & Hc). rewrite Hc.
  apply index_lt in Hr, Hc.
  assert (exists m1 m2,
             (if c <? r then Bio.set_entry (Bio.matrix dm) r c v
              else Bio.set_entry (Bio.matrix dm) c r v) = inr m1
             /\ Bio.set_zero_diagonal m1 (List.length ns) = inr m2)
    as (m1 & m2 & H1 & H2).
  { destruct (Nat.ltb_spec c r) as [Hlt | Hge].
    - destruct (set_entry_total (Bio.matrix dm) r c v) as (m1 & H1);
        [apply Hs; lia |].
      destruct (set_zero_diagonal_total m1 (List.length ns)) as (m2 & H2);
        [| eauto].
      intros r' c' Hc' Hr'.
      pose proof (set_entry_spec _ _ _ _ _ H1) as (Hrc & Hother).
      destruct (Nat.eq_dec r' r) as [-> | ?];
        [destruct (Nat.eq_dec c' c) as [-> | ?] |];
        [congruence | |]; rewrite Hother by auto; now apply Hs.
    - destruct (set_entry_total (Bio.matrix dm) c r v) as (m1 & H1);
        [apply Hs; lia |].
      destruct (set_zero_diagonal_total m1 (List.length ns)) as (m2 & H2);
        [| eauto].
      intros r' c' Hc' Hr'.
      pose proof (set_entry_spec _ _ _ _ _ H1) as (Hrc & Hother).
      destruct (Nat.eq_dec r' c) as [-> | ?];
        [destruct (Nat.eq_dec c' r) as [-> | ?] |];
        [congruence | |]; rewrite Hother by auto; now apply Hs. }
  rewrite H1. simpl. rewrite H2. simpl. eauto.
Qed.

Variable matrix_pairwise :
  string -> list ascii -> Bio.SeqRecord -> Bio.SeqRecord -> Py.result float.
Variable calc : Bio.DistanceCalculator.
Variable msa : Bio.MultipleSeqAlignment.
Hypothesis P_pairwise :
  forall s1 s2 v,
    In s1 msa -> In s2 msa ->
    Bio.pairwise matrix_pairwise calc s1 s2 = inr v -> P v.

(** A matrix returned by [get_distance] satisfies the invariant. *)
Lemma get_distance_invariant (dm : Bio.DistanceMatrix) :
  Bio.get_distance matrix_pairwise calc msa = inr dm ->
  invariant P (map Bio.id msa) dm.
Proof.
  unfold Bio.get_distance. intros H.
  apply bind_inr in H as (dm0 & H0 & H).
  apply new_invariant in H0.
  revert H. apply foldM_invariant; [| exact H0].
  intros s [s1 s2] s' Hin Hs Hstep. simpl in Hstep.
  apply bind_inr in Hstep as (d & Hd & Hstep).
  apply in_combinations2 in Hin as (H1 & H2).
  apply (setitem_invariant (map Bio.id msa) s s' (Bio.id s1) (Bio.id s2) d);
    auto.
  apply (P_pairwise _ _ _ H1 H2 Hd).
Qed.

(** With unique identifiers and a distance that does not raise,
    [get_distance] returns a matrix. *)
Lemma get_distance_total :
  Py.unique (map Bio.id msa) = true ->
  (forall s1 s2, exists v, Bio.pairwise matrix_pairwise calc s1 s2 = inr v) ->
  exists dm, Bio.get_distance matrix_pairwise calc msa = inr dm.
Proof.
  intros Hu Hp. unfold Bio.get_distance.
  destruct (Bio.new (map Bio.id msa)) as [e | dm0] eqn:H0.
  - unfold Bio.new in H0. rewrite Hu in H0. discriminate.
  - simpl. apply new_invariant in H0.
    destruct (foldM_total
                (fun dm (p : Bio.SeqRecord * Bio.SeqRecord) =>
                   d <- Bio.pairwise matrix_pairwise calc (fst p) (snd p) ;;
                   Bio.setitem dm (Bio.id (fst p)) (Bio.id (snd p)) d)
                (invariant P (map Bio.id msa))
                (Py.combinations2 msa)) with (s := dm0)
      as (dm & H & _); [| exact H0 | eauto].
    intros s [s1 s2] Hin Hs. simpl.
    destruct (Hp s1 s2) as (v & Hv). rewrite Hv. simpl.
    apply in_combinations2 in Hin as (H1 & H2).
    assert (Pv : P v) by exact (P_pairwise _ _ _ H1 H2 Hv).
    destruct (setitem_total (map Bio.id msa) s (Bio.id s1) (Bio.id s2) v)
      as (s' & Hs'); auto using in_map.
    exists s'. split; [exact Hs' |].
    apply (setitem_invariant (map Bio.id msa) s s' (Bio.id s1) (Bio.id s2) v);
      auto.
Qed.

End Build.

(** A matrix that [get_distance] returns has its triangle complete. *)
Lemma get_distance_well_formed mp (calc : Bio.DistanceCalculator)
      (msa : Bio.MultipleSeqAlignment) (dm : Bio.DistanceMatrix) :
  Bio.get_distance mp calc msa = inr dm -> well_formed dm.
Proof.
  intros H.
  apply (get_distance_invariant (fun _ => True) I mp calc msa) in H;
    [| trivial].
  destruct H as (Hn & Hs & _). unfold well_formed, Bio.len.
  now rewrite Hn.
Qed.

(** ** Reading the matrix *)

(** [dm[i, j]] and [dm[j, i]] read the same stored entry. *)
Lemma getitem_sym (dm : Bio.DistanceMatrix) (i j : nat) :
  Bio.getitem dm i j = Bio.getitem dm j i.
Proof.
  unfold Bio.getitem. rewrite orb_comm.
  destruct (_ || _); [reflexivity |].
  destruct (Nat.ltb_spec j i), (Nat.ltb_spec i j);
    try reflexivity; try lia.
  now replace j with i by lia.
Qed.

Lemma getitem_entry (dm : Bio.DistanceMatrix) (i j : nat) (v : float) :
  i < Bio.len dm -> j < Bio.len dm ->
  entry (Bio.matrix dm) (Nat.max i j) (Nat.min i j) = Some v ->
  Bio.getitem dm i j = inr v.
Proof.
  intros Hi Hj. unfold Bio.getitem, entry, Py.list_get.
  destruct (Nat.leb_spec (Bio.len dm) i); [lia |].
  destruct (Nat.leb_spec (Bio.len dm) j); [lia |]. simpl.
  destruct (Nat.ltb_spec j i).
  - rewrite Nat.max_l, Nat.min_r by lia.
    destruct (nth_error (Bio.matrix dm) i); simpl; [| discriminate].
    now intros ->.
  - rewrite Nat.max_r, Nat.min_l by lia.
    destruct (nth_error (Bio.matrix dm) j); simpl; [| discriminate].
    now intros ->.
Qed.

Lemma getitem_total (dm : Bio.DistanceMatrix) (i j : nat) :
  well_formed dm -> i < Bio.len dm -> j < Bio.len dm ->
  exists v, Bio.getitem dm i j = inr v.
Proof.
  intros Hwf Hi Hj.
  destruct (entry (Bio.matrix dm) (Nat.max i j) (Nat.min i j))
    as [v |] eqn:E.
  - exists v. now apply getitem_entry.
  - exfalso. revert E. apply Hwf; lia.
Qed.

Lemma getitem_out_of_range (dm : Bio.DistanceMatrix) (i j : nat) :
  Bio.len dm <= i \/ Bio.len dm <= j ->
  Bio.getitem dm i j = inl (Py.IndexError "Index out of range.").
Proof.
  intros H. unfold Bio.getitem.
  destruct (Nat.leb_spec (Bio.len dm) i); [reflexivity |].
  destruct (Nat.leb_spec (Bio.len dm) j); [reflexivity | lia].
Qed.

(** ** [calculate_distance_matrix] *)

(** The three ways [calculate_distance_matrix] ends: the calculator cannot
    be built and its exception reaches the caller; the distance computation
    raises, the message is printed and [None] is returned; the matrix is
    returned. *)
Lemma calculate_distance_matrix_run (models : list string)
      (mp : string -> list ascii -> Bio.SeqRecord -> Bio.SeqRecord ->
            Py.result float)
      (msa : Bio.MultipleSeqAlignment) (model : string) (w : world) :
  calculate_distance_matrix models mp msa model w =
  match Bio.DistanceCalculator_init models model with
  | inl e => (inl e, w)
  | inr calc =>
      match Bio.get_distance mp calc msa with
      | inr dm => (inr (Some dm), w)
      | inl e =>
          (inr None,
           {| stdout := stdout w ++
                          [("Error calculating distance matrix: "
                              ++ Py.str e)%string];
              files := files w;
              figures := figures w |})
      end
  end.
Proof.
  unfold calculate_distance_matrix, IO.bind, IO.lift, IO.try_except.
  destruct (Bio.DistanceCalculator_init models model) as [e | calc];
    [reflexivity |].
  destruct (Bio.get_distance mp calc msa) as [e | dm]; reflexivity.
Qed.

Lemma identity_score_le (skip : list ascii) (s1 s2 : list ascii) :
  Bio.identity_score skip s1 s2 <= List.length s1.
Proof.
  revert s2; induction s1 as [| l1 s1 IH]; intros [| l2 s2]; simpl;
    try lia.
  specialize (IH s2).
  destruct (negb _ && negb _ && Ascii.eqb l1 l2); lia.
Qed.

Lemma length_list_ascii_of_string (s : string) :
  List.length (list_ascii_of_string s) = String.length s.
Proof. induction s as [| c s IH]; simpl; congruence. Qed.

(** In binary64 the distance of two records under the identity model is
    between 0 and 1. *)
Lemma pairwise_identity_binary64 mp (skip : list ascii)
      (s1 s2 : Bio.SeqRecord) (v : float) :
  (Z.of_nat (String.length (Bio.seq s1)) < 2 ^ 53)%Z ->
  Bio.pairwise mp
    {| Bio.skip_letters := skip; Bio.scoring_matrix := None |} s1 s2 = inr v ->
  PrimFloat.leb 0 v = true /\ PrimFloat.leb v 1 = true.
Proof.
  intros Hlen. unfold Bio.pairwise. cbn [Bio.scoring_matrix Bio.skip_letters].
  set (score := Bio.identity_score skip _ _).
  assert (Hle : score <= String.length (Bio.seq s1)).
  { unfold score. rewrite <- length_list_ascii_of_string.
    apply identity_score_le. }
  destruct (Nat.eqb_spec (String.length (Bio.seq s1)) 0) as [_ | Hn].
  - intros H. injection H as <-. split; reflexivity.
  - intros H. injection H as <-.
    apply unit_distance; [exact Hle | lia | exact Hlen].
Qed.

Lemma init_identity (models : list string) :
  Bio.DistanceCalculator_init models "identity" = inr Sample.identity.
Proof. reflexivity. Qed.

(** C8: a matrix that [calculate_distance_matrix] returns has one row for
    each record, reads the same at [(i, j)] and [(j, i)] and is zero on the
    diagonal, under any model; under the identity model an alignment with
    unique identifiers (and fewer than [2 ^ 53] columns) gets a matrix, and
    every entry of it lies between 0.0 and 1.0. *)
Theorem built_matrix_symmetric_zero_diagonal_unit_range :
  (forall models mp msa model w dm w',
      calculate_distance_matrix models mp msa model w
      = (inr (Some dm), w') ->
      Bio.len dm = List.length msa
      /\ (forall i j, Bio.getitem dm i j = Bio.getitem dm j i)
      /\ (forall i, i < List.length msa ->
                    Bio.getitem dm i i = inr 0%float))
  /\ (forall models mp msa w,
         Py.unique (map Bio.id msa) = true ->
         (forall r, In r msa ->
                    (Z.of_nat (String.length (Bio.seq r)) < 2 ^ 53)%Z) ->
         exists dm,
           calculate_distance_matrix models mp msa "identity" w
           = (inr (Some dm), w)
           /\ forall i j, i < List.length msa -> j < List.length msa ->
                 exists v, Bio.getitem dm i j = inr v
                           /\ PrimFloat.leb 0 v = true
                           /\ PrimFloat.leb v 1 = true).
Proof.
  split.
  - intros models mp msa model w dm w' H.
    rewrite calculate_distance_matrix_run in H.
    destruct (Bio.DistanceCalculator_init models model) as [e | calc];
      [discriminate |].
    destruct (Bio.get_distance mp calc msa) as [e | dm0] eqn:Hdm;
      [discriminate |].
    injection H as -> _.
    apply (get_distance_invariant (fun _ => True) I mp calc msa) in Hdm;
      [| trivial].
    destruct Hdm as (Hn & _ & Hd & _).
    assert (Hlen : Bio.len dm = List.length msa)
      by (unfold Bio.len; now rewrite Hn, length_map).
    split; [exact Hlen | split].
    + intros i j. apply getitem_sym.
    + intros i Hi. apply getitem_entry; try lia.
      rewrite Nat.max_id, Nat.min_id. apply Hd.
      now rewrite length_map.
  - intros models mp msa w Hu Hshort.
    rewrite calculate_distance_matrix_run, init_identity.
    destruct (get_distance_total (fun _ => True) I mp Sample.identity msa
                (fun _ _ _ _ _ _ => I))
      as (dm & Hdm); [exact Hu | |].
    { intros s1 s2. unfold Bio.pairwise. simpl.
      destruct (_ =? 0); eauto. }
    rewrite Hdm. exists dm. split; [reflexivity |].
    intros i j Hi Hj.
    apply (get_distance_invariant
             (fun v => PrimFloat.leb 0 v = true /\ PrimFloat.leb v 1 = true))
      in Hdm.
    + destruct Hdm as (Hn & Hs & _ & HP).
      rewrite length_map in Hs.
      destruct (entry (Bio.matrix dm) (Nat.max i j) (Nat.min i j))
        as [v |] eqn:E.
      * exists v. split; [| exact (HP _ _ _ E)].
        apply getitem_entry; trivial;
          unfold Bio.len; rewrite Hn, length_map; lia.
      * exfalso. revert E. apply Hs; lia.
    + split; reflexivity.
    + intros s1 s2 v H1 _. apply pairwise_identity_binary64.
      now apply Hshort.
Qed.

(** ** Sizes that do not match *)

Lemma mapM_first_error {X Y} (f : X -> Py.result Y) (e : Py.exn)
      (xs : list X) :
  (forall x, In x xs -> f x = inl e \/ exists y, f x = inr y) ->
  (exists x, In x xs /\ f x = inl e) ->
  Py.mapM f xs = inl e.
Proof.
  induction xs as [| x xs IH]; simpl; intros Hall (x0 & Hin & Hx0).
  - contradiction.
  - destruct (Hall x (or_introl eq_refl)) as [-> | (y & Hy)];
      [reflexivity |].
    rewrite Hy. simpl. rewrite IH; [reflexivity | auto |].
    destruct Hin as [-> | Hin]; [congruence | eauto].
Qed.

Lemma mapM_ext_in {X Y} (f g : X -> Py.result Y) (xs : list X) :
  (forall x, In x xs -> f x = g x) -> Py.mapM f xs = Py.mapM g xs.
Proof.
  induction xs as [| x xs IH]; simpl; intros H; [reflexivity |].
  rewrite (H x) by now left. rewrite IH; auto.
Qed.

(** With enough rows every mean distance is computed. *)
Lemma avg_distances_total (dm : Bio.DistanceMatrix) (n : nat) :
  well_formed dm -> n <= Bio.len dm ->
  exists avgs, avg_distances dm n = inr avgs.
Proof.
  intros Hwf Hn. apply mapM_total. intros i Hi. apply in_seq in Hi.
  destruct (mapM_total (fun j => Bio.getitem dm i j)
              (filter (fun j => negb (i =? j)) (List.seq 0 n)))
    as (ds & Hds).
  - intros j Hj. apply filter_In in Hj as (Hj & _). apply in_seq in Hj.
    apply getitem_total; trivial; lia.
  - unfold seq_distances. rewrite Hds. simpl. eauto.
Qed.

(** With too few rows the first row already reads out of range. *)
Lemma avg_distances_out_of_range (dm : Bio.DistanceMatrix) (n : nat) :
  well_formed dm -> Bio.len dm < n -> 2 <= n ->
  avg_distances dm n = inl (Py.IndexError "Index out of range.").
Proof.
  intros Hwf Hlen Hn. unfold avg_distances.
  destruct n as [| n]; [lia |]. simpl.
  replace (seq_distances dm (S n) 0)
    with (@inl Py.exn (list float) (Py.IndexError "Index out of range."));
    [reflexivity |].
  symmetry. apply mapM_first_error.
  - intros j Hj. apply filter_In in Hj as (Hj & _). apply in_seq in Hj.
    destruct (Nat.lt_ge_cases j (Bio.len dm)) as [Hlt | Hge].
    + right. apply getitem_total; trivial; lia.
    + left. apply getitem_out_of_range. now right.
  - exists n. split.
    + apply filter_In. split; [apply in_seq; lia |].
      destruct n; [lia | reflexivity].
    + apply getitem_out_of_range. right. lia.
Qed.

(** Only the entries with both indices below the number of identifiers
    are read. *)
Lemma avg_distances_leading_block (dm dm' : Bio.DistanceMatrix) (n : nat) :
  (forall i j, i < n -> j < n -> Bio.getitem dm' i j = Bio.getitem dm i j) ->
  avg_distances dm' n = avg_distances dm n.
Proof.
  intros H. apply mapM_ext_in. intros i Hi. apply in_seq in Hi.
  unfold seq_distances. f_equal. apply mapM_ext_in. intros j Hj.
  apply filter_In in Hj as (Hj & _). apply in_seq in Hj. apply H; lia.
Qed.

(** C5, as the code has it: the number of identifiers decides what is
    read.  With at most as many identifiers as the matrix has rows,
    [analyze_distances] returns a result, the one of any matrix with the
    same leading block; with more identifiers than rows, and at least two,
    the index error of the matrix reaches the caller. *)
Theorem identifiers_and_matrix_sizes (dm : Bio.DistanceMatrix)
        (ids : list string) (thr : float) :
  well_formed dm ->
  (List.length ids <= Bio.len dm ->
   (exists r, analyze_distances dm ids thr = inr r)
   /\ forall dm',
       (forall i j, i < List.length ids -> j < List.length ids ->
                    Bio.getitem dm' i j = Bio.getitem dm i j) ->
       analyze_distances dm' ids thr = analyze_distances dm ids thr)
  /\ (Bio.len dm < List.length ids -> 2 <= List.length ids ->
      analyze_distances dm ids thr
      = inl (Py.IndexError "Index out of range.")).
Proof.
  intros Hwf. split.
  - intros Hn. split.
    + destruct (avg_distances_total dm (List.length ids) Hwf Hn)
        as (avgs & Havg).
      rewrite (analyze_distances_eq dm ids thr avgs Havg). eauto.
    + intros dm' Hblock.
      pose proof (avg_distances_leading_block dm dm' (List.length ids) Hblock)
        as E.
      unfold analyze_distances. unfold avg_distances in E. now rewrite E.
  - intros Hlen Hn.
    pose proof (avg_distances_out_of_range dm (List.length ids) Hwf Hlen Hn)
      as E.
    unfold analyze_distances. unfold avg_distances in E. now rewrite E.
Qed.

(** C3, as the code has it: with no sequence [analyze_distances] returns
    three empty lists; with one sequence it returns no outlier, the mean
    distance [nan] and the z-score [nan], whatever the matrix and the
    threshold. *)
Theorem fewer_than_two_sequences_return (dm : Bio.DistanceMatrix)
        (thr : float) :
  analyze_distances dm [] thr = inr ([], [], [])
  /\ forall seq_id,
      analyze_distances dm [seq_id] thr
      = inr ([], [PrimFloat.nan], [PrimFloat.nan]).
Proof.
  split; [reflexivity |].
  intros seq_id.
  rewrite (analyze_distances_eq dm [seq_id] thr [PrimFloat.nan])
    by reflexivity.
  change (Scipy.zscore [PrimFloat.nan]) with [PrimFloat.nan].
  simpl. now rewrite ltb_nan_r.
Qed.

(** ** Failures of loading and building *)

(** C4, as the code has it: a model that is not registered makes
    [calculate_distance_matrix] raise the calculator's [ValueError] to its
    caller and leaves the world as it was; an exception of the distance
    computation or of the parser is caught, its message is printed, and the
    caller gets [None]. *)
Theorem failures_of_build_and_load :
  (forall models mp msa model w,
      model <> "identity"%string -> ~ In model models ->
      calculate_distance_matrix models mp msa model w
      = (inl (Py.ValueError
                ("Model not supported. Available models: "
                   ++ Py.join ", " models)), w))
  /\ (forall models mp msa model calc e w,
         Bio.DistanceCalculator_init models model = inr calc ->
         Bio.get_distance mp calc msa = inl e ->
         calculate_distance_matrix models mp msa model w
         = (inr None,
            {| stdout := stdout w ++
                           [("Error calculating distance matrix: "
                               ++ Py.str e)%string];
               files := files w;
               figures := figures w |}))
  /\ (forall read file_path e w,
         read file_path "fasta"%string = inl e ->
         load_alignment read file_path w
         = (inr None,
            {| stdout := stdout w ++
                           [("Error loading alignment from " ++ file_path
                               ++ ": " ++ Py.str e)%string];
               files := files w;
               figures := figures w |})).
Proof.
  split; [| split].
  - intros models mp msa model w Hid Hin.
    rewrite calculate_distance_matrix_run. unfold Bio.DistanceCalculator_init.
    destruct (String.eqb_spec model "identity") as [E | _]; [contradiction |].
    destruct (existsb (String.eqb model) models) eqn:Ex; [| reflexivity].
    apply existsb_exists in Ex as (x & Hx & E).
    apply String.eqb_eq in E. subst x. contradiction.
  - intros models mp msa model calc e w Hc Hd.
    now rewrite calculate_distance_matrix_run, Hc, Hd.
  - intros read file_path e w Hr.
    unfold load_alignment, IO.try_except, IO.bind, IO.lift.
    now rewrite Hr.
Qed.

(** ** The scenario of four sequences *)

(** C1: for [A], [B], [C] = "AAAA" and [D] = "TTTT" under the identity
    model the mean distances are 1/3, 1/3, 1/3 and 1; their mean is 0.5 and
    their standard deviation, the square root of the mean squared deviation
    (divisor 4), lies between 0.2886 and 0.2887; the z-score of [D] is the
    quotient of 0.5 by it and lies between 1.732 and 1.7321; no sequence is
    flagged at the threshold 3.0 and exactly [D] at 1.5. *)
Theorem four_sequence_scenario (models : list string)
        (mp : string -> list ascii -> Bio.SeqRecord -> Bio.SeqRecord ->
              Py.result float) (w : world) :
  exists dm,
    calculate_distance_matrix models mp Sample.abcd "identity" w
    = (inr (Some dm), w)
    /\ analyze_distances dm Sample.abcd_ids 3%float
       = inr ([], Sample.abcd_avgs, Sample.abcd_zs)
    /\ analyze_distances dm Sample.abcd_ids 1.5%float
       = inr ([("D"%string, 1%float, Sample.z_D)],
              Sample.abcd_avgs, Sample.abcd_zs)
    /\ Np.mean Sample.abcd_avgs = 0.5%float
    /\ Np.std Sample.abcd_avgs
       = PrimFloat.sqrt
           (((1 / 3 - 0.5) * (1 / 3 - 0.5) + (1 / 3 - 0.5) * (1 / 3 - 0.5)
             + (1 / 3 - 0.5) * (1 / 3 - 0.5) + (1 - 0.5) * (1 - 0.5)) / 4)%float
    /\ PrimFloat.ltb (2886 / 10000)%float (Np.std Sample.abcd_avgs)
       = true
    /\ PrimFloat.ltb (Np.std Sample.abcd_avgs) (2887 / 10000)%float
       = true
    /\ Sample.z_D = ((1 - 0.5) / Np.std Sample.abcd_avgs)%float
    /\ PrimFloat.ltb (1732 / 1000)%float Sample.z_D = true
    /\ PrimFloat.ltb Sample.z_D (17321 / 10000)%float = true.
Proof.
  exists (Sample.matrix_of Sample.abcd).
  split.
  - rewrite calculate_distance_matrix_run, init_identity. reflexivity.
  - repeat split; vm_compute; reflexivity.
Qed.

(** ** Inputs on which the stated behaviour fails *)

(** Five copies of one sequence: no sequence is flagged, and every z-score
    is [nan], which does not equal 0. *)
Lemma identical_sequences_score_nan :
  analyze_distances (Sample.matrix_of Sample.copies)
    (map Bio.id Sample.copies) 3%float
  = inr ([], [0; 0; 0; 0; 0]%float,
         [PrimFloat.nan; PrimFloat.nan; PrimFloat.nan; PrimFloat.nan;
          PrimFloat.nan])
  /\ PrimFloat.eqb PrimFloat.nan 0%float = false.
Proof. split; vm_compute; reflexivity. Qed.

(** One sequence: a result is returned and nothing is raised. *)
Lemma single_sequence_is_analysed :
  analyze_distances (Sample.matrix_of Sample.single)
    ["A"%string] 3%float
  = inr ([], [PrimFloat.nan], [PrimFloat.nan])
  /\ ~ exists e,
        analyze_distances (Sample.matrix_of Sample.single)
          ["A"%string] 3%float = inl e.
Proof.
  assert (E : analyze_distances
                (Sample.matrix_of Sample.single) ["A"%string] 3%float
              = inr ([], [PrimFloat.nan], [PrimFloat.nan]))
    by (vm_compute; reflexivity).
  split; [exact E |]. intros (e & He). rewrite E in He. discriminate.
Qed.

(** Two records with one identifier: the matrix cannot be built, the
    caller gets [None] and no exception. *)
Lemma duplicate_identifiers_give_none :
  calculate_distance_matrix ["identity"%string]
    Sample.no_matrix Sample.twins "identity" Sample.w0
  = (inr None,
     {| stdout :=
          ["Error calculating distance matrix: Duplicate names found"%string];
        files := [];
        figures := [] |}).
Proof. rewrite calculate_distance_matrix_run. reflexivity. Qed.

(** Two identifiers with a matrix of four rows: a result is returned and
    nothing is raised. *)
Lemma two_identifiers_four_rows :
  Bio.len (Sample.matrix_of Sample.abcd) = 4
  /\ analyze_distances (Sample.matrix_of Sample.abcd)
       ["A"; "B"]%string 3%float
     = inr ([], [0; 0]%float, [PrimFloat.nan; PrimFloat.nan]).
Proof. split; vm_compute; reflexivity. Qed.

(** ** The report *)

Lemma append_nil_r (s : string) : (s ++ "")%string = s.
Proof. induction s as [| c s IH]; simpl; congruence. Qed.

Lemma append_assoc (s1 s2 s3 : string) :
  ((s1 ++ s2) ++ s3)%string = (s1 ++ (s2 ++ s3))%string.
Proof. induction s1 as [| c s1 IH]; simpl; congruence. Qed.

Lemma concat_cons (x : string) (l : list string) :
  String.concat "" (x :: l) = (x ++ String.concat "" l)%string.
Proof. destruct l; simpl; [now rewrite append_nil_r | reflexivity]. Qed.

Lemma concat_app (l1 l2 : list string) :
  String.concat "" (l1 ++ l2)
  = (String.concat "" l1 ++ String.concat "" l2)%string.
Proof.
  induction l1 as [| x l1 IH]; [reflexivity |].
  rewrite <- app_comm_cons, !concat_cons, IH. now rewrite append_assoc.
Qed.

Section Report.
Variable format_4f : float -> string.

Lemma report_loop_eq (rs : list (option results)) :
  forall written found,
    report_loop format_4f rs written found
    = (written ++ flat_map (section_writes format_4f) (processed rs),
       found || existsb (has_outliers) (processed rs)).
Proof.
  induction rs as [| [r |] rs IH]; intros written found;
    cbn [report_loop processed flat_map existsb].
  - now rewrite app_nil_r, orb_false_r.
  - unfold section_writes at 1. unfold section_body, has_outliers at 1.
    destruct (outliers r) as [| o os]; rewrite IH; f_equal.
    + rewrite <- !app_assoc. reflexivity.
    + rewrite <- !app_assoc. reflexivity.
    + cbn [orb]. now rewrite orb_true_r.
  - apply IH.
Qed.

(** The report is its title, the sections of the processed alignments and,
    when none of them has an outlier, the closing statement. *)
Lemma report_writes_eq (rs : list (option results)) :
  report_writes format_4f rs
  = title ++ flat_map (section_writes format_4f) (processed rs)
      ++ (if existsb (has_outliers) (processed rs) then []
          else [no_outliers_statement]).
Proof.
  unfold report_writes. rewrite report_loop_eq. simpl orb.
  destruct (existsb _ _); now rewrite ?app_nil_r, <- ?app_assoc.
Qed.


Lemma In_processed (rs : list (option results)) (r : results) :
  In r (processed rs) <-> In (Some r) rs.
Proof.
  induction rs as [| [r' |] rs IH]; simpl.
  - tauto.
  - rewrite IH. split; intros [H | H]; auto; left; congruence.
  - rewrite IH. split; [auto | intros [H | H]; [discriminate | exact H]].
Qed.

Lemma processed_map_Some (l : list results) :
  processed (map Some l) = l.
Proof. induction l as [| r l IH]; simpl; congruence. Qed.




End Report.

(** C10: the report is the one of the processed alignments alone: its
    title, one section for each result that is not [None], and the closing
    statement if none of them has an outlier.  An alignment that cannot be
    loaded, or whose distance matrix cannot be computed, gives [None]; its
    message is printed and no file is written. *)
Theorem failed_alignments_leave_no_section
        (read : string -> string -> Py.result Bio.MultipleSeqAlignment)
        (models : list string)
        (mp : string -> list ascii -> Bio.SeqRecord -> Bio.SeqRecord ->
              Py.result float)
        (format_4f float_str : float -> string) :
  (forall rs,
      report_text format_4f rs
      = report_text format_4f (map Some (processed rs))
      /\ report_writes format_4f rs
         = title ++ flat_map (section_writes format_4f) (processed rs)
             ++ (if existsb (has_outliers) (processed rs) then []
                 else [no_outliers_statement]))
  /\ (forall file_path output_dir thr generate_plot w e,
         read file_path "fasta"%string = inl e ->
         process_alignment_file read models mp float_str file_path
           output_dir thr generate_plot w
         = (inr None,
            printed ("Error loading alignment from " ++ file_path ++ ": "
                       ++ Py.str e) w))
  /\ (forall file_path output_dir thr generate_plot w msa e,
         read file_path "fasta"%string = inr msa ->
         Bio.get_distance mp Sample.identity msa = inl e ->
         process_alignment_file read models mp float_str file_path
           output_dir thr generate_plot w
         = (inr None,
            printed ("Error calculating distance matrix: " ++ Py.str e) w)).
Proof.
  split; [| split].
  - intros rs. split; [| apply report_writes_eq].
    unfold report_text. f_equal.
    now rewrite !report_writes_eq, processed_map_Some.
  - intros file_path output_dir thr generate_plot w e Hr.
    unfold process_alignment_file, load_alignment, IO.bind, IO.try_except,
      IO.lift.
    now rewrite Hr.
  - intros file_path output_dir thr generate_plot w msa e Hr Hd.
    unfold process_alignment_file, load_alignment, IO.bind, IO.try_except,
      IO.lift.
    rewrite Hr. cbn iota beta.
    pose proof (calculate_distance_matrix_run models mp msa "identity" w)
      as E.
    rewrite init_identity, Hd in E.
    unfold IO.ret at 1. cbn iota beta.
    rewrite E. reflexivity.
Qed.

(** ** Loading an alignment *)

Lemma bind_run {X Y} (m : IO.t X) (k : X -> IO.t Y) (w w1 : world) (x : X) :
  m w = (inr x, w1) -> IO.bind m k w = k x w1.
Proof. unfold IO.bind. now intros ->. Qed.

Lemma load_alignment_run read (file_path : string) (w : world) :
  load_alignment read file_path w
  = match read file_path "fasta"%string with
    | inr msa => (inr (Some msa), w)
    | inl e =>
        (inr None,
         printed ("Error loading alignment from " ++ file_path ++ ": "
                    ++ Py.str e) w)
    end.
Proof.
  unfold load_alignment, IO.try_except, IO.bind, IO.lift.
  destruct (read file_path "fasta"%string); reflexivity.
Qed.


(** ** The theorems at work *)

Lemma outlier_iff_above_threshold_witness :
  Py.unique Sample.abcd_ids = true
  /\ analyze_distances (Sample.matrix_of Sample.abcd)
       Sample.abcd_ids 1.5%float
     = inr ([("D"%string, 1%float, Sample.z_D)],
            Sample.abcd_avgs, Sample.abcd_zs)
  /\ 3 < List.length Sample.abcd_ids
  /\ (is_flagged [("D"%string, 1%float, Sample.z_D)] "D"
      <-> PrimFloat.ltb 1.5 Sample.z_D = true)
  /\ (PrimFloat.ltb 1.5 Sample.z_D = true ->
      In ("D"%string, 1%float, Sample.z_D)
         [("D"%string, 1%float, Sample.z_D)])
  /\ (PrimFloat.eqb Sample.z_D 1.5 = true ->
      ~ is_flagged [("D"%string, 1%float, Sample.z_D)] "D").
Proof.
  assert (H1 : Py.unique Sample.abcd_ids = true) by reflexivity.
  assert (H2 : analyze_distances
                 (Sample.matrix_of Sample.abcd)
                 Sample.abcd_ids 1.5%float
               = inr ([("D"%string, 1%float, Sample.z_D)],
                      Sample.abcd_avgs, Sample.abcd_zs))
    by (vm_compute; reflexivity).
  assert (H3 : 3 < List.length Sample.abcd_ids) by (simpl; lia).
  split; [exact H1 | split; [exact H2 | split; [exact H3 |]]].
  exact (outlier_iff_above_threshold
           (Sample.matrix_of Sample.abcd) Sample.abcd_ids
           1.5%float _ _ _ 3 H1 H2 H3).
Defined.

Lemma outliers_antitone_witness :
  PrimFloat.leb 1.5 3 = true
  /\ analyze_distances (Sample.matrix_of Sample.abcd)
       Sample.abcd_ids 1.5%float
     = inr ([("D"%string, 1%float, Sample.z_D)],
            Sample.abcd_avgs, Sample.abcd_zs)
  /\ exists found2,
      analyze_distances (Sample.matrix_of Sample.abcd)
        Sample.abcd_ids 3%float
      = inr (found2, Sample.abcd_avgs, Sample.abcd_zs)
      /\ incl found2 [("D"%string, 1%float, Sample.z_D)].
Proof.
  assert (H1 : PrimFloat.leb 1.5 3 = true) by reflexivity.
  assert (H2 : analyze_distances
                 (Sample.matrix_of Sample.abcd)
                 Sample.abcd_ids 1.5%float
               = inr ([("D"%string, 1%float, Sample.z_D)],
                      Sample.abcd_avgs, Sample.abcd_zs))
    by (vm_compute; reflexivity).
  split; [exact H1 | split; [exact H2 |]].
  exact (outliers_antitone
           (Sample.matrix_of Sample.abcd) Sample.abcd_ids
           1.5%float 3%float _ _ _ H1 H2).
Defined.

Lemma identifiers_and_matrix_sizes_witness :
  well_formed (Sample.matrix_of Sample.abcd)
  /\ 2 <= Bio.len (Sample.matrix_of Sample.abcd)
  /\ (exists r,
         analyze_distances (Sample.matrix_of Sample.abcd)
           ["A"; "B"]%string 3%float = inr r)
  /\ Bio.len (Sample.matrix_of Sample.abcd) < 5
  /\ analyze_distances (Sample.matrix_of Sample.abcd)
       ["A"; "B"; "C"; "D"; "E"]%string 3%float
     = inl (Py.IndexError "Index out of range.").
Proof.
  assert (Hwf : well_formed (Sample.matrix_of Sample.abcd)).
  { apply (get_distance_well_formed Sample.no_matrix
             Sample.identity Sample.abcd).
    reflexivity. }
  assert (H2 : 2 <= Bio.len (Sample.matrix_of Sample.abcd))
    by (vm_compute; lia).
  assert (H5 : Bio.len (Sample.matrix_of Sample.abcd) < 5)
    by (vm_compute; lia).
  split; [exact Hwf | split; [exact H2 | split; [| split; [exact H5 |]]]].
  - exact (proj1 (proj1 (identifiers_and_matrix_sizes
                           (Sample.matrix_of Sample.abcd)
                           ["A"; "B"]%string 3%float Hwf) H2)).
  - refine (proj2 (identifiers_and_matrix_sizes
                     (Sample.matrix_of Sample.abcd)
                     ["A"; "B"; "C"; "D"; "E"]%string 3%float Hwf) H5 _).
    simpl. lia.
Defined.

Lemma built_matrix_witness :
  calculate_distance_matrix ["identity"%string] Sample.no_matrix Sample.abcd
    "identity" Sample.w0
  = (inr (Some (Sample.matrix_of Sample.abcd)), Sample.w0)
  /\ (Bio.len (Sample.matrix_of Sample.abcd) = List.length Sample.abcd
      /\ (forall i j,
             Bio.getitem (Sample.matrix_of Sample.abcd) i j
             = Bio.getitem (Sample.matrix_of Sample.abcd) j i)
      /\ (forall i, i < List.length Sample.abcd ->
                    Bio.getitem (Sample.matrix_of Sample.abcd) i i
                    = inr 0%float))
  /\ Py.unique (map Bio.id Sample.abcd) = true
  /\ (forall r, In r Sample.abcd ->
                 (Z.of_nat (String.length (Bio.seq r)) < 2 ^ 53)%Z)
  /\ (exists dm,
         calculate_distance_matrix ["identity"%string] Sample.no_matrix
           Sample.abcd "identity" Sample.w0
         = (inr (Some dm), Sample.w0)
         /\ forall i j,
             i < List.length Sample.abcd -> j < List.length Sample.abcd ->
             exists v, Bio.getitem dm i j = inr v
                       /\ PrimFloat.leb 0 v = true
                       /\ PrimFloat.leb v 1 = true).
Proof.
  assert (H1 : calculate_distance_matrix ["identity"%string] Sample.no_matrix
                 Sample.abcd "identity" Sample.w0
               = (inr (Some (Sample.matrix_of Sample.abcd)), Sample.w0))
    by reflexivity.
  assert (H2 : Py.unique (map Bio.id Sample.abcd) = true) by reflexivity.
  assert (H3 : forall r, In r Sample.abcd ->
                 (Z.of_nat (String.length (Bio.seq r)) < 2 ^ 53)%Z).
  { intros r Hr. simpl in Hr.
    repeat (destruct Hr as [<- | Hr]; [reflexivity |]). contradiction. }
  pose proof built_matrix_symmetric_zero_diagonal_unit_range
    as (Hany & Hidentity).
  split; [exact H1 | split; [| split; [exact H2 | split; [exact H3 |]]]].
  - exact (Hany _ _ _ _ _ _ _ H1).
  - exact (Hidentity ["identity"%string] Sample.no_matrix Sample.abcd
             Sample.w0 H2 H3).
Defined.

Lemma failures_of_build_and_load_witness :
  ("jukes" <> "identity")%string
  /\ ~ In "jukes"%string ["identity"; "blosum62"]%string
  /\ calculate_distance_matrix ["identity"; "blosum62"]%string
       Sample.no_matrix Sample.abcd "jukes" Sample.w0
     = (inl (Py.ValueError
               "Model not supported. Available models: identity, blosum62"),
        Sample.w0)
  /\ Bio.DistanceCalculator_init ["identity"; "blosum62"]%string "identity"
     = inr Sample.identity
  /\ Bio.get_distance Sample.no_matrix Sample.identity
       Sample.twins
     = inl (Py.ValueError "Duplicate names found")
  /\ calculate_distance_matrix ["identity"; "blosum62"]%string
       Sample.no_matrix Sample.twins "identity" Sample.w0
     = (inr None,
        printed "Error calculating distance matrix: Duplicate names found"
          Sample.w0)
  /\ Sample.no_records "genes.fasta" "fasta"
     = inl (Py.ValueError "No records found in handle")
  /\ load_alignment Sample.no_records "genes.fasta" Sample.w0
     = (inr None,
        printed ("Error loading alignment from genes.fasta: "
                   ++ "No records found in handle") Sample.w0).
Proof.
  assert (H1 : ("jukes" <> "identity")%string) by discriminate.
  assert (H2 : ~ In "jukes"%string ["identity"; "blosum62"]%string).
  { simpl. intros [H | [H | []]]; discriminate. }
  assert (H3 : Bio.DistanceCalculator_init ["identity"; "blosum62"]%string
                 "identity" = inr Sample.identity) by reflexivity.
  assert (H4 : Bio.get_distance Sample.no_matrix
                 Sample.identity Sample.twins
               = inl (Py.ValueError "Duplicate names found"))
    by reflexivity.
  assert (H5 : Sample.no_records "genes.fasta" "fasta"
               = inl (Py.ValueError "No records found in handle"))
    by reflexivity.
  pose proof failures_of_build_and_load as (Hmodel & Hbuild & Hload).
  split; [exact H1 | split; [exact H2 | split]].
  - exact (Hmodel _ Sample.no_matrix Sample.abcd _
             Sample.w0 H1 H2).
  - split; [exact H3 | split; [exact H4 | split; [| split; [exact H5 |]]]].
    + exact (Hbuild _ _ _ _ _ _ Sample.w0 H3 H4).
    + exact (Hload _ _ _ Sample.w0 H5).
Defined.


Lemma failed_alignments_leave_no_section_witness :
  Sample.no_records "genes.fasta" "fasta"
  = inl (Py.ValueError "No records found in handle")
  /\ process_alignment_file Sample.no_records ["identity"%string]
       Sample.no_matrix Sample.no_format "genes.fasta" "out" 3%float false
       Sample.w0
     = (inr None,
        printed ("Error loading alignment from genes.fasta: "
                   ++ "No records found in handle") Sample.w0)
  /\ Sample.reads_twins "genes.fasta" "fasta" = inr Sample.twins
  /\ Bio.get_distance Sample.no_matrix Sample.identity
       Sample.twins
     = inl (Py.ValueError "Duplicate names found")
  /\ process_alignment_file Sample.reads_twins ["identity"%string]
       Sample.no_matrix Sample.no_format "genes.fasta" "out" 3%float false
       Sample.w0
     = (inr None,
        printed "Error calculating distance matrix: Duplicate names found"
          Sample.w0)
  /\ report_text Sample.no_format
       [None; Some Sample.quiet; None]
     = report_text Sample.no_format
         [Some Sample.quiet].
Proof.
  assert (H1 : Sample.no_records "genes.fasta" "fasta"
               = inl (Py.ValueError "No records found in handle"))
    by reflexivity.
  assert (H2 : Sample.reads_twins "genes.fasta" "fasta" = inr Sample.twins)
    by reflexivity.
  assert (H3 : Bio.get_distance Sample.no_matrix
                 Sample.identity Sample.twins
               = inl (Py.ValueError "Duplicate names found"))
    by reflexivity.
  split; [exact H1 | split; [| split; [exact H2 | split; [exact H3 | split]]]].
  - exact (proj1 (proj2 (failed_alignments_leave_no_section
                           Sample.no_records ["identity"%string]
                           Sample.no_matrix
                           Sample.no_format Sample.no_format))
             "genes.fasta"%string "out"%string 3%float false Sample.w0 _ H1).
  - exact (proj2 (proj2 (failed_alignments_leave_no_section
                           Sample.reads_twins ["identity"%string]
                           Sample.no_matrix
                           Sample.no_format Sample.no_format))
             "genes.fasta"%string "out"%string 3%float false Sample.w0 _ _
             H2 H3).
  - exact (proj1 (proj1 (failed_alignments_leave_no_section
                           Sample.no_records ["identity"%string]
                           Sample.no_matrix
                           Sample.no_format Sample.no_format)
                    [None; Some Sample.quiet; None])).
Defined.

(** ** The order of the outliers *)

Lemma flagged_from_filter (ids : list string) (thr : float) :
  forall (avgs zs pre_a pre_z : list float),
    List.length pre_a = List.length pre_z ->
    List.length avgs = List.length zs ->
    flagged_from ids thr (List.length pre_a) (combine avgs zs)
    = map (fun i => (nth i ids ""%string,
                     nth i (pre_a ++ avgs) PrimFloat.nan,
                     nth i (pre_z ++ zs) PrimFloat.nan))
          (filter (fun i => PrimFloat.ltb thr
                              (nth i (pre_z ++ zs) PrimFloat.nan))
                  (List.seq (List.length pre_a) (List.length avgs))).
Proof.
  induction avgs as [| a avgs IH]; intros [| z zs] pre_a pre_z Hpre Hlen;
    try discriminate; [reflexivity |].
  cbn [combine flagged_from List.length List.seq filter].
  assert (Hz : nth (List.length pre_a) (pre_z ++ z :: zs) PrimFloat.nan = z)
    by (rewrite Hpre; apply nth_middle).
  assert (Ha : nth (List.length pre_a) (pre_a ++ a :: avgs) PrimFloat.nan = a)
    by apply nth_middle.
  specialize (IH zs (pre_a ++ [a]) (pre_z ++ [z])).
  rewrite !length_app, <- !app_assoc in IH. cbn [List.length app] in IH.
  rewrite Nat.add_1_r in IH.
  rewrite IH by (simpl in Hlen; lia).
  rewrite Hz. destruct (PrimFloat.ltb thr z); cbn [map app];
    now rewrite ?Ha, ?Hz.
Qed.

Lemma analyze_distances_shape (dm : Bio.DistanceMatrix)
      (ids : list string) (thr : float) found avgs zs :
  analyze_distances dm ids thr = inr (found, avgs, zs) ->
  List.length avgs = List.length ids /\ List.length zs = List.length ids.
Proof.
  intros H. apply analyze_distances_inr in H as (Havg & Hzs & _).
  assert (Hn : List.length avgs = List.length ids).
  { apply mapM_length in Havg. now rewrite length_seq in Havg. }
  split; [exact Hn |]. rewrite Hzs, zscore_length. exact Hn.
Qed.

Lemma found_by_position (dm : Bio.DistanceMatrix)
      (ids : list string) (thr : float) found avgs zs :
  analyze_distances dm ids thr = inr (found, avgs, zs) ->
  found = map (fun i => (nth i ids ""%string, nth i avgs PrimFloat.nan,
                         nth i zs PrimFloat.nan))
              (flagged_indices thr zs).
Proof.
  intros H. destruct (analyze_distances_shape _ _ _ _ _ _ H) as [Ha Hz].
  apply analyze_distances_inr in H as (_ & _ & ->).
  unfold flagged_indices. replace (List.length zs) with (List.length avgs) by lia.
  apply (flagged_from_filter ids thr avgs zs [] [] eq_refl). lia.
Qed.

(** X1: The outliers are the flagged sequences in the order of the
    alignment, each with its identifier, its mean distance and its z-score;
    the two lists of statistics have one entry for each identifier. *)
Theorem outliers_in_alignment_order (dm : Bio.DistanceMatrix)
        (ids : list string) (thr : float) found avgs zs :
  analyze_distances dm ids thr = inr (found, avgs, zs) ->
  List.length avgs = List.length ids
  /\ List.length zs = List.length ids
  /\ found = map (fun i => (nth i ids ""%string, nth i avgs PrimFloat.nan,
                            nth i zs PrimFloat.nan))
                 (flagged_indices thr zs).
Proof.
  intros H. destruct (analyze_distances_shape _ _ _ _ _ _ H) as [Ha Hz].
  split; [exact Ha | split; [exact Hz |]].
  exact (found_by_position _ _ _ _ _ _ H).
Qed.

(** ** The positions that the plot highlights *)

Lemma index_nth (ids : list string) :
  forall i, i < List.length ids ->
    exists j, Py.index (nth i ids ""%string) ids = Some j
              /\ j <= i /\ nth j ids ""%string = nth i ids ""%string.
Proof.
  induction ids as [| y ys IH]; intros i Hi; [simpl in Hi; lia |].
  destruct i as [| i]; cbn [nth Py.index].
  - rewrite String.eqb_refl. exists 0. repeat split; lia.
  - destruct (String.eqb_spec y (nth i ys ""%string)) as [E | E].
    + exists 0. repeat split; [lia | exact E].
    + destruct (IH i) as (j & Hj & Hle & Hn); [simpl in Hi; lia |].
      rewrite Hj. exists (S j). repeat split; [lia | exact Hn].
Qed.

Lemma index_nth_NoDup (ids : list string) (i : nat) :
  NoDup ids -> i < List.length ids ->
  Py.index (nth i ids ""%string) ids = Some i.
Proof.
  intros Hnd Hi. destruct (index_nth ids i Hi) as (j & Hj & Hle & Hn).
  rewrite Hj. f_equal.
  apply (proj1 (NoDup_nth ids ""%string) Hnd); [lia | exact Hi | exact Hn].
Qed.

Lemma mapM_map_inr {X Y Z} (f : Y -> Py.result Z) (g : X -> Y) (h : X -> Z)
      (l : list X) :
  (forall x, In x l -> f (g x) = inr (h x)) ->
  Py.mapM f (map g l) = inr (map h l).
Proof.
  induction l as [| x l IH]; intros H; [reflexivity |].
  cbn [map Py.mapM]. rewrite (H x (or_introl eq_refl)). cbn [Py.bind].
  rewrite IH by (intros y Hy; apply H; now right). reflexivity.
Qed.

Lemma flagged_indices_lt (thr : float) (zs : list float) (i : nat) :
  In i (flagged_indices thr zs) ->
  i < List.length zs /\ PrimFloat.ltb thr (nth i zs PrimFloat.nan) = true.
Proof.
  unfold flagged_indices. rewrite filter_In, in_seq. intros [H1 H2].
  split; [lia | exact H2].
Qed.

Lemma outlier_indices_of_analysis (dm : Bio.DistanceMatrix)
      (ids : list string) (thr : float) found avgs zs :
  analyze_distances dm ids thr = inr (found, avgs, zs) ->
  exists l,
    outlier_indices ids found = inr l
    /\ Forall (fun i => i < List.length avgs) l.
Proof.
  intros H. destruct (analyze_distances_shape _ _ _ _ _ _ H) as [Ha Hz].
  rewrite (found_by_position _ _ _ _ _ _ H).
  set (h := fun i => match Py.index (nth i ids ""%string) ids with
                     | Some j => j
                     | None => 0
                     end).
  exists (map h (flagged_indices thr zs)).
  assert (Hh : forall i, In i (flagged_indices thr zs) ->
                 Py.index (nth i ids ""%string) ids = Some (h i)
                 /\ h i < List.length ids).
  { intros i Hi. apply flagged_indices_lt in Hi as [Hi _].
    destruct (index_nth ids i) as (j & Hj & Hle & Hn); [lia |].
    unfold h. rewrite Hj. split; [reflexivity | lia]. }
  split.
  - unfold outlier_indices. apply mapM_map_inr. intros i Hi.
    cbn [fst]. now rewrite (proj1 (Hh i Hi)).
  - apply Forall_forall. intros j Hj. apply in_map_iff in Hj as (i & <- & Hi).
    rewrite Ha. apply (Hh i Hi).
Qed.

(** X2: The list comprehension of the plot that looks up the position of
    each outlier by its identifier never raises on the outcome of the
    analysis; every position it gives is a valid index of the mean
    distances and carries the identifier of its outlier; with distinct
    identifiers the positions are those of the flagged z-scores. *)
Theorem highlighted_positions (dm : Bio.DistanceMatrix)
        (ids : list string) (thr : float) found avgs zs :
  analyze_distances dm ids thr = inr (found, avgs, zs) ->
  exists l,
    outlier_indices ids found = inr l
    /\ Forall (fun i => i < List.length avgs) l
    /\ map (fun i => nth i ids ""%string) l
       = map (fun o : outlier => fst (fst o)) found
    /\ (Py.unique ids = true -> l = flagged_indices thr zs).
Proof.
  intros H. destruct (analyze_distances_shape _ _ _ _ _ _ H) as [Ha Hz].
  rewrite (found_by_position _ _ _ _ _ _ H).
  set (h := fun i => match Py.index (nth i ids ""%string) ids with
                     | Some j => j
                     | None => 0
                     end).
  exists (map h (flagged_indices thr zs)).
  assert (Hh : forall i, In i (flagged_indices thr zs) ->
                 Py.index (nth i ids ""%string) ids = Some (h i)
                 /\ h i < List.length ids
                 /\ nth (h i) ids ""%string = nth i ids ""%string).
  { intros i Hi. apply flagged_indices_lt in Hi as [Hi _].
    destruct (index_nth ids i) as (j & Hj & Hle & Hn); [lia |].
    unfold h. rewrite Hj. repeat split; [lia | exact Hn]. }
  split; [| split; [| split]].
  - unfold outlier_indices. apply mapM_map_inr. intros i Hi.
    cbn [fst]. now rewrite (proj1 (Hh i Hi)).
  - apply Forall_forall. intros j Hj. apply in_map_iff in Hj as (i & <- & Hi).
    rewrite Ha. apply (Hh i Hi).
  - rewrite !map_map. cbn [fst]. apply map_ext_in. intros i Hi. apply (Hh i Hi).
  - intros Hu. rewrite <- (map_id (flagged_indices thr zs)) at 2.
    apply map_ext_in. intros i Hi. unfold h.
    rewrite index_nth_NoDup; [reflexivity | now apply unique_NoDup |].
    apply flagged_indices_lt in Hi. lia.
Qed.

(** ** Scores that are not numbers *)

Lemma SFltb_true_numbers (a b : spec_float) :
  SFltb a b = true -> SFeqb a a = true /\ SFeqb b b = true.
Proof.
  unfold SFltb, SFeqb.
  destruct a as [sa | sa | | sa ma ea], b as [sb | sb | | sb mb eb];
    cbn [SFcompare]; try discriminate; intros _; split;
    try reflexivity;
    repeat match goal with
           | |- context [if ?s then _ else _] => destruct s
           end; try reflexivity;
    rewrite ?Z.compare_refl, ?Pos.compare_cont_refl; reflexivity.
Qed.

Lemma SFltb_infinity_l (a : spec_float) :
  SFltb (S754_infinity false) a = false.
Proof. destruct a as [s | [|] | | s m e]; reflexivity. Qed.

Lemma ltb_true_numbers (t z : float) :
  PrimFloat.ltb t z = true ->
  PrimFloat.is_nan t = false /\ PrimFloat.is_nan z = false.
Proof.
  rewrite ltb_spec. intros H. apply SFltb_true_numbers in H as [Ht Hz].
  unfold PrimFloat.is_nan. rewrite !eqb_spec, Ht, Hz. split; reflexivity.
Qed.

Lemma is_nan_Prim2SF (x : float) :
  PrimFloat.is_nan x = true -> Prim2SF x = S754_nan.
Proof.
  unfold PrimFloat.is_nan. rewrite eqb_spec. unfold SFeqb.
  destruct (Prim2SF x) as [s | s | | s m e]; cbn [SFcompare];
    try reflexivity;
    repeat match goal with
           | |- context [if ?s then _ else _] => destruct s
           end; try discriminate;
    rewrite ?Z.compare_refl, ?Pos.compare_cont_refl; discriminate.
Qed.

Lemma is_nan_eq (x : float) : PrimFloat.is_nan x = true -> x = PrimFloat.nan.
Proof.
  intros H. apply Prim2SF_inj. rewrite (is_nan_Prim2SF x H). reflexivity.
Qed.

Lemma ltb_nan_l (z : float) : PrimFloat.ltb PrimFloat.nan z = false.
Proof. rewrite ltb_spec. reflexivity. Qed.

Lemma ltb_infinity_l (z : float) : PrimFloat.ltb PrimFloat.infinity z = false.
Proof. rewrite ltb_spec. apply SFltb_infinity_l. Qed.

(** X3: Every outlier has a z-score that is a number and lies strictly
    above the threshold, which is then a number too: a sequence whose
    z-score is not a number is never reported, and neither is any sequence
    when the threshold is not a number or is plus infinity. *)
Theorem outliers_have_numeric_scores (dm : Bio.DistanceMatrix)
        (ids : list string) (thr : float) found avgs zs :
  analyze_distances dm ids thr = inr (found, avgs, zs) ->
  (forall seq_id avg z,
      In (seq_id, avg, z) found ->
      PrimFloat.ltb thr z = true
      /\ PrimFloat.is_nan z = false /\ PrimFloat.is_nan thr = false)
  /\ (PrimFloat.is_nan thr = true \/ thr = PrimFloat.infinity ->
      found = []).
Proof.
  intros H. pose proof (found_by_position _ _ _ _ _ _ H) as Hf.
  assert (Hin : forall seq_id avg z, In (seq_id, avg, z) found ->
                                     PrimFloat.ltb thr z = true).
  { intros seq_id avg z Hi. rewrite Hf in Hi.
    apply in_map_iff in Hi as (i & E & Hi). injection E as _ _ <-.
    apply (flagged_indices_lt _ _ _ Hi). }
  split.
  - intros seq_id avg z Hi. pose proof (Hin _ _ _ Hi) as Hlt.
    destruct (ltb_true_numbers _ _ Hlt) as [Ht Hz]. now repeat split.
  - intros Hthr. destruct found as [| [[seq_id avg] z] found']; [reflexivity |].
    pose proof (Hin seq_id avg z (or_introl eq_refl)) as Hlt.
    destruct Hthr as [Hn | ->].
    + apply is_nan_eq in Hn. subst thr. now rewrite ltb_nan_l in Hlt.
    + now rewrite ltb_infinity_l in Hlt.
Qed.

(** ** Zeros and [nan] *)

Lemma nan_Prim2SF (x : float) : Prim2SF x = S754_nan -> x = PrimFloat.nan.
Proof. intros H. apply Prim2SF_inj. now rewrite H. Qed.

Lemma zero_or_nan_zero : zero_or_nan (float_of_nat 0).
Proof. right. exists false. reflexivity. Qed.

Lemma zero_or_nan_nan : zero_or_nan PrimFloat.nan.
Proof. now left. Qed.

Ltac zn_cases :=
  repeat match goal with
         | H : zero_or_nan _ |- _ => destruct H as [H | [[|] H]]
         end.

Lemma zero_or_nan_add (x y : float) :
  zero_or_nan x -> zero_or_nan y -> zero_or_nan (PrimFloat.add x y).
Proof.
  intros Hx Hy. unfold zero_or_nan. rewrite add_spec. zn_cases;
    rewrite Hx; try rewrite Hy; cbn;
    try (now left); try (right; eexists; reflexivity);
    destruct (Prim2SF y); now left.
Qed.

Lemma zero_or_nan_sub (x y : float) :
  zero_or_nan x -> zero_or_nan y -> zero_or_nan (PrimFloat.sub x y).
Proof.
  intros Hx Hy. unfold zero_or_nan. rewrite sub_spec. zn_cases;
    rewrite Hx; try rewrite Hy; cbn;
    try (now left); try (right; eexists; reflexivity);
    destruct (Prim2SF y); now left.
Qed.

Lemma zero_or_nan_mul (x y : float) :
  zero_or_nan x -> zero_or_nan y -> zero_or_nan (PrimFloat.mul x y).
Proof.
  intros Hx Hy. unfold zero_or_nan. rewrite mul_spec. zn_cases;
    rewrite Hx; try rewrite Hy; cbn;
    try (now left); try (right; eexists; reflexivity);
    destruct (Prim2SF y); now left.
Qed.

Lemma zero_or_nan_sqrt (x : float) :
  zero_or_nan x -> zero_or_nan (PrimFloat.sqrt x).
Proof.
  intros Hx. unfold zero_or_nan. rewrite sqrt_spec. zn_cases;
    rewrite Hx; cbn; try (now left); right; eexists; reflexivity.
Qed.

Lemma zero_or_nan_div (x f : float) :
  zero_or_nan x -> zero_or_nan (PrimFloat.div x f).
Proof.
  intros Hx. unfold zero_or_nan. rewrite div_spec. zn_cases;
    rewrite Hx; cbn; try (now left);
    destruct (Prim2SF f); try (now left); right; eexists; reflexivity.
Qed.

Lemma zero_or_nan_quotient (x y : float) :
  zero_or_nan x -> zero_or_nan y -> PrimFloat.div x y = PrimFloat.nan.
Proof.
  intros Hx Hy. apply nan_Prim2SF. rewrite div_spec. zn_cases;
    rewrite Hx; try rewrite Hy; try reflexivity;
    destruct (Prim2SF y); reflexivity.
Qed.

Local Open Scope Z_scope.

(** ** The sign of a rounded number *)

Lemma shr_1_nonneg (mrs : shr_record) :
  0 <= shr_m mrs -> 0 <= shr_m (shr_1 mrs).
Proof.
  destruct mrs as [m r s]. cbn [shr_m].
  destruct m as [| [p | p |] | p]; cbn [shr_1 shr_m]; lia.
Qed.

Lemma iter_shr_1_nonneg (p : positive) :
  forall mrs, 0 <= shr_m mrs -> 0 <= shr_m (iter_pos shr_1 p mrs).
Proof.
  induction p as [p IH | p IH |]; intros mrs H; cbn [iter_pos].
  - apply IH, IH. now apply shr_1_nonneg.
  - now apply IH, IH.
  - now apply shr_1_nonneg.
Qed.

Lemma shr_fexp_nonneg (m e : Z) (l : location) :
  0 <= m -> 0 <= shr_m (fst (shr_fexp prec emax m e l)).
Proof.
  intros Hm. unfold shr_fexp, shr.
  assert (H0 : 0 <= shr_m (shr_record_of_loc m l))
    by (destruct l as [| []]; exact Hm).
  destruct (fexp prec emax (Zdigits2 m + e) - e); cbn [fst];
    [exact H0 | | exact H0].
  now apply iter_shr_1_nonneg.
Qed.

Lemma binary_round_aux_sign (s : bool) (mx ex : Z) (lx : location) :
  0 <= mx ->
  binary_round_aux prec emax s mx ex lx = S754_zero s
  \/ binary_round_aux prec emax s mx ex lx = S754_infinity s
  \/ exists m e, binary_round_aux prec emax s mx ex lx = S754_finite s m e.
Proof.
  intros Hm. unfold binary_round_aux.
  pose proof (shr_fexp_nonneg mx ex lx Hm) as H1.
  destruct (shr_fexp prec emax mx ex lx) as [mrs1 e1]. cbn [fst] in H1.
  set (m2 := round_nearest_even (shr_m mrs1) (loc_of_shr_record mrs1)).
  assert (Hm2 : 0 <= m2).
  { unfold m2. destruct (loc_of_shr_record mrs1) as [| []];
      cbn [round_nearest_even]; try lia.
    destruct (Z.even (shr_m mrs1)); lia. }
  pose proof (shr_fexp_nonneg m2 e1 loc_Exact Hm2) as H3.
  destruct (shr_fexp prec emax m2 e1 loc_Exact) as [mrs3 e3].
  cbn [fst] in H3.
  destruct (shr_m mrs3) as [| m | m]; [now left | | lia].
  destruct (e3 <=? emax - prec); [| now right; left].
  right; right. now exists m, e3.
Qed.

(** A number times the unit round-off, without its sign, is not below
    zero. *)
Lemma zero_leb_scaled (std mn : float) (s : bool) :
  Prim2SF std = S754_zero s -> Prim2SF mn <> S754_nan ->
  PrimFloat.leb std (PrimFloat.abs (PrimFloat.mul Scipy.eps mn)) = true.
Proof.
  intros Hs Hn. rewrite leb_spec, abs_spec, mul_spec, Hs.
  change (Prim2SF Scipy.eps)
    with (S754_finite false 4503599627370496 (-104)).
  destruct (Prim2SF mn) as [s' | s' | | s' m e]; try reflexivity;
    [now contradiction Hn |].
  unfold SF64mul, SFmul.
  destruct (binary_round_aux_sign (xorb false s')
              (Zpos (4503599627370496 * m)) (-104 + e) loc_Exact
              ltac:(lia)) as [-> | [-> | (m' & e' & ->)]]; reflexivity.
Qed.

Local Close Scope Z_scope.

Local Open Scope Z_scope.

(** ** Twice a number, and its half *)

Lemma bounded_digits (m : positive) (e : Z) :
  bounded prec emax m e = true ->
  e <= 971
  /\ ((Zpos (digits2_pos m) = 53 /\ -1074 <= e)
      \/ (Zpos (digits2_pos m) < 53 /\ e = -1074)).
Proof.
  unfold bounded, canonical_mantissa, fexp, SpecFloat.emin, prec, emax.
  intros H. apply andb_prop in H as [Hc He].
  apply Z.eqb_eq in Hc. apply Z.leb_le in He. lia.
Qed.

Lemma binary_round_aux_canonical (s : bool) (m : positive) (e : Z) :
  bounded prec emax m e = true ->
  binary_round_aux prec emax s (Zpos m) e loc_Exact = S754_finite s m e.
Proof.
  intros H. pose proof H as Hb. unfold bounded, canonical_mantissa in H.
  apply andb_prop in H as [Hc He]. apply Z.eqb_eq in Hc.
  unfold binary_round_aux, shr_fexp.
  cbn [Zdigits2 shr_record_of_loc]. rewrite Hc, Z.sub_diag.
  cbn [shr shr_m loc_of_shr_record round_nearest_even Zdigits2
       shr_record_of_loc].
  rewrite Hc, Z.sub_diag. cbn [shr shr_m]. now rewrite He.
Qed.

(** Rounding an even mantissa of 54 digits drops its last digit. *)
Lemma binary_round_aux_even (s : bool) (m : positive) (e : Z) :
  Zpos (digits2_pos m) = 53 -> -1075 <= e ->
  binary_round_aux prec emax s (Zpos m~0) e loc_Exact
  = if e + 1 <=? emax - prec then S754_finite s m (e + 1)
    else S754_infinity s.
Proof.
  intros Hd He. unfold binary_round_aux, shr_fexp.
  cbn [Zdigits2 shr_record_of_loc digits2_pos]. rewrite Pos2Z.inj_succ, Hd.
  replace (fexp prec emax (Z.succ 53 + e) - e) with 1
    by (unfold fexp, SpecFloat.emin, prec, emax; lia).
  cbn [shr iter_pos shr_1 shr_m shr_r shr_s loc_of_shr_record orb
       round_nearest_even Zdigits2 shr_record_of_loc].
  rewrite Hd.
  replace (fexp prec emax (53 + (e + 1)) - (e + 1)) with 0
    by (unfold fexp, SpecFloat.emin, prec, emax; lia).
  reflexivity.
Qed.

Lemma cond_Zopp_twice (s : bool) (m : positive) :
  cond_Zopp s (Zpos m) + cond_Zopp s (Zpos m) = cond_Zopp s (Zpos m~0).
Proof. destruct s; cbn [cond_Zopp]; lia. Qed.

Lemma binary_normalize_signed (s : bool) (m : positive) (e : Z) :
  binary_normalize prec emax (cond_Zopp s (Zpos m)) e false
  = binary_round prec emax s m e.
Proof. now destruct s. Qed.

Lemma SFadd_same (s : bool) (m : positive) (e : Z) :
  bounded prec emax m e = true ->
  let x := S754_finite s m e in
  SFadd prec emax x x = S754_infinity s
  \/ (Zpos (digits2_pos m) = 53 /\ -1074 <= e /\ e + 1 <= 971
      /\ SFadd prec emax x x = S754_finite s m (e + 1))
  \/ (Zpos (digits2_pos m) < 53 /\ e = -1074
      /\ SFadd prec emax x x = S754_finite s m~0 e).
Proof.
  intros Hb x. destruct (bounded_digits m e Hb) as [He Hcases].
  unfold x, SFadd. rewrite Z.min_id. unfold shl_align.
  rewrite Z.sub_diag. cbn [fst].
  rewrite cond_Zopp_twice, binary_normalize_signed.
  unfold binary_round. cbn [digits2_pos]. rewrite Pos2Z.inj_succ.
  destruct Hcases as [[Hd Hlo] | [Hd ->]].
  - rewrite Hd.
    replace (fexp prec emax (Z.succ 53 + e)) with (e + 1)
      by (unfold fexp, SpecFloat.emin, prec, emax; lia).
    unfold shl_align. replace (e + 1 - e) with 1 by lia.
    rewrite binary_round_aux_even by (try exact Hd; lia).
    destruct (Z.leb_spec (e + 1) (emax - prec)) as [Hle | _];
      [| now left].
    right; left. unfold emax, prec in Hle. repeat split; try lia.
  - right; right.
    assert (Hd1 : 1 <= Zpos (digits2_pos m)) by lia.
    replace (fexp prec emax (Z.succ (Zpos (digits2_pos m)) + -1074))
      with (-1074)
      by (unfold fexp, SpecFloat.emin, prec, emax; lia).
    unfold shl_align. rewrite Z.sub_diag.
    rewrite binary_round_aux_canonical; [repeat split; lia |].
    unfold bounded, canonical_mantissa. cbn [digits2_pos].
    rewrite Pos2Z.inj_succ.
    apply andb_true_intro. split.
    + apply Z.eqb_eq. unfold fexp, SpecFloat.emin, prec, emax. lia.
    + reflexivity.
Qed.

Lemma div_eucl_exact (a b : Z) :
  0 < b -> Z.div_eucl (a * b) b = (a, 0).
Proof.
  intros Hb. pose proof (Z_div_mod (a * b) b ltac:(lia)) as H.
  destruct (Z.div_eucl (a * b) b) as [q r]. destruct H as [Heq Hr].
  assert (q = a).
  { destruct (Z.lt_trichotomy q a) as [Hlt | [E | Hgt]]; [| exact E |]; nia. }
  subst q. f_equal. lia.
Qed.

Lemma new_location_zero (n : Z) : new_location n 0 = loc_Exact.
Proof.
  unfold new_location, new_location_even, new_location_odd.
  now destruct (Z.even n).
Qed.

(** Halving gives the number back. *)
Lemma SFdiv_two_normal (c : positive) (s : bool) (m : positive) (e : Z) :
  Zpos c = 2 ^ 52 -> Zpos (digits2_pos c) = 53 ->
  Zpos (digits2_pos m) = 53 -> -1074 <= e -> e + 1 <= 971 ->
  SFdiv prec emax (S754_finite s m (e + 1)) (S754_finite false c (-51))
  = S754_finite s m e.
Proof.
  intros Hc Hdc Hd Hlo Hhi. unfold SFdiv, SFdiv_core_binary.
  cbn [Zdigits2]. rewrite Hd, Hdc, Hc, xorb_false_r.
  assert (H52 : 0 < 2 ^ 52) by (apply Z.pow_pos_nonneg; lia).
  destruct (Z.eq_dec e (-1074)) as [-> | Hne].
  - replace (Z.min (fexp prec emax (53 + (-1074 + 1) - (53 + -51)))
                   (-1074 + 1 - -51)) with (-1074)
      by (unfold fexp, SpecFloat.emin, prec, emax; lia).
    replace (-1074 + 1 - -51 - -1074) with 52 by lia.
    rewrite Z.shiftl_mul_pow2 by lia.
    rewrite div_eucl_exact by exact H52.
    rewrite new_location_zero.
    apply binary_round_aux_canonical.
    unfold bounded, canonical_mantissa. rewrite Hd. reflexivity.
  - replace (Z.min (fexp prec emax (53 + (e + 1) - (53 + -51)))
                   (e + 1 - -51)) with (e - 1)
      by (unfold fexp, SpecFloat.emin, prec, emax; lia).
    replace (e + 1 - -51 - (e - 1)) with 53 by lia.
    rewrite Z.shiftl_mul_pow2 by lia.
    replace (Zpos m * 2 ^ 53) with (Zpos m~0 * 2 ^ 52).
    2:{ replace 53 with (52 + 1) by lia. rewrite Z.pow_add_r by lia. lia. }
    rewrite div_eucl_exact by exact H52.
    rewrite new_location_zero.
    rewrite binary_round_aux_even by (try exact Hd; lia).
    replace (e - 1 + 1) with e by lia.
    destruct (Z.leb_spec e (emax - prec)) as [_ | Hgt]; [reflexivity |].
    unfold emax, prec in Hgt. lia.
Qed.

Lemma SFdiv_two_subnormal (c : positive) (s : bool) (m : positive) :
  Zpos c = 2 ^ 52 -> Zpos (digits2_pos c) = 53 ->
  Zpos (digits2_pos m) < 53 ->
  SFdiv prec emax (S754_finite s m~0 (-1074)) (S754_finite false c (-51))
  = S754_finite s m (-1074).
Proof.
  intros Hc Hdc Hd. unfold SFdiv, SFdiv_core_binary.
  cbn [Zdigits2 digits2_pos]. rewrite Pos2Z.inj_succ, Hdc, Hc, xorb_false_r.
  assert (H52 : 0 < 2 ^ 52) by (apply Z.pow_pos_nonneg; lia).
  assert (Hd1 : 1 <= Zpos (digits2_pos m)) by lia.
  replace (Z.min (fexp prec emax
                    (Z.succ (Zpos (digits2_pos m)) + -1074 - (53 + -51)))
                 (-1074 - -51)) with (-1074)
    by (unfold fexp, SpecFloat.emin, prec, emax; lia).
  replace (-1074 - -51 - -1074) with 51 by lia.
  rewrite Z.shiftl_mul_pow2 by lia.
  replace (Zpos m~0 * 2 ^ 51) with (Zpos m * 2 ^ 52).
  2:{ replace 52 with (51 + 1) by lia. rewrite Z.pow_add_r by lia. lia. }
  rewrite div_eucl_exact by exact H52.
  rewrite new_location_zero.
  apply binary_round_aux_canonical.
  unfold bounded, canonical_mantissa.
  apply andb_true_intro. split.
  - apply Z.eqb_eq. unfold fexp, SpecFloat.emin, prec, emax. lia.
  - reflexivity.
Qed.

Local Close Scope Z_scope.

(** ** Sums *)

Lemma pairwise_sum_fuel (fuel1 : nat) :
  forall fuel2 a,
    List.length a <= fuel1 -> List.length a <= fuel2 ->
    Np.pairwise_sum fuel1 a = Np.pairwise_sum fuel2 a.
Proof.
  induction fuel1 as [| f1 IH]; intros fuel2 a H1 H2.
  - destruct a; [| cbn in H1; lia].
    destruct fuel2; reflexivity.
  - destruct fuel2 as [| f2].
    + destruct a; [reflexivity | cbn in H2; lia].
    + cbn [Np.pairwise_sum].
      destruct (Nat.leb_spec (List.length a) 128) as [_ | Hn];
        [reflexivity |].
      set (n2 := List.length a / 2 - (List.length a / 2) mod 8).
      assert (Hhalf : 64 <= List.length a / 2 < List.length a).
      { split.
        - apply Nat.div_le_lower_bound; lia.
        - apply Nat.div_lt; lia. }
      assert (Hmod : (List.length a / 2) mod 8 < 8)
        by (apply Nat.mod_upper_bound; lia).
      assert (Hn2 : 0 < n2 < List.length a) by (unfold n2; lia).
      f_equal; apply IH; rewrite ?length_firstn, ?length_skipn; lia.
Qed.

Section Closed.
Variable P : float -> Prop.
Hypothesis P_add : forall x y, P x -> P y -> P (PrimFloat.add x y).
Hypothesis P_zero : P (float_of_nat 0).
Hypothesis P_nan : P PrimFloat.nan.

Lemma Forall_firstn_P (k : nat) :
  forall a, Forall P a -> Forall P (firstn k a).
Proof.
  induction k as [| k IH]; intros a H; [constructor |].
  destruct a as [| x a]; [constructor |].
  inversion H; subst. cbn [firstn]. constructor; auto.
Qed.

Lemma Forall_skipn_P (k : nat) :
  forall a, Forall P a -> Forall P (skipn k a).
Proof.
  induction k as [| k IH]; intros a H; [exact H |].
  destruct a as [| x a]; [constructor |].
  inversion H; subst. cbn [skipn]. auto.
Qed.

Lemma add_to_closed (r : list float) :
  forall a, Forall P r -> Forall P a -> Forall P (Np.add_to r a).
Proof.
  induction r as [| x r IH]; intros a Hr Ha; [constructor |].
  destruct a as [| y a]; [exact Hr |]. cbn [Np.add_to].
  inversion Hr; inversion Ha; subst. constructor; auto.
Qed.

Lemma accumulate_closed (blocks : nat) :
  forall r a,
    Forall P r -> Forall P a ->
    Forall P (fst (Np.accumulate blocks r a))
    /\ Forall P (snd (Np.accumulate blocks r a)).
Proof.
  induction blocks as [| b IH]; intros r a Hr Ha; [now split |].
  cbn [Np.accumulate]. apply IH.
  - apply add_to_closed; [exact Hr | now apply Forall_firstn_P].
  - now apply Forall_skipn_P.
Qed.

Lemma fold_add_closed (a : list float) :
  forall x, P x -> Forall P a -> P (fold_left PrimFloat.add a x).
Proof.
  induction a as [| y a IH]; intros x Hx Ha; [exact Hx |].
  inversion Ha; subst. cbn [fold_left]. apply IH; auto.
Qed.

Lemma combine8_closed (r : list float) : Forall P r -> P (Np.combine8 r).
Proof.
  intros Hr. unfold Np.combine8.
  repeat (destruct r as [| ? r]; [exact P_nan |]; inversion Hr as [| ? ? ? Hr'];
          subst; clear Hr; rename Hr' into Hr).
  destruct r; [| exact P_nan]. auto 10.
Qed.

Lemma block_sum_closed (a : list float) : Forall P a -> P (Np.block_sum a).
Proof.
  intros Ha. unfold Np.block_sum.
  destruct (List.length a <? 8); [now apply fold_add_closed |].
  pose proof (accumulate_closed (List.length a / 8 - 1) (firstn 8 a)
                (skipn 8 a) (Forall_firstn_P 8 a Ha) (Forall_skipn_P 8 a Ha))
    as [Hr Hrest].
  destruct (Np.accumulate _ _ _) as [r rest]. cbn [fst snd] in *.
  apply fold_add_closed; [now apply combine8_closed | exact Hrest].
Qed.

Lemma pairwise_sum_closed (fuel : nat) :
  forall a, Forall P a -> P (Np.pairwise_sum fuel a).
Proof.
  induction fuel as [| f IH]; intros a Ha; cbn [Np.pairwise_sum];
    [now apply block_sum_closed |].
  destruct (List.length a <=? 128); [now apply block_sum_closed |].
  apply P_add; apply IH;
    [now apply Forall_firstn_P | now apply Forall_skipn_P].
Qed.

Lemma sum_closed (a : list float) : Forall P a -> P (Np.sum a).
Proof.
  intros Ha. unfold Np.sum. apply P_add; [exact P_zero |].
  now apply pairwise_sum_closed.
Qed.

End Closed.

Lemma mean_zero_or_nan (a : list float) :
  Forall zero_or_nan a -> zero_or_nan (Np.mean a).
Proof.
  intros Ha. unfold Np.mean. apply zero_or_nan_div.
  apply sum_closed;
    auto using zero_or_nan_add, zero_or_nan_zero, zero_or_nan_nan.
Qed.

(** ** Scores of a list without deviation *)

Lemma std_as_zscore (a : list float) :
  Np.std a
  = PrimFloat.sqrt
      (Np.mean (map (fun v => PrimFloat.mul v v)
                    (map (fun x => PrimFloat.sub x (Np.mean a)) a))).
Proof. unfold Np.std, Np.var, Np.mean. now rewrite !length_map. Qed.

Lemma zscore_eq (a : list float) :
  Scipy.zscore a
  = if PrimFloat.leb (Np.std a)
         (PrimFloat.abs (PrimFloat.mul Scipy.eps (Np.mean a)))
    then map (fun _ => PrimFloat.nan) a
    else map (fun x => PrimFloat.div (PrimFloat.sub x (Np.mean a))
                                     (Np.std a)) a.
Proof.
  rewrite std_as_zscore. destruct a as [| x a].
  - now destruct (PrimFloat.leb _ _).
  - unfold Scipy.zscore. destruct (PrimFloat.leb _ _); [| reflexivity].
    now rewrite map_map.
Qed.

Lemma zscore_deviations (a : list float) :
  (forall x, In x a -> zero_or_nan (PrimFloat.sub x (Np.mean a))) ->
  Scipy.zscore a = map (fun _ => PrimFloat.nan) a.
Proof.
  intros H. rewrite zscore_eq.
  destruct (PrimFloat.leb _ _); [reflexivity |].
  apply map_ext_in. intros x Hx. apply zero_or_nan_quotient; [now apply H |].
  rewrite std_as_zscore. apply zero_or_nan_sqrt, mean_zero_or_nan.
  apply Forall_forall. intros v Hv.
  apply in_map_iff in Hv as (d & <- & Hd).
  apply in_map_iff in Hd as (y & <- & Hy).
  apply zero_or_nan_mul; now apply H.
Qed.

Lemma zscore_zero_or_nan (a : list float) :
  Forall zero_or_nan a -> Scipy.zscore a = map (fun _ => PrimFloat.nan) a.
Proof.
  intros Ha. apply zscore_deviations. intros x Hx.
  apply zero_or_nan_sub; [| now apply mean_zero_or_nan].
  rewrite Forall_forall in Ha. now apply Ha.
Qed.

Lemma sub_nan_r (x : float) : PrimFloat.sub x PrimFloat.nan = PrimFloat.nan.
Proof.
  apply nan_Prim2SF. rewrite sub_spec.
  change (Prim2SF PrimFloat.nan) with S754_nan.
  now destruct (Prim2SF x).
Qed.

(** A computed standard deviation of zero gives no score. *)
Lemma zscore_std_zero (a : list float) :
  PrimFloat.eqb (Np.std a) (float_of_nat 0) = true ->
  Scipy.zscore a = map (fun _ => PrimFloat.nan) a.
Proof.
  intros H. rewrite zscore_eq.
  destruct (PrimFloat.leb _ _) eqn:Hrule; [reflexivity |].
  assert (Hs : exists s, Prim2SF (Np.std a) = S754_zero s).
  { rewrite eqb_spec in H.
    change (Prim2SF (float_of_nat 0)) with (S754_zero false) in H.
    destruct (Prim2SF (Np.std a)) as [s | [] | | [] m e]; try discriminate.
    now exists s. }
  destruct Hs as [s Hs].
  destruct (Prim2SF (Np.mean a)) as [s' | s' | | s' m e] eqn:Hm;
    try (rewrite (zero_leb_scaled _ _ s Hs) in Hrule;
         [discriminate | rewrite Hm; discriminate]).
  apply map_ext_in. intros x _.
  rewrite (nan_Prim2SF _ Hm), sub_nan_r.
  apply zero_or_nan_quotient; [apply zero_or_nan_nan | right; now exists s].
Qed.

(** ** Two sequences *)

Lemma as_SF2Prim (x : float) (f : spec_float) :
  Prim2SF x = f -> x = SF2Prim f.
Proof. intros <-. symmetry. apply SF2Prim_Prim2SF. Qed.

Lemma add_zero_l (y : float) :
  (forall s, Prim2SF y <> S754_zero s) ->
  PrimFloat.add (float_of_nat 0) y = y.
Proof.
  intros H. apply Prim2SF_inj. rewrite add_spec.
  change (Prim2SF (float_of_nat 0)) with (S754_zero false).
  destruct (Prim2SF y) as [s | s | | s m e]; try reflexivity.
  now contradiction (H s).
Qed.

Lemma sub_same (m : float) (s : bool) (mm : positive) (e : Z) :
  Prim2SF m = S754_finite s mm e ->
  Prim2SF (PrimFloat.sub m m) = S754_zero false.
Proof.
  intros Hm. rewrite sub_spec, Hm. unfold SF64sub, SFsub.
  now rewrite Z.sub_diag.
Qed.

(** The mean of a number with itself is the number, unless their sum
    overflows. *)
Lemma mean_pair (m : float) (s : bool) (mm : positive) (e : Z) :
  Prim2SF m = S754_finite s mm e ->
  Np.mean [m; m] = m \/ Prim2SF (Np.mean [m; m]) = S754_infinity s.
Proof.
  intros Hm.
  assert (Hb : bounded prec emax mm e = true).
  { pose proof (Prim2SF_valid m) as Hv. now rewrite Hm in Hv. }
  assert (Hsum : Prim2SF (PrimFloat.add m m)
                 = SFadd prec emax (S754_finite s mm e) (S754_finite s mm e))
    by now rewrite add_spec, Hm.
  assert (H2 : Prim2SF (float_of_nat 2)
               = S754_finite false 4503599627370496 (-51))
    by (vm_compute; reflexivity).
  assert (Hc : Zpos 4503599627370496 = (2 ^ 52)%Z)
    by (vm_compute; reflexivity).
  assert (Hdc : Zpos (digits2_pos 4503599627370496) = 53%Z)
    by (vm_compute; reflexivity).
  assert (Hmean : Np.mean [m; m]
                  = PrimFloat.div (PrimFloat.add m m) (float_of_nat 2)).
  { unfold Np.mean, Np.sum.
    cbn [List.length Np.pairwise_sum Nat.leb Np.block_sum Nat.ltb fold_left].
    assert (E : PrimFloat.add (float_of_nat 0) m = m).
    { apply add_zero_l. intros s0. rewrite Hm. discriminate. }
    rewrite E. apply f_equal2; [| reflexivity].
    apply add_zero_l. intros s0. rewrite Hsum.
    destruct (SFadd_same s mm e Hb) as [-> | [(_ & _ & _ & ->) | (_ & _ & ->)]];
      discriminate. }
  rewrite Hmean.
  destruct (SFadd_same s mm e Hb)
    as [E | [(Hd & Hlo & Hhi & E) | (Hd & -> & E)]].
  - right. rewrite div_spec, Hsum, H2, E. cbn. now rewrite xorb_false_r.
  - left. apply Prim2SF_inj. rewrite div_spec, Hsum, H2, E, Hm.
    now apply SFdiv_two_normal.
  - left. apply Prim2SF_inj. rewrite div_spec, Hsum, H2, E, Hm.
    now apply SFdiv_two_subnormal.
Qed.

Lemma zscore_pair (m : float) :
  Scipy.zscore [m; m] = [PrimFloat.nan; PrimFloat.nan].
Proof.
  destruct (Prim2SF m) as [s | s | | s mm e] eqn:Hm.
  - apply (zscore_zero_or_nan [m; m]).
    assert (zero_or_nan m) by (right; now exists s).
    auto using Forall_cons, Forall_nil.
  - rewrite (as_SF2Prim m _ Hm). destruct s; vm_compute; reflexivity.
  - apply (zscore_zero_or_nan [m; m]).
    assert (zero_or_nan m) by now left.
    auto using Forall_cons, Forall_nil.
  - destruct (mean_pair m s mm e Hm) as [E | Hinf].
    + apply (zscore_deviations [m; m]). intros x Hx.
      assert (x = m) as -> by (destruct Hx as [<- | [<- | []]]; reflexivity).
      rewrite E. right. exists false. now apply (sub_same m s mm e).
    + rewrite zscore_eq. destruct (PrimFloat.leb _ _); [reflexivity |].
      rewrite std_as_zscore.
      set (mn := Np.mean [m; m]) in *.
      assert (Hdev : PrimFloat.sub m mn = SF2Prim (S754_infinity (negb s))).
      { apply as_SF2Prim. now rewrite sub_spec, Hm, Hinf. }
      cbn [map]. rewrite Hdev.
      destruct s; vm_compute; reflexivity.
Qed.

(** X4: Two sequences are never told apart: whatever the matrix and the
    threshold, both have the same mean distance, both z-scores are not
    numbers and no outlier is reported. *)
Theorem two_sequences_give_no_outlier (dm : Bio.DistanceMatrix)
        (a b : string) (thr : float) found avgs zs :
  analyze_distances dm [a; b] thr = inr (found, avgs, zs) ->
  (exists m, avgs = [m; m])
  /\ zs = [PrimFloat.nan; PrimFloat.nan]
  /\ found = [].
Proof.
  intros H. apply analyze_distances_inr in H as (Havg & Hzs & Hf).
  unfold avg_distances, seq_distances in Havg.
  cbn [List.length List.seq Py.mapM filter Nat.eqb negb] in Havg.
  rewrite (getitem_sym dm 1 0) in Havg.
  destruct (Bio.getitem dm 0 1) as [e | d]; [discriminate |].
  cbn [Py.bind Py.ret] in Havg. injection Havg as <-.
  set (m := Np.mean [d]) in *.
  assert (Hz : zs = [PrimFloat.nan; PrimFloat.nan])
    by (rewrite Hzs; apply zscore_pair).
  split; [now exists m | split; [exact Hz |]].
  rewrite Hf, Hz. cbn [combine flagged_from].
  now rewrite ltb_nan_r.
Qed.

Local Open Scope Z_scope.

(** ** Adding integers *)

Lemma iter_shr_1_exact (t : positive) :
  forall m,
    iter_pos shr_1 t
      {| shr_m := Zpos (Pos.iter xO m t); shr_r := false; shr_s := false |}
    = {| shr_m := Zpos m; shr_r := false; shr_s := false |}.
Proof.
  induction t as [t IH | t IH |]; intros m; cbn [iter_pos Pos.iter].
  - cbn [shr_1 orb]. now rewrite !IH.
  - now rewrite !IH.
  - reflexivity.
Qed.

Lemma digits2_scaled (N p : positive) (k : Z) :
  0 <= k -> Zpos p = Zpos N * 2 ^ k ->
  Zpos (digits2_pos p) = Zpos (digits2_pos N) + k.
Proof.
  intros Hk Hp. apply digits2_unique. rewrite Hp.
  pose proof (digits2_bounds N) as [Hlo Hhi].
  assert (H0 : 0 < 2 ^ k) by (apply Z.pow_pos_nonneg; lia).
  replace (Zpos (digits2_pos N) + k - 1) with (Zpos (digits2_pos N) - 1 + k)
    by lia.
  rewrite !pow2_split by lia. split; nia.
Qed.

Lemma Zpos_inj_iter (p m t : positive) :
  Zpos p = Zpos m * 2 ^ Zpos t -> p = Pos.iter xO m t.
Proof.
  intros H. rewrite <- iter_xO_value in H. now injection H.
Qed.

(** Rounding an integer below [2 ^ 53] that is written with an exponent
    gives the integer. *)
Lemma binary_round_scaled (N p : positive) (e : Z) :
  -52 <= e <= 0 -> Zpos N < 2 ^ 53 -> Zpos p = Zpos N * 2 ^ (- e) ->
  binary_round prec emax false p e = binary_round prec emax false N 0.
Proof.
  intros He HN Hp.
  destruct (binary_normalize_small N HN) as (mN & eN & E & HeN & HmN & HdN).
  change (binary_normalize prec emax (Zpos N) 0 false)
    with (binary_round prec emax false N 0) in E.
  rewrite E. clear E.
  pose proof (digits2_scaled N mN (- eN) ltac:(lia) HmN) as HdmN.
  pose proof (digits2_scaled N p (- e) ltac:(lia) Hp) as Hdp.
  assert (HdN1 : 1 <= Zpos (digits2_pos N)) by lia.
  unfold binary_round. rewrite Hdp.
  replace (fexp prec emax (Zpos (digits2_pos N) + - e + e)) with eN
    by (unfold fexp, SpecFloat.emin, prec, emax; lia).
  assert (Hval : Zpos p = Zpos mN * 2 ^ (eN - e) \/ eN - e < 0).
  { destruct (Z.lt_ge_cases (eN - e) 0) as [? | Hge]; [now right | left].
    rewrite HmN, Hp, <- Z.mul_assoc, <- pow2_split by lia.
    f_equal. f_equal. lia. }
  unfold shl_align. destruct (eN - e) as [| t | t] eqn:Et.
  - assert (p = mN) as ->.
    { destruct Hval as [Hval | ?]; [| lia].
      rewrite Z.pow_0_r, Z.mul_1_r in Hval. now injection Hval. }
    assert (e = eN) as -> by lia.
    apply binary_round_aux_exact; [exact HdN | lia].
  - assert (p = Pos.iter xO mN t) as ->.
    { apply Zpos_inj_iter. destruct Hval as [Hval | ?]; [exact Hval | lia]. }
    unfold binary_round_aux, shr_fexp.
    cbn [Zdigits2 shr_record_of_loc]. rewrite Hdp.
    replace (fexp prec emax (Zpos (digits2_pos N) + - e + e) - e)
      with (Zpos t)
      by (unfold fexp, SpecFloat.emin, prec, emax; lia).
    cbn [shr]. rewrite iter_shr_1_exact.
    cbn [shr_m shr_r shr_s loc_of_shr_record orb round_nearest_even Zdigits2
         shr_record_of_loc].
    rewrite HdN, fexp_canonical by lia. cbn [shr shr_m].
    destruct (Z.leb_spec (e + Zpos t) (emax - prec)) as [_ | Hgt].
    + f_equal. lia.
    + unfold emax, prec in Hgt. lia.
  - assert (Pos.iter xO p t = mN) as ->.
    { assert (H : Zpos (Pos.iter xO p t) = Zpos mN); [| now injection H].
      rewrite iter_xO_value, Hp, HmN, <- Z.mul_assoc, <- pow2_split by lia.
      f_equal. f_equal. lia. }
    apply binary_round_aux_exact; [exact HdN | lia].
Qed.

Lemma shl_align_value (m : positive) (e e' : Z) :
  e' <= e -> Zpos (fst (shl_align m e e')) = Zpos m * 2 ^ (e - e').
Proof.
  intros H. unfold shl_align. destruct (e' - e) as [| k | k] eqn:Ek;
    cbn [fst].
  - replace (e - e') with 0 by lia. lia.
  - lia.
  - rewrite iter_xO_value. f_equal. f_equal. lia.
Qed.

Lemma SFadd_integers (a b : positive) :
  Zpos a + Zpos b < 2 ^ 53 ->
  SFadd prec emax (binary_normalize prec emax (Zpos a) 0 false)
                  (binary_normalize prec emax (Zpos b) 0 false)
  = binary_normalize prec emax (Zpos (a + b)) 0 false.
Proof.
  intros H.
  destruct (binary_normalize_small a ltac:(lia))
    as (ma & ea & -> & Hea & Hma & _).
  destruct (binary_normalize_small b ltac:(lia))
    as (mb & eb & -> & Heb & Hmb & _).
  unfold SFadd. cbn [cond_Zopp].
  set (ez := Z.min ea eb).
  pose proof (shl_align_value ma ea ez ltac:(lia)) as Ha.
  pose proof (shl_align_value mb eb ez ltac:(lia)) as Hb.
  set (A := fst (shl_align ma ea ez)) in *.
  set (B := fst (shl_align mb eb ez)) in *.
  change (Zpos A + Zpos B) with (Zpos (A + B)).
  change (binary_normalize prec emax (Zpos (A + B)) ez false)
    with (binary_round prec emax false (A + B) ez).
  change (binary_normalize prec emax (Zpos (a + b)) 0 false)
    with (binary_round prec emax false (a + b) 0).
  assert (H0 : 0 < 2 ^ (- ez)) by (apply Z.pow_pos_nonneg; lia).
  assert (Ha' : Zpos A = Zpos a * 2 ^ (- ez)).
  { rewrite Ha, Hma, <- Z.mul_assoc, <- pow2_split by lia.
    f_equal. f_equal. lia. }
  assert (Hb' : Zpos B = Zpos b * 2 ^ (- ez)).
  { rewrite Hb, Hmb, <- Z.mul_assoc, <- pow2_split by lia.
    f_equal. f_equal. lia. }
  apply binary_round_scaled; [lia | lia |].
  rewrite !Pos2Z.inj_add, Ha', Hb'. lia.
Qed.

Lemma add_float_of_nat (a b : nat) :
  Z.of_nat (a + b) < 2 ^ 53 ->
  PrimFloat.add (float_of_nat a) (float_of_nat b) = float_of_nat (a + b).
Proof.
  intros H. apply Prim2SF_inj.
  rewrite add_spec, !Prim2SF_float_of_nat by lia.
  destruct a as [| a].
  - cbn [Nat.add]. change (Z.of_nat 0) with 0.
    destruct (Z.of_nat b) as [| pb | pb] eqn:Eb; [reflexivity | | lia].
    destruct (binary_normalize_small pb ltac:(lia)) as (m & e & -> & _).
    reflexivity.
  - destruct b as [| b].
    + rewrite Nat.add_0_r. change (Z.of_nat 0) with 0.
      destruct (Z.of_nat (S a)) as [| pa | pa] eqn:Ea; [lia | | lia].
      destruct (binary_normalize_small pa ltac:(lia)) as (m & e & -> & _).
      reflexivity.
    + rewrite Nat2Z.inj_add.
      destruct (Z.of_nat (S a)) as [| pa | pa] eqn:Ea; [lia | | lia].
      destruct (Z.of_nat (S b)) as [| pb | pb] eqn:Eb; [lia | | lia].
      rewrite Nat2Z.inj_add, Ea, Eb in H.
      unfold SF64add. rewrite SFadd_integers by exact H. reflexivity.
Qed.

Local Close Scope Z_scope.

(** ** Sums of integers *)

Lemma list_sum_firstn_skipn (k : nat) (l : list nat) :
  list_sum (firstn k l) + list_sum (skipn k l) = list_sum l.
Proof. now rewrite <- list_sum_app, firstn_skipn. Qed.

Lemma list_sum_cons (x : nat) (l : list nat) :
  list_sum (x :: l) = x + list_sum l.
Proof. reflexivity. Qed.

Lemma fold_add_integers (l : list nat) :
  forall a,
    (Z.of_nat (a + list_sum l) < 2 ^ 53)%Z ->
    fold_left PrimFloat.add (map float_of_nat l) (float_of_nat a)
    = float_of_nat (a + list_sum l).
Proof.
  induction l as [| x l IH]; intros a H; cbn [map fold_left]; rewrite ?list_sum_cons in *.
  - now rewrite Nat.add_0_r.
  - rewrite add_float_of_nat by lia. rewrite IH by (rewrite <- Nat.add_assoc; exact H).
    f_equal. lia.
Qed.

Lemma add_to_integers (r : list nat) :
  forall a,
    List.length a = List.length r ->
    (Z.of_nat (list_sum r + list_sum a) < 2 ^ 53)%Z ->
    exists r',
      Np.add_to (map float_of_nat r) (map float_of_nat a)
      = map float_of_nat r'
      /\ List.length r' = List.length r
      /\ list_sum r' = list_sum r + list_sum a.
Proof.
  induction r as [| x r IH]; intros [| y a] Hlen H; try discriminate.
  - now exists [].
  - rewrite !list_sum_cons in H.
    destruct (IH a) as (r' & E & Hl & Hs); [now injection Hlen | lia |].
    exists (x + y :: r'). cbn [map Np.add_to List.length]. rewrite !list_sum_cons.
    rewrite add_float_of_nat by lia. rewrite E.
    repeat split; lia.
Qed.

Lemma accumulate_integers (blocks : nat) :
  forall r a,
    List.length r = 8 -> 8 * blocks <= List.length a ->
    (Z.of_nat (list_sum r + list_sum a) < 2 ^ 53)%Z ->
    exists r' rest,
      Np.accumulate blocks (map float_of_nat r) (map float_of_nat a)
      = (map float_of_nat r', map float_of_nat rest)
      /\ List.length r' = 8
      /\ list_sum r' + list_sum rest = list_sum r + list_sum a.
Proof.
  induction blocks as [| b IH]; intros r a Hr Ha H.
  - now exists r, a.
  - cbn [Np.accumulate]. rewrite firstn_map, skipn_map.
    pose proof (list_sum_firstn_skipn 8 a) as Hsplit.
    destruct (add_to_integers r (firstn 8 a)) as (r1 & E & Hl & Hs).
    + rewrite length_firstn. lia.
    + lia.
    + rewrite E.
      destruct (IH r1 (skipn 8 a)) as (r' & rest & E' & Hl' & Hs').
      * lia.
      * rewrite length_skipn. lia.
      * lia.
      * exists r', rest. rewrite E'. repeat split; lia.
Qed.

Lemma combine8_integers (r : list nat) :
  List.length r = 8 -> (Z.of_nat (list_sum r) < 2 ^ 53)%Z ->
  Np.combine8 (map float_of_nat r) = float_of_nat (list_sum r).
Proof.
  intros Hr H.
  do 8 (destruct r as [| ? r]; [discriminate |]).
  destruct r; [| discriminate].
  cbn [map Np.combine8]; rewrite !list_sum_cons in *; change (list_sum []) with 0 in *.
  rewrite !add_float_of_nat by lia. f_equal. lia.
Qed.

Lemma block_sum_integers (l : list nat) :
  (Z.of_nat (list_sum l) < 2 ^ 53)%Z ->
  Np.block_sum (map float_of_nat l) = float_of_nat (list_sum l).
Proof.
  intros H. unfold Np.block_sum. rewrite length_map.
  destruct (Nat.ltb_spec (List.length l) 8) as [_ | Hn].
  - now rewrite fold_add_integers.
  - rewrite firstn_map, skipn_map.
    pose proof (list_sum_firstn_skipn 8 l) as Hsplit.
    assert (Hdiv : 8 * (List.length l / 8) <= List.length l)
      by apply Nat.Div0.mul_div_le.
    destruct (accumulate_integers (List.length l / 8 - 1) (firstn 8 l)
                (skipn 8 l)) as (r' & rest & E & Hl & Hs).
    + rewrite length_firstn. lia.
    + rewrite length_skipn. lia.
    + lia.
    + rewrite E. rewrite combine8_integers by lia.
      rewrite fold_add_integers by lia. f_equal. lia.
Qed.

Lemma pairwise_sum_integers (fuel : nat) :
  forall l,
    (Z.of_nat (list_sum l) < 2 ^ 53)%Z ->
    Np.pairwise_sum fuel (map float_of_nat l) = float_of_nat (list_sum l).
Proof.
  induction fuel as [| f IH]; intros l H; cbn [Np.pairwise_sum];
    [now apply block_sum_integers |].
  destruct (_ <=? 128); [now apply block_sum_integers |].
  rewrite length_map. set (n2 := _ - _).
  pose proof (list_sum_firstn_skipn n2 l) as Hsplit.
  rewrite firstn_map, skipn_map, !IH by lia.
  rewrite add_float_of_nat by lia. f_equal. lia.
Qed.

(** The sum of integers whose total is below [2 ^ 53] is exact. *)
Lemma sum_integers (l : list nat) :
  (Z.of_nat (list_sum l) < 2 ^ 53)%Z ->
  Np.sum (map float_of_nat l) = float_of_nat (list_sum l).
Proof.
  intros H. unfold Np.sum. rewrite pairwise_sum_integers by exact H.
  now rewrite add_float_of_nat by exact H.
Qed.

Lemma list_sum_repeat (c k : nat) : list_sum (repeat c k) = k * c.
Proof.
  induction k as [| k IH]; [reflexivity |].
  cbn [repeat]. now rewrite list_sum_cons, IH.
Qed.

Lemma map_repeat {X Y} (f : X -> Y) (x : X) (k : nat) :
  map f (repeat x k) = repeat (f x) k.
Proof. induction k as [| k IH]; cbn; congruence. Qed.

(** ** The entries of the matrix *)

Lemma in_combinations2_nth {X} (xs : list X) (a b : X) :
  In (a, b) (Py.combinations2 xs) ->
  exists i j, i < j /\ nth_error xs i = Some a /\ nth_error xs j = Some b.
Proof.
  induction xs as [| x xs IH]; simpl; [tauto |].
  rewrite in_app_iff, in_map_iff. intros [(y & E & Hy) | H].
  - injection E as -> ->. apply In_nth_error in Hy as [j Hj].
    exists 0, (S j). repeat split; [lia | exact Hj].
  - destruct (IH H) as (i & j & Hij & Hi & Hj).
    exists (S i), (S j). repeat split; [lia | exact Hi | exact Hj].
Qed.

Lemma nth_in_combinations2 {X} (xs : list X) :
  forall i j a b,
    i < j -> nth_error xs i = Some a -> nth_error xs j = Some b ->
    In (a, b) (Py.combinations2 xs).
Proof.
  induction xs as [| x xs IH]; intros i j a b Hij Hi Hj.
  - destruct i; discriminate.
  - destruct j as [| j]; [lia |]. cbn [Py.combinations2 nth_error] in *.
    apply in_app_iff. destruct i as [| i].
    + injection Hi as ->. left. apply in_map. eapply nth_error_In, Hj.
    + right. apply (IH i j); [lia | exact Hi | exact Hj].
Qed.

Lemma index_of_record (msa : Bio.MultipleSeqAlignment) (i : nat)
      (a : Bio.SeqRecord) :
  NoDup (map Bio.id msa) -> nth_error msa i = Some a ->
  Py.index (Bio.id a) (map Bio.id msa) = Some i.
Proof.
  intros Hnd Hi.
  assert (Hlt : i < List.length (map Bio.id msa)).
  { rewrite length_map. apply nth_error_Some. congruence. }
  rewrite <- (nth_error_nth _ _ ""%string (map_nth_error Bio.id _ _ Hi)).
  now apply index_nth_NoDup.
Qed.

Lemma getitem_as_entry (dm : Bio.DistanceMatrix) (i j : nat) :
  Bio.getitem dm i j
  = if (Bio.len dm <=? i) || (Bio.len dm <=? j)
    then inl (Py.IndexError "Index out of range.")
    else match entry (Bio.matrix dm) (Nat.max i j) (Nat.min i j) with
         | Some v => inr v
         | None => inl (Py.IndexError "list index out of range")
         end.
Proof.
  unfold Bio.getitem, entry, Py.list_get, Py.raise, Py.ret.
  destruct ((Bio.len dm <=? i) || (Bio.len dm <=? j)); [reflexivity |].
  destruct (Nat.ltb_spec j i) as [H | H].
  - rewrite Nat.max_l, Nat.min_r by lia.
    destruct (nth_error (Bio.matrix dm) i) as [row |]; [| reflexivity].
    cbn [Py.bind]. now destruct (nth_error row j).
  - rewrite Nat.max_r, Nat.min_l by lia.
    destruct (nth_error (Bio.matrix dm) j) as [row |]; [| reflexivity].
    cbn [Py.bind]. now destruct (nth_error row i).
Qed.

Lemma setitem_entry (dm dm' : Bio.DistanceMatrix) (a b : string) (v : float)
      (r c : nat) :
  Py.index a (Bio.names dm) = Some r ->
  Py.index b (Bio.names dm) = Some c ->
  Bio.setitem dm a b v = inr dm' ->
  Bio.names dm' = Bio.names dm
  /\ (forall i, i < Bio.len dm ->
                entry (Bio.matrix dm') i i = Some (float_of_nat 0))
  /\ (r <> c ->
      entry (Bio.matrix dm') (Nat.max r c) (Nat.min r c) = Some v)
  /\ (forall r' c',
         r' <> c' -> r' <> Nat.max r c \/ c' <> Nat.min r c ->
         entry (Bio.matrix dm') r' c' = entry (Bio.matrix dm) r' c').
Proof.
  intros Hr Hc H. unfold Bio.setitem in H. rewrite Hr, Hc in H.
  apply bind_inr in H as (m1 & H1 & H).
  apply bind_inr in H as (m2 & H2 & H). injection H as <-. cbn.
  apply set_zero_diagonal_spec in H2 as [Hd Ho].
  assert (H1' : Bio.set_entry (Bio.matrix dm) (Nat.max r c) (Nat.min r c) v
                = inr m1).
  { destruct (Nat.ltb_spec c r).
    - now rewrite Nat.max_l, Nat.min_r by lia.
    - now rewrite Nat.max_r, Nat.min_l by lia. }
  apply set_entry_spec in H1' as [Hv Hk].
  split; [reflexivity | split; [exact Hd | split]].
  - intros Hrc. rewrite Ho by (left; lia). exact Hv.
  - intros r' c' Hne Hother. rewrite Ho by now left. now apply Hk.
Qed.

(** X5: After [dm[a, b] = v] with two different names, both [dm[r, c]]
    and [dm[c, r]] at their positions return [v]; with one name twice the
    entry stays zero; every other entry is as before. *)
Theorem setitem_then_getitem (dm dm' : Bio.DistanceMatrix) (a b : string)
        (v : float) (r c : nat) :
  Py.index a (Bio.names dm) = Some r ->
  Py.index b (Bio.names dm) = Some c ->
  Bio.setitem dm a b v = inr dm' ->
  Bio.len dm' = Bio.len dm
  /\ (r <> c -> Bio.getitem dm' r c = inr v /\ Bio.getitem dm' c r = inr v)
  /\ (r = c -> Bio.getitem dm' r c = inr (float_of_nat 0))
  /\ (forall i j, i <> j -> ~ (i = r /\ j = c) -> ~ (i = c /\ j = r) ->
                  Bio.getitem dm' i j = Bio.getitem dm i j).
Proof.
  intros Hr Hc H.
  destruct (setitem_entry _ _ _ _ _ _ _ Hr Hc H) as (Hn & Hd & Hv & Ho).
  pose proof (index_lt _ _ _ Hr) as Hrl. pose proof (index_lt _ _ _ Hc) as Hcl.
  assert (Hlen : Bio.len dm' = Bio.len dm) by (unfold Bio.len; now rewrite Hn).
  split; [exact Hlen | split; [| split]].
  - intros Hrc. rewrite (getitem_sym dm' c r). split;
      apply getitem_entry; try (rewrite Hlen; assumption); now apply Hv.
  - intros <-. apply getitem_entry; try (rewrite Hlen; assumption).
    rewrite Nat.max_id, Nat.min_id. now apply Hd.
  - intros i j Hij H1 H2. rewrite !getitem_as_entry, Hlen.
    rewrite Ho; [reflexivity | lia | lia].
Qed.

Lemma foldM_prefix {X S} (f : S -> X -> Py.result S)
      (I : list X -> S -> Prop) (all : list X) :
  (forall pre x post s s',
      all = pre ++ x :: post -> I pre s -> f s x = inr s' ->
      I (pre ++ [x]) s') ->
  forall xs pre s s',
    all = pre ++ xs -> I pre s -> Py.foldM f xs s = inr s' -> I all s'.
Proof.
  intros Hstep. induction xs as [| x xs IH]; intros pre s s' E HI H.
  - cbn in H. injection H as <-. now rewrite E, app_nil_r.
  - cbn [Py.foldM] in H. apply bind_inr in H as (s1 & H1 & H2).
    apply (IH (pre ++ [x]) s1 s'); [now rewrite <- app_assoc | | exact H2].
    apply (Hstep pre x xs s s1 E HI H1).
Qed.

Lemma get_distance_entries mp (calc : Bio.DistanceCalculator)
      (msa : Bio.MultipleSeqAlignment) (dm : Bio.DistanceMatrix) :
  Bio.get_distance mp calc msa = inr dm ->
  Py.unique (map Bio.id msa) = true
  /\ Bio.names dm = map Bio.id msa
  /\ forall i j a b,
      i < j -> nth_error msa i = Some a -> nth_error msa j = Some b ->
      exists v, Bio.pairwise mp calc a b = inr v
                /\ entry (Bio.matrix dm) j i = Some v.
Proof.
  intros H. unfold Bio.get_distance in H.
  apply bind_inr in H as (dm0 & Hnew & Hfold).
  unfold Bio.new in Hnew.
  destruct (Py.unique (map Bio.id msa)) eqn:Hu; [| discriminate].
  injection Hnew as <-. pose proof (unique_NoDup _ Hu) as Hnd.
  split; [reflexivity |].
  pose (I := fun (l : list (Bio.SeqRecord * Bio.SeqRecord))
                 (d : Bio.DistanceMatrix) =>
               Bio.names d = map Bio.id msa
               /\ forall i j a b,
                   i < j -> nth_error msa i = Some a ->
                   nth_error msa j = Some b -> In (a, b) l ->
                   exists v, Bio.pairwise mp calc a b = inr v
                             /\ entry (Bio.matrix d) j i = Some v).
  assert (HI : I (Py.combinations2 msa) dm).
  { refine (foldM_prefix _ I (Py.combinations2 msa) _ _ [] _ _ eq_refl _
                          Hfold).
    - intros pre [a' b'] post s s' E [Hn Hs] Hf. cbn [fst snd] in Hf.
      apply bind_inr in Hf as (d & Hd & Hset).
      assert (Hin : In (a', b') (Py.combinations2 msa))
        by (rewrite E; apply in_elt).
      apply in_combinations2_nth in Hin as (i' & j' & Hij' & Hi' & Hj').
      pose proof (index_of_record _ _ _ Hnd Hi') as Hri.
      pose proof (index_of_record _ _ _ Hnd Hj') as Hrj.
      rewrite <- Hn in Hri, Hrj.
      destruct (setitem_entry _ _ _ _ _ _ _ Hri Hrj Hset)
        as (Hn' & _ & Hv & Ho).
      rewrite Nat.max_r, Nat.min_l in Hv, Ho by lia.
      split; [congruence |].
      intros i j a b Hij Hi Hj Hin.
      destruct (Nat.eq_dec i i') as [-> | Hne_i];
        [destruct (Nat.eq_dec j j') as [-> | Hne_j] |].
      + exists d. split; [| apply Hv; lia].
        replace a with a' by congruence. replace b with b' by congruence.
        exact Hd.
      + assert (Hpre : In (a, b) pre).
        { apply in_app_iff in Hin as [? | [E' | []]]; [assumption |].
          injection E' as <- <-.
          pose proof (index_of_record _ _ _ Hnd Hj) as Hrj'.
          rewrite <- Hn in Hrj'. congruence. }
        destruct (Hs _ _ _ _ Hij Hi Hj Hpre) as (v & Hp & He).
        exists v. split; [exact Hp |]. rewrite Ho; [exact He | lia | lia].
      + assert (Hpre : In (a, b) pre).
        { apply in_app_iff in Hin as [? | [E' | []]]; [assumption |].
          injection E' as <- <-.
          pose proof (index_of_record _ _ _ Hnd Hi) as Hri'.
          rewrite <- Hn in Hri'. congruence. }
        destruct (Hs _ _ _ _ Hij Hi Hj Hpre) as (v & Hp & He).
        exists v. split; [exact Hp |]. rewrite Ho; [exact He | lia | lia].
    - split; [reflexivity |]. intros i j a b _ _ _ []. }
  destruct HI as [Hn Hs]. split; [exact Hn |].
  intros i j a b Hij Hi Hj.
  apply (Hs i j a b Hij Hi Hj). now apply (nth_in_combinations2 msa i j).
Qed.

(** X6: The matrix that [calculate_distance_matrix] returns holds, at
    [(i, j)] and at [(j, i)] for [i < j], the distance that the calculator
    gives for record [i] as the first and record [j] as the second
    sequence. *)
Theorem matrix_entries_are_pairwise_distances (models : list string) mp
        (msa : Bio.MultipleSeqAlignment) (model : string) (w w' : world)
        (dm : Bio.DistanceMatrix) :
  calculate_distance_matrix models mp msa model w = (inr (Some dm), w') ->
  exists calc,
    Bio.DistanceCalculator_init models model = inr calc
    /\ forall i j a b,
        i < j -> nth_error msa i = Some a -> nth_error msa j = Some b ->
        exists v, Bio.pairwise mp calc a b = inr v
                  /\ Bio.getitem dm i j = inr v
                  /\ Bio.getitem dm j i = inr v.
Proof.
  rewrite calculate_distance_matrix_run.
  destruct (Bio.DistanceCalculator_init models model) as [e | calc];
    [discriminate |].
  destruct (Bio.get_distance mp calc msa) as [e | dm1] eqn:Hg;
    [discriminate |].
  intros E. injection E as -> _. exists calc. split; [reflexivity |].
  apply get_distance_entries in Hg as (_ & Hn & Hs).
  intros i j a b Hij Hi Hj. destruct (Hs i j a b Hij Hi Hj) as (v & Hp & He).
  exists v. split; [exact Hp |].
  assert (Hjl : j < Bio.len dm).
  { unfold Bio.len. rewrite Hn, length_map. apply nth_error_Some. congruence. }
  rewrite (getitem_sym dm j i). split;
    apply getitem_entry; try lia;
    now rewrite Nat.max_r, Nat.min_l by lia.
Qed.

(** ** Sequences at one distance from each other *)

Lemma mapM_inr {X Y} (f : X -> Py.result Y) (h : X -> Y) (l : list X) :
  (forall x, In x l -> f x = inr (h x)) -> Py.mapM f l = inr (map h l).
Proof.
  intros H. rewrite <- (map_id l) at 1. now apply mapM_map_inr.
Qed.

Lemma map_constant {X Y} (c : Y) (l : list X) :
  map (fun _ => c) l = repeat c (List.length l).
Proof. induction l as [| x l IH]; [reflexivity | cbn; now rewrite IH]. Qed.

Lemma filter_none {X} (f : X -> bool) (l : list X) :
  (forall x, In x l -> f x = false) -> filter f l = [].
Proof.
  induction l as [| x l IH]; intros H; [reflexivity |].
  cbn [filter]. rewrite (H x (or_introl eq_refl)).
  apply IH. intros y Hy. apply H. now right.
Qed.

Lemma others_length (i : nat) :
  forall k a,
    List.length (filter (fun j => negb (i =? j)) (List.seq a k))
    = if (a <=? i) && (i <? a + k) then k - 1 else k.
Proof.
  induction k as [| k IH]; intros a.
  - cbn [List.seq filter List.length]. now destruct (_ && _).
  - cbn [List.seq filter]. specialize (IH (S a)).
    destruct (Nat.eqb_spec i a) as [-> | Hne]; cbn [negb List.length].
    + rewrite IH.
      replace (S a <=? a) with false by (symmetry; apply Nat.leb_gt; lia).
      replace (a <=? a) with true by (symmetry; apply Nat.leb_le; lia).
      replace (a <? a + S k) with true by (symmetry; apply Nat.ltb_lt; lia).
      cbn. lia.
    + rewrite IH.
      destruct (Nat.leb_spec (S a) i), (Nat.leb_spec a i),
        (Nat.ltb_spec i (S a + k)), (Nat.ltb_spec i (a + S k));
        cbn [andb]; lia.
Qed.

Lemma flagged_indices_nan (thr : float) (n : nat) :
  flagged_indices thr (repeat PrimFloat.nan n) = [].
Proof.
  unfold flagged_indices. apply filter_none. intros i _.
  rewrite nth_repeat. apply ltb_nan_r.
Qed.

Lemma equidistant_means (dm : Bio.DistanceMatrix) (n : nat) (d : float) :
  (forall i j, i < n -> j < n -> i <> j -> Bio.getitem dm i j = inr d) ->
  avg_distances dm n = inr (repeat (Np.mean (repeat d (n - 1))) n).
Proof.
  intros Hd. unfold avg_distances.
  rewrite (mapM_inr _ (fun _ => Np.mean (repeat d (n - 1)))).
  - now rewrite map_constant, length_seq.
  - intros i Hi. apply in_seq in Hi. unfold seq_distances.
    rewrite (mapM_inr _ (fun _ => d)).
    + cbn [Py.bind]. rewrite map_constant, others_length.
      replace ((0 <=? i) && (i <? 0 + n)) with true; [reflexivity |].
      symmetry. apply andb_true_intro. split;
        [apply Nat.leb_le | apply Nat.ltb_lt]; lia.
    + intros j Hj. apply filter_In in Hj as [Hj Hne].
      apply in_seq in Hj. apply Hd; try lia.
      destruct (Nat.eqb_spec i j); [discriminate | assumption].
Qed.


Lemma no_score_analysis (dm : Bio.DistanceMatrix) (ids : list string)
      (thr : float) (avgs : list float) :
  avg_distances dm (List.length ids) = inr avgs ->
  Scipy.zscore avgs = map (fun _ => PrimFloat.nan) avgs ->
  analyze_distances dm ids thr
  = inr ([], avgs, repeat PrimFloat.nan (List.length ids)).
Proof.
  intros Havg Hz. pose proof (analyze_distances_eq dm ids thr _ Havg) as H.
  destruct (analyze_distances_shape _ _ _ _ _ _ H) as [Hlen _].
  rewrite Hz, map_constant, Hlen in H. rewrite H. f_equal. f_equal. f_equal.
  rewrite (found_by_position _ _ _ _ _ _ H).
  now rewrite flagged_indices_nan.
Qed.

Lemma flagged_indices_repeat (thr z : float) (n : nat) :
  flagged_indices thr (repeat z n)
  = if PrimFloat.ltb thr z then List.seq 0 n else [].
Proof.
  unfold flagged_indices. rewrite repeat_length.
  destruct (PrimFloat.ltb thr z) eqn:E.
  - apply forallb_filter_id. apply forallb_forall. intros i Hi.
    apply in_seq in Hi. rewrite nth_repeat_lt by lia. exact E.
  - apply filter_none. intros i Hi.
    apply in_seq in Hi. rewrite nth_repeat_lt by lia. exact E.
Qed.

Lemma zscore_constant (c : float) (n : nat) :
  Scipy.zscore (repeat c n)
  = repeat (nth 0 (Scipy.zscore (repeat c n)) PrimFloat.nan) n
  /\ (nth 0 (Scipy.zscore (repeat c n)) PrimFloat.nan = PrimFloat.nan
      \/ nth 0 (Scipy.zscore (repeat c n)) PrimFloat.nan
         = PrimFloat.div (PrimFloat.sub c (Np.mean (repeat c n)))
                         (Np.std (repeat c n))).
Proof.
  rewrite zscore_eq.
  destruct (PrimFloat.leb _ _); rewrite map_repeat;
    (destruct n as [| n]; [split; [reflexivity | now left] |]);
    cbn [repeat nth]; split; auto.
Qed.

(** X7: When every two different sequences are at one and the same
    distance, all mean distances are equal and all z-scores are one value,
    either [nan] or the quotient of the deviation of the mean distance from
    the computed mean by the computed standard deviation; so either no
    sequence or every sequence is reported, with that score. *)
Theorem equidistant_sequences_score_alike (dm : Bio.DistanceMatrix)
        (ids : list string) (thr : float) (d : float) :
  (forall i j, i < List.length ids -> j < List.length ids -> i <> j ->
               Bio.getitem dm i j = inr d) ->
  let n := List.length ids in
  let c := Np.mean (repeat d (n - 1)) in
  let z := nth 0 (Scipy.zscore (repeat c n)) PrimFloat.nan in
  analyze_distances dm ids thr
  = inr (if PrimFloat.ltb thr z
         then map (fun i => (nth i ids ""%string, c, z)) (List.seq 0 n)
         else [],
         repeat c n, repeat z n)
  /\ (z = PrimFloat.nan
      \/ z = PrimFloat.div (PrimFloat.sub c (Np.mean (repeat c n)))
                           (Np.std (repeat c n))).
Proof.
  intros Hd n c z. destruct (zscore_constant c n) as [Hz Hcases].
  fold z in Hz, Hcases. split; [| exact Hcases].
  pose proof (equidistant_means dm n d Hd) as Havg. fold c in Havg.
  pose proof (analyze_distances_eq dm ids thr _ Havg) as H.
  fold n in H. rewrite Hz in H. rewrite H. f_equal. f_equal. f_equal.
  rewrite (found_by_position _ _ _ _ _ _ H), flagged_indices_repeat.
  destruct (PrimFloat.ltb thr z); [| reflexivity].
  apply map_ext_in. intros i Hi. apply in_seq in Hi.
  now rewrite !nth_repeat_lt by lia.
Qed.
Lemma pairwise_identity_total mp (s1 s2 : Bio.SeqRecord) :
  exists v, Bio.pairwise mp Sample.identity s1 s2 = inr v.
Proof.
  unfold Bio.pairwise. cbn [Sample.identity Bio.scoring_matrix].
  destruct (String.length (Bio.seq s1) =? 0); eexists; reflexivity.
Qed.

Lemma pairwise_identity_seq mp (s1 s2 t1 t2 : Bio.SeqRecord) :
  Bio.seq s1 = Bio.seq t1 -> Bio.seq s2 = Bio.seq t2 ->
  Bio.pairwise mp Sample.identity s1 s2
  = Bio.pairwise mp Sample.identity t1 t2.
Proof. unfold Bio.pairwise. now intros -> ->. Qed.

(** ** The ends of the identity distance *)

Local Open Scope Z_scope.

Lemma float_of_nat_finite (n : nat) :
  (1 <= n)%nat -> Z.of_nat n < 2 ^ 53 ->
  exists m e, Prim2SF (float_of_nat n) = S754_finite false m e
              /\ Zpos (digits2_pos m) = 53.
Proof.
  intros H1 Hn. rewrite Prim2SF_float_of_nat by exact Hn.
  destruct (Z.of_nat n) as [| p | p] eqn:E; [lia | | lia].
  destruct (binary_normalize_small p Hn) as (mz & ez & -> & _ & _ & Hd).
  exists mz, ez. split; [reflexivity | exact Hd].
Qed.

Lemma SFdiv_same (c m : positive) (e : Z) :
  Zpos c = 2 ^ 52 -> Zpos (digits2_pos m) = 53 ->
  SFdiv prec emax (S754_finite false m e) (S754_finite false m e)
  = S754_finite false c (-52).
Proof.
  intros Hc Hd. unfold SFdiv, SFdiv_core_binary.
  cbn [Zdigits2 xorb]. rewrite Hd.
  replace (Z.min (fexp prec emax (53 + e - (53 + e))) (e - e)) with (-53)
    by (unfold fexp, SpecFloat.emin, prec, emax; lia).
  replace (e - e - -53) with 53 by lia.
  rewrite Z.shiftl_mul_pow2 by lia.
  pose proof (Z_div_mod (Zpos m * 2 ^ 53) (Zpos m) ltac:(lia)) as Hdiv.
  destruct (Z.div_eucl (Zpos m * 2 ^ 53) (Zpos m)) as [q r].
  destruct Hdiv as [Heq Hr].
  assert (Hq : q = 2 ^ 53 /\ r = 0).
  { generalize dependent (2 ^ 53). intros k Heq.
    destruct (Z.lt_trichotomy q k) as [Hlt | [Heq' | Hgt]]; nia. }
  destruct Hq as [-> ->].
  replace (new_location (Zpos m) 0) with loc_Exact
    by (unfold new_location, new_location_even, new_location_odd;
        now destruct (Z.even (Zpos m))).
  assert (E : binary_round_aux prec emax false (2 ^ 53) (-53) loc_Exact
              = S754_finite false 4503599627370496 (-52))
    by (vm_compute; reflexivity).
  rewrite E. f_equal.
  assert (Zpos 4503599627370496 = 2 ^ 52) by (vm_compute; reflexivity).
  lia.
Qed.

Lemma div_same (n : nat) :
  (1 <= n)%nat -> Z.of_nat n < 2 ^ 53 ->
  PrimFloat.div (float_of_nat n) (float_of_nat n) = 1%float.
Proof.
  intros H1 Hn. apply Prim2SF_inj. rewrite div_spec.
  destruct (float_of_nat_finite n H1 Hn) as (m & e & -> & Hd).
  unfold SF64div.
  rewrite (SFdiv_same 4503599627370496 m e) by
    (try exact Hd; vm_compute; reflexivity).
  vm_compute. reflexivity.
Qed.

Lemma div_zero (n : nat) :
  (1 <= n)%nat -> Z.of_nat n < 2 ^ 53 ->
  PrimFloat.div (float_of_nat 0) (float_of_nat n) = 0%float.
Proof.
  intros H1 Hn. apply Prim2SF_inj. rewrite div_spec.
  destruct (float_of_nat_finite n H1 Hn) as (m & e & -> & Hd).
  replace (Prim2SF (float_of_nat 0)) with (S754_zero false)
    by (vm_compute; reflexivity).
  vm_compute. reflexivity.
Qed.

Local Close Scope Z_scope.

Lemma identity_score_same (s : list ascii) :
  Bio.identity_score [] s s = List.length s.
Proof.
  induction s as [| c s IH]; [reflexivity |].
  cbn [Bio.identity_score Bio.skipped existsb negb andb List.length].
  now rewrite Ascii.eqb_refl, IH.
Qed.


Lemma pairwise_identity_empty mp (s1 s2 : Bio.SeqRecord) :
  Bio.seq s1 = ""%string ->
  Bio.pairwise mp Sample.identity s1 s2 = inr 1%float.
Proof.
  intros E. unfold Bio.pairwise.
  cbn [Sample.identity Bio.scoring_matrix Bio.skip_letters].
  rewrite E. reflexivity.
Qed.

Lemma pairwise_identity_same mp (s1 s2 : Bio.SeqRecord) :
  (Z.of_nat (String.length (Bio.seq s1)) < 2 ^ 53)%Z ->
  Bio.seq s1 <> ""%string -> Bio.seq s2 = Bio.seq s1 ->
  Bio.pairwise mp Sample.identity s1 s2 = inr 0%float.
Proof.
  intros Hn Hne E. unfold Bio.pairwise.
  cbn [Sample.identity Bio.scoring_matrix Bio.skip_letters].
  rewrite E, identity_score_same, length_list_ascii_of_string.
  destruct (Nat.eqb_spec (String.length (Bio.seq s1)) 0) as [E0 | E0].
  - destruct (Bio.seq s1); [congruence | discriminate].
  - rewrite div_same by lia. reflexivity.
Qed.

Lemma pairwise_identity_disjoint mp (s1 s2 : Bio.SeqRecord) :
  (Z.of_nat (String.length (Bio.seq s1)) < 2 ^ 53)%Z ->
  Bio.identity_score [] (list_ascii_of_string (Bio.seq s1))
    (list_ascii_of_string (Bio.seq s2)) = 0 ->
  Bio.pairwise mp Sample.identity s1 s2 = inr 1%float.
Proof.
  intros Hn E. unfold Bio.pairwise.
  cbn [Sample.identity Bio.scoring_matrix Bio.skip_letters].
  rewrite E.
  destruct (Nat.eqb_spec (String.length (Bio.seq s1)) 0) as [E0 | E0].
  - reflexivity.
  - rewrite div_zero by lia. reflexivity.
Qed.

(** X9: Under the identity model, a first sequence without letters is at
    distance 1 from any sequence, two equal sequences with letters are at
    distance 0, and two sequences without a matching position are at
    distance 1. *)
Theorem identity_distance_ends mp (s1 s2 : Bio.SeqRecord) :
  (Z.of_nat (String.length (Bio.seq s1)) < 2 ^ 53)%Z ->
  (Bio.seq s1 = ""%string ->
   Bio.pairwise mp Sample.identity s1 s2 = inr 1%float)
  /\ (Bio.seq s1 <> ""%string -> Bio.seq s2 = Bio.seq s1 ->
      Bio.pairwise mp Sample.identity s1 s2 = inr 0%float)
  /\ (Bio.identity_score [] (list_ascii_of_string (Bio.seq s1))
        (list_ascii_of_string (Bio.seq s2)) = 0 ->
      Bio.pairwise mp Sample.identity s1 s2 = inr 1%float).
Proof.
  intros Hn. split; [| split].
  - apply pairwise_identity_empty.
  - now apply pairwise_identity_same.
  - now apply pairwise_identity_disjoint.
Qed.

(** ** Equal sequences *)

Lemma mean_ones (k : nat) :
  1 <= k -> (Z.of_nat k < 2 ^ 53)%Z ->
  Np.mean (repeat 1%float k) = 1%float.
Proof.
  intros H1 Hk. unfold Np.mean. rewrite repeat_length.
  change 1%float with (float_of_nat 1) at 1.
  rewrite <- map_repeat, sum_integers;
    rewrite list_sum_repeat, Nat.mul_1_r; [| exact Hk].
  now apply div_same.
Qed.

Lemma zscore_ones (n : nat) :
  (Z.of_nat n < 2 ^ 53)%Z ->
  Scipy.zscore (repeat 1%float n) = map (fun _ => PrimFloat.nan)
                                        (repeat 1%float n).
Proof.
  intros Hn. destruct n as [| n]; [reflexivity |].
  apply zscore_deviations. intros x Hx. apply repeat_spec in Hx as ->.
  rewrite mean_ones by (try exact Hn; lia).
  right. now exists false.
Qed.

Lemma zscore_of_zeros (c : float) (n : nat) :
  zero_or_nan c ->
  Scipy.zscore (repeat c n) = map (fun _ => PrimFloat.nan) (repeat c n).
Proof.
  intros Hc. apply zscore_zero_or_nan. apply Forall_forall.
  intros x Hx. now apply repeat_spec in Hx as ->.
Qed.

Lemma mean_of_zeros (d : float) (k : nat) :
  zero_or_nan d -> zero_or_nan (Np.mean (repeat d k)).
Proof.
  intros Hd. apply mean_zero_or_nan, Forall_forall.
  intros x Hx. now apply repeat_spec in Hx as ->.
Qed.

(** Sequences at distance zero from each other. *)
Lemma zero_distances_analysis (dm : Bio.DistanceMatrix) (ids : list string)
      (thr : float) (d : float) :
  zero_or_nan d ->
  (forall i j, i < List.length ids -> j < List.length ids -> i <> j ->
               Bio.getitem dm i j = inr d) ->
  analyze_distances dm ids thr
  = inr ([], repeat (Np.mean (repeat d (List.length ids - 1)))
                    (List.length ids),
         repeat PrimFloat.nan (List.length ids)).
Proof.
  intros Hz Hd. apply no_score_analysis; [now apply equidistant_means |].
  apply zscore_of_zeros. now apply mean_of_zeros.
Qed.

(** Sequences at distance one from each other. *)
Lemma unit_distances_analysis (dm : Bio.DistanceMatrix) (ids : list string)
      (thr : float) :
  (Z.of_nat (List.length ids) < 2 ^ 53)%Z ->
  (forall i j, i < List.length ids -> j < List.length ids -> i <> j ->
               Bio.getitem dm i j = inr 1%float) ->
  analyze_distances dm ids thr
  = inr ([], repeat (Np.mean (repeat 1%float (List.length ids - 1)))
                    (List.length ids),
         repeat PrimFloat.nan (List.length ids)).
Proof.
  intros Hn Hd. apply no_score_analysis; [now apply equidistant_means |].
  destruct (List.length ids) as [| [| n]] eqn:E.
  - reflexivity.
  - apply zscore_of_zeros. now left.
  - rewrite mean_ones by lia. now apply zscore_ones.
Qed.

(** X8: An alignment whose records have distinct identifiers and all the
    same sequence goes through the identity matrix and the analysis
    without an error, and no outlier is reported whatever the threshold:
    every z-score is not a number.  The sequence has fewer than [2 ^ 53]
    letters, so that its length is a binary64 number; for the sequence
    without letters, whose distance to itself is 1, there are fewer than
    [2 ^ 53] records. *)
Theorem identical_sequences_give_no_outlier (models : list string) mp
        (msa : Bio.MultipleSeqAlignment) (s : string) (w : world) :
  Py.unique (map Bio.id msa) = true ->
  (forall r, In r msa -> Bio.seq r = s) ->
  (Z.of_nat (String.length s) < 2 ^ 53)%Z ->
  (s = ""%string -> (Z.of_nat (List.length msa) < 2 ^ 53)%Z) ->
  exists dm,
    calculate_distance_matrix models mp msa "identity" w
    = (inr (Some dm), w)
    /\ forall thr, exists avgs,
        analyze_distances dm (map Bio.id msa) thr
        = inr ([], avgs, repeat PrimFloat.nan (List.length msa)).
Proof.
  intros Hu Hs Hlen Hrecords.
  destruct (get_distance_total (fun _ => True) I mp Sample.identity msa
              (fun _ _ _ _ _ _ => I) Hu (pairwise_identity_total mp))
    as [dm Hdm].
  exists dm. split.
  - now rewrite calculate_distance_matrix_run, init_identity, Hdm.
  - intros thr.
    pose (r0 := {| Bio.id := ""%string; Bio.seq := s |}).
    apply get_distance_entries in Hdm as (_ & Hn & He).
    assert (Hall : forall d,
               Bio.pairwise mp Sample.identity r0 r0 = inr d ->
               forall i j, i < List.length (map Bio.id msa) ->
                           j < List.length (map Bio.id msa) -> i <> j ->
                           Bio.getitem dm i j = inr d).
    { intros d Hd.
      assert (Hlow : forall i j, i < j -> j < List.length msa ->
                                 Bio.getitem dm i j = inr d).
      { intros i j Hij Hj.
        assert (Hdl : Bio.len dm = List.length msa)
          by (unfold Bio.len; now rewrite Hn, length_map).
        destruct (nth_error msa i) as [a |] eqn:Ha;
          [| apply nth_error_None in Ha; lia].
        destruct (nth_error msa j) as [b |] eqn:Hb;
          [| apply nth_error_None in Hb; lia].
        destruct (He i j a b Hij Ha Hb) as (v & Hp & Hv).
        rewrite (pairwise_identity_seq mp a b r0 r0) in Hp
          by (apply Hs; eapply nth_error_In; eassumption).
        rewrite Hd in Hp. injection Hp as <-.
        apply getitem_entry; try lia.
        now rewrite Nat.max_r, Nat.min_l by lia. }
      rewrite length_map. intros i j Hi Hj Hne.
      destruct (Nat.lt_ge_cases i j).
      - now apply Hlow.
      - rewrite getitem_sym. apply Hlow; lia. }
    rewrite <- (length_map Bio.id msa).
    destruct (String.eqb_spec s ""%string) as [E | E].
    + eexists. apply unit_distances_analysis.
      * rewrite length_map. now apply Hrecords.
      * apply Hall. now apply pairwise_identity_empty.
    + eexists. apply (zero_distances_analysis dm _ thr 0%float).
      * right. now exists false.
      * apply Hall. now apply pairwise_identity_same.
Qed.

(** ** No deviation *)

Lemma flagged_from_nan (ids : list string) (thr : float)
      (avgs : list float) :
  flagged_from ids thr 0 (combine avgs (map (fun _ => PrimFloat.nan) avgs))
  = [].
Proof.
  rewrite (flagged_from_filter ids thr avgs _ [] [] eq_refl)
    by now rewrite length_map.
  rewrite filter_none; [reflexivity |].
  intros i _. cbn [app].
  destruct (nth_in_or_default i (map (fun _ => PrimFloat.nan) avgs)
              PrimFloat.nan) as [Hin | ->]; [| apply ltb_nan_r].
  apply in_map_iff in Hin as (x & <- & _). apply ltb_nan_r.
Qed.

(** C2, as the code has it: when the standard deviation that is computed
    from the mean distances is zero, every z-score is [nan], not 0, and no
    sequence is flagged, whatever the threshold; and this is what happens
    when all distances between different sequences are zero, as they are
    between copies of one sequence.  Mean distances that are equal without
    a computed deviation of zero are a different matter: eleven sequences
    at the distance [1 - 1/11] from each other are all reported at the
    threshold 0.5. *)
Theorem zero_deviation_gives_nan (dm : Bio.DistanceMatrix)
        (ids : list string) (thr : float) :
  (forall found avgs zs,
      analyze_distances dm ids thr = inr (found, avgs, zs) ->
      PrimFloat.eqb (Np.std avgs) 0%float = true ->
      zs = map (fun _ => PrimFloat.nan) avgs /\ found = [])
  /\ ((forall i j, i < List.length ids -> j < List.length ids -> i <> j ->
                   Bio.getitem dm i j = inr 0%float) ->
      analyze_distances dm ids thr
      = inr ([], repeat (Np.mean (repeat 0%float (List.length ids - 1)))
                        (List.length ids),
             repeat PrimFloat.nan (List.length ids))).
Proof.
  split.
  - intros found avgs zs H Hstd.
    apply analyze_distances_inr in H as (_ & Hzs & Hf).
    assert (Hz : zs = map (fun _ => PrimFloat.nan) avgs)
      by (rewrite Hzs; now apply zscore_std_zero).
    split; [exact Hz |]. rewrite Hf, Hz. apply flagged_from_nan.
  - apply zero_distances_analysis. right. now exists false.
Qed.

(** X21: Eleven sequences at distance [1 - 1/11] from each other have
    equal mean distances, and every one of them is reported at the
    threshold 0.5, with the z-score 1. *)
Theorem eleven_equidistant_sequences_flagged :
  let d := (1 - 1 / 11)%float in
  analyze_distances (Sample.matrix_of Sample.eleven)
    (map Bio.id Sample.eleven) 0.5%float
  = inr (map (fun r => (Bio.id r, Np.mean (repeat d 10), 1%float))
             Sample.eleven,
         repeat (Np.mean (repeat d 10)) 11, repeat 1%float 11).
Proof. vm_compute. reflexivity. Qed.

(** ** The histogram of the z-scores *)

Lemma fold_left_fixed {X} (f : X -> X -> X) (c : X) (l : list X) :
  f c c = c -> (forall v, In v l -> v = c) -> fold_left f l c = c.
Proof.
  intros Hc. induction l as [| v l IH]; intros H; [reflexivity |].
  cbn [fold_left]. rewrite (H v (or_introl eq_refl)), Hc.
  apply IH. intros y Hy. apply H. now right.
Qed.

(** No histogram of scores that are all [nan]. *)
Lemma hist_nan (float_str : float -> string) (x : list float) :
  x <> [] -> (forall v, In v x -> v = PrimFloat.nan) ->
  Plt.hist float_str x
  = inl (Py.ValueError
           ("autodetected range of [" ++ float_str PrimFloat.nan ++ ", "
              ++ float_str PrimFloat.nan ++ "] is not finite")).
Proof.
  intros Hne Hall. destruct x as [| v x]; [congruence |].
  assert (v = PrimFloat.nan) as -> by (apply Hall; now left).
  assert (Hrest : forall y, In y x -> y = PrimFloat.nan)
    by (intros y Hy; apply Hall; now right).
  unfold Plt.hist, Plt.nanmin, Plt.nanmax, Plt.amin, Plt.amax.
  rewrite !fold_left_fixed by (try exact Hrest; reflexivity).
  reflexivity.
Qed.

(** ** One alignment file *)

Lemma mapM_list_get {X} (xs : list X) (l : list nat) :
  Forall (fun i => i < List.length xs) l ->
  exists ys, Py.mapM (Py.list_get xs) l = inr ys.
Proof.
  intros H. apply mapM_total. intros i Hi.
  rewrite Forall_forall in H. specialize (H i Hi).
  unfold Py.list_get.
  destruct (nth_error xs i) as [x |] eqn:E; [now exists x |].
  apply nth_error_None in E. lia.
Qed.

Lemma plot_distance_distribution_run (float_str : float -> string)
      (dm : Bio.DistanceMatrix) (ids : list string) (thr : float)
      found avgs zs (name output_dir : string) (w : world) :
  analyze_distances dm ids thr = inr (found, avgs, zs) ->
  plot_distance_distribution float_str avgs zs ids found name output_dir w
  = match Plt.hist float_str zs with
    | inl e => (inl e, w)
    | inr _ => (inr (plot_file output_dir name),
                saved (plot_file output_dir name) w)
    end.
Proof.
  intros H. destruct (analyze_distances_shape _ _ _ _ _ _ H) as [Ha _].
  destruct (outlier_indices_of_analysis _ _ _ _ _ _ H) as (l & Hl & Hlt).
  unfold plot_distance_distribution.
  unfold IO.bind at 1, IO.lift at 1. rewrite Hl.
  assert (H1 : exists ys,
             match l with
             | [] => Py.ret []
             | _ :: _ => Py.mapM (Py.list_get avgs) l
             end = inr ys).
  { destruct l; [now exists [] | now apply mapM_list_get]. }
  destruct H1 as (ys & ->).
  assert (H2 : exists ps,
             Py.mapM (fun i => seq_id <- Py.list_get ids i ;;
                               avg_dist <- Py.list_get avgs i ;;
                               Py.ret (seq_id, avg_dist)) l = inr ps).
  { apply mapM_total. intros i Hi. rewrite Forall_forall in Hlt.
    specialize (Hlt i Hi). unfold Py.list_get.
    destruct (nth_error ids i) as [a |] eqn:E1;
      [| apply nth_error_None in E1; lia].
    destruct (nth_error avgs i) as [b |] eqn:E2;
      [| apply nth_error_None in E2; lia].
    now eexists. }
  destruct H2 as (ps & H2).
  unfold IO.bind at 1, IO.lift at 1.
  unfold IO.bind at 1, IO.lift at 1. rewrite H2.
  unfold IO.bind at 1, IO.lift at 1.
  destruct (Plt.hist float_str zs) as [e | []]; reflexivity.
Qed.

Section File.
Variable read : string -> string -> Py.result Bio.MultipleSeqAlignment.
Variable models : list string.
Variable mp :
  string -> list ascii -> Bio.SeqRecord -> Bio.SeqRecord -> Py.result float.
Variable float_str : float -> string.

Lemma process_alignment_file_run (file_path output_dir : string)
      (thr : float) (generate_plot : bool) (w : world) :
  process_alignment_file read models mp float_str file_path output_dir thr
    generate_plot w
  = match read file_path "fasta"%string with
    | inl e =>
        (inr None,
         printed ("Error loading alignment from " ++ file_path ++ ": "
                    ++ Py.str e) w)
    | inr msa =>
        match Bio.get_distance mp Sample.identity msa with
        | inl e =>
            (inr None,
             printed ("Error calculating distance matrix: " ++ Py.str e) w)
        | inr dm =>
            match analyze_distances dm (map Bio.id msa) thr with
            | inl e => (inl e, w)
            | inr (found, _, zs) =>
                let result p :=
                  {| alignment_name := name_of file_path;
                     file_path := file_path;
                     num_sequences := List.length msa;
                     alignment_length := Bio.get_alignment_length msa;
                     outliers := found;
                     plot_path := p |} in
                if generate_plot
                then match Plt.hist float_str zs with
                     | inl e => (inl e, w)
                     | inr _ =>
                         (inr (Some (result
                                       (Some (plot_file output_dir
                                                (name_of file_path))))),
                          saved (plot_file output_dir (name_of file_path)) w)
                     end
                else (inr (Some (result None)), w)
            end
        end
    end.
Proof.
  unfold process_alignment_file.
  unfold IO.bind at 1. rewrite load_alignment_run.
  destruct (read file_path "fasta"%string) as [e | msa]; [reflexivity |].
  unfold IO.bind at 1. rewrite calculate_distance_matrix_run, init_identity.
  destruct (Bio.get_distance mp Sample.identity msa) as [e | dm];
    [reflexivity |].
  unfold IO.bind at 1, IO.lift.
  destruct (analyze_distances dm (map Bio.id msa) thr)
    as [e | [[found avgs] zs]] eqn:Ha; [reflexivity |].
  destruct generate_plot; [| reflexivity].
  unfold IO.bind at 1. unfold IO.bind at 1.
  fold (name_of file_path).
  rewrite (plot_distance_distribution_run float_str dm _ thr _ _ _ _ _ _ Ha).
  destruct (Plt.hist float_str zs) as [e | []]; reflexivity.
Qed.

Lemma analysis_of_built_matrix (msa : Bio.MultipleSeqAlignment)
      (dm : Bio.DistanceMatrix) (thr : float) :
  Bio.get_distance mp Sample.identity msa = inr dm ->
  exists found avgs zs,
    analyze_distances dm (map Bio.id msa) thr = inr (found, avgs, zs).
Proof.
  intros Hd.
  assert (Hwf : well_formed dm)
    by exact (get_distance_well_formed mp Sample.identity msa dm Hd).
  assert (Hlen : List.length (map Bio.id msa) <= Bio.len dm).
  { apply get_distance_entries in Hd as (_ & Hn & _).
    unfold Bio.len. rewrite Hn. lia. }
  destruct (avg_distances_total dm _ Hwf Hlen) as (avgs & Havg).
  rewrite (analyze_distances_eq dm (map Bio.id msa) thr avgs Havg).
  now eexists _, _, _.
Qed.

Lemma get_distance_identity_unique (msa : Bio.MultipleSeqAlignment) :
  (exists dm, Bio.get_distance mp Sample.identity msa = inr dm)
  <-> Py.unique (map Bio.id msa) = true.
Proof.
  split.
  - intros [dm Hd]. now apply get_distance_entries in Hd.
  - intros Hu.
    exact (get_distance_total (fun _ => True) I mp Sample.identity msa
             (fun _ _ _ _ _ _ => I) Hu (pairwise_identity_total mp)).
Qed.

(** What a file comes to: no result, a result, or the error of the
    histogram. *)
Lemma process_alignment_file_cases (file_path output_dir : string)
      (thr : float) (generate_plot : bool) :
  (exists r,
      (r = None <->
       (exists e, read file_path "fasta"%string = inl e)
       \/ (exists msa, read file_path "fasta"%string = inr msa
                       /\ Py.unique (map Bio.id msa) = false))
      /\ forall w, exists w',
          process_alignment_file read models mp float_str file_path
            output_dir thr generate_plot w = (inr r, w')
          /\ files w' = files w
          /\ figures w' = figures w ++ flat_map figure_of (processed [r])
          /\ (r = None -> exists line, stdout w' = stdout w ++ [line]))
  \/ (exists e msa dm found avgs zs,
         generate_plot = true
         /\ read file_path "fasta"%string = inr msa
         /\ Bio.get_distance mp Sample.identity msa = inr dm
         /\ analyze_distances dm (map Bio.id msa) thr
            = inr (found, avgs, zs)
         /\ Plt.hist float_str zs = inl e
         /\ forall w,
             process_alignment_file read models mp float_str file_path
               output_dir thr generate_plot w = (inl e, w)).
Proof.
  destruct (read file_path "fasta"%string) as [e | msa] eqn:Hr.
  - left. exists None. split.
    + split; [intros _; left; now exists e | reflexivity].
    + intros w. rewrite process_alignment_file_run, Hr. eexists.
      split; [reflexivity | split; [reflexivity | split]].
      * cbn. now rewrite app_nil_r.
      * intros _. eexists. reflexivity.
  - destruct (Bio.get_distance mp Sample.identity msa) as [e | dm] eqn:Hd.
    + left. exists None. split.
      * split; [intros _; right | reflexivity].
        exists msa. split; [reflexivity |].
        destruct (Py.unique (map Bio.id msa)) eqn:Hu; [| reflexivity].
        apply get_distance_identity_unique in Hu as [dm Hdm]. congruence.
      * intros w. rewrite process_alignment_file_run, Hr, Hd. eexists.
        split; [reflexivity | split; [reflexivity | split]].
        -- cbn. now rewrite app_nil_r.
        -- intros _. eexists. reflexivity.
    + assert (Hu : Py.unique (map Bio.id msa) = true)
        by (apply get_distance_identity_unique; now exists dm).
      assert (Hsome : forall r : results,
                 Some r = None <->
                 (exists e, @inr Py.exn _ msa = inl e)
                 \/ (exists msa', inr msa = @inr Py.exn _ msa'
                                  /\ Py.unique (map Bio.id msa') = false)).
      { intros r. split; [discriminate |].
        intros [[e He] | (msa' & Hm & Hu')]; [discriminate |].
        injection Hm as <-. congruence. }
      destruct (analysis_of_built_matrix msa dm thr Hd)
        as (found & avgs & zs & Ha).
      destruct generate_plot.
      * destruct (Plt.hist float_str zs) as [e | []] eqn:Hh.
        -- right. exists e, msa, dm, found, avgs, zs.
           repeat split; try assumption.
           intros w. now rewrite process_alignment_file_run, Hr, Hd, Ha, Hh.
        -- left. eexists. split; [apply Hsome |].
           intros w. rewrite process_alignment_file_run, Hr, Hd, Ha, Hh.
           eexists. split; [reflexivity |].
           split; [reflexivity | split; [reflexivity | discriminate]].
      * left. eexists. split; [apply Hsome |].
        intros w. rewrite process_alignment_file_run, Hr, Hd, Ha.
        eexists. split; [reflexivity |].
        split; [reflexivity | split; [| discriminate]].
        cbn. now rewrite app_nil_r.
Qed.

(** X10: [process_alignment_file] writes no text file, and without a plot
    it never raises.  It returns [None] exactly when the file cannot be
    parsed or two of its records share an identifier; it then prints one
    line and saves no figure.  With a plot, the one exception it can raise
    is the one of the histogram of the z-scores, after the file was parsed
    and analysed; nothing is then printed or saved. *)
Theorem process_alignment_file_none_iff (file_path output_dir : string)
        (thr : float) (generate_plot : bool) (w : world) :
  ((exists r w',
       process_alignment_file read models mp float_str file_path output_dir
         thr generate_plot w = (inr r, w')
       /\ files w' = files w
       /\ (r = None <->
           (exists e, read file_path "fasta"%string = inl e)
           \/ (exists msa, read file_path "fasta"%string = inr msa
                           /\ Py.unique (map Bio.id msa) = false))
       /\ (r = None ->
           figures w' = figures w
           /\ exists line, stdout w' = stdout w ++ [line]))
   \/ (exists e msa dm found avgs zs,
          read file_path "fasta"%string = inr msa
          /\ Bio.get_distance mp Sample.identity msa = inr dm
          /\ analyze_distances dm (map Bio.id msa) thr
             = inr (found, avgs, zs)
          /\ Plt.hist float_str zs = inl e
          /\ process_alignment_file read models mp float_str file_path
               output_dir thr generate_plot w = (inl e, w)))
  /\ (generate_plot = false ->
      exists r w',
        process_alignment_file read models mp float_str file_path output_dir
          thr generate_plot w = (inr r, w')).
Proof.
  destruct (process_alignment_file_cases file_path output_dir thr
              generate_plot)
    as [(r & Hnone & Hrun)
       | (e & msa & dm & found & avgs & zs & Hg & Hr & Hd & Ha & Hh & Hrun)].
  - destruct (Hrun w) as (w' & E & Hf & Hg & Hl). split.
    + left. exists r, w'.
      split; [exact E | split; [exact Hf | split; [exact Hnone |]]].
      intros ->. split; [| now apply Hl].
      cbn in Hg. now rewrite app_nil_r in Hg.
    + intros _. now exists r, w'.
  - split.
    + right. exists e, msa, dm, found, avgs, zs. auto.
    + intros Hfalse. congruence.
Qed.

(** X11: A result of [process_alignment_file] comes from a file that was
    parsed and whose matrix was built; nothing is printed; the result
    carries the name and the path of the file, the number of records, the
    greatest record length and the outliers of the analysis; a figure is
    saved, and its path recorded, exactly when a plot is asked for, and
    the histogram of the z-scores could then be drawn. *)
Theorem process_alignment_file_result (path output_dir : string)
        (thr : float) (generate_plot : bool) (w w' : world)
        (res : results) :
  process_alignment_file read models mp float_str path output_dir thr
    generate_plot w = (inr (Some res), w') ->
  exists msa dm avgs zs,
    read path "fasta"%string = inr msa
    /\ Bio.get_distance mp Sample.identity msa = inr dm
    /\ analyze_distances dm (map Bio.id msa) thr
       = inr (outliers res, avgs, zs)
    /\ alignment_name res = name_of path
    /\ file_path res = path
    /\ num_sequences res = List.length msa
    /\ alignment_length res = Bio.get_alignment_length msa
    /\ plot_path res
       = (if generate_plot
          then Some (plot_file output_dir (name_of path)) else None)
    /\ w' = (if generate_plot
             then saved (plot_file output_dir (name_of path)) w
             else w)
    /\ (generate_plot = true -> Plt.hist float_str zs = inr tt).
Proof.
  rewrite process_alignment_file_run.
  destruct (read path "fasta"%string) as [e | msa] eqn:Hr;
    [discriminate |].
  destruct (Bio.get_distance mp Sample.identity msa) as [e | dm] eqn:Hd;
    [discriminate |].
  destruct (analyze_distances dm (map Bio.id msa) thr)
    as [e | [[found avgs] zs]] eqn:Ha; [discriminate |].
  cbv zeta. destruct generate_plot.
  - destruct (Plt.hist float_str zs) as [e | []] eqn:Hh; [discriminate |].
    intros E. injection E as <- <-.
    exists msa, dm, avgs, zs. cbn.
    split; [reflexivity | split; [exact Hd | split; [exact Ha |]]].
    repeat split; try reflexivity. intros _. exact Hh.
  - intros E. injection E as <- <-.
    exists msa, dm, avgs, zs. cbn.
    split; [reflexivity | split; [exact Hd | split; [exact Ha |]]].
    repeat split; try reflexivity. discriminate.
Qed.

End File.

(** ** The name of an alignment *)

Lemma occurs_cons (c a : ascii) (s : string) :
  occurs c (String a s) = Ascii.eqb c a || occurs c s.
Proof. reflexivity. Qed.

Lemma occurs_app (c : ascii) (s t : string) :
  occurs c (s ++ t) = occurs c s || occurs c t.
Proof.
  induction s as [| a s IH]; [reflexivity |].
  cbn [append]. now rewrite !occurs_cons, IH, orb_assoc.
Qed.

Lemma before_app (c : ascii) (s t : string) :
  occurs c s = false -> Text.before c (s ++ String c t) = s.
Proof.
  induction s as [| a s IH]; cbn [append Text.before].
  - now rewrite Ascii.eqb_refl.
  - rewrite occurs_cons. intros H. apply orb_false_elim in H as [Ha Hs].
    rewrite Ascii.eqb_sym, Ha. now rewrite IH.
Qed.

Lemma before_whole (c : ascii) (s : string) :
  occurs c s = false -> Text.before c s = s.
Proof.
  induction s as [| a s IH]; [reflexivity |].
  rewrite occurs_cons. intros H. apply orb_false_elim in H as [Ha Hs].
  cbn [Text.before]. rewrite Ascii.eqb_sym, Ha. now rewrite IH.
Qed.

Lemma occurs_before (c : ascii) (s : string) :
  occurs c (Text.before c s) = false.
Proof.
  induction s as [| a s IH]; [reflexivity |].
  cbn [Text.before]. destruct (Ascii.eqb a c) eqn:E; [reflexivity |].
  rewrite occurs_cons, Ascii.eqb_sym, E. exact IH.
Qed.

Lemma occurs_before_other (c d : ascii) (s : string) :
  occurs d s = false -> occurs d (Text.before c s) = false.
Proof.
  induction s as [| a s IH]; [reflexivity |].
  rewrite occurs_cons. intros H. apply orb_false_elim in H as [Ha Hs].
  cbn [Text.before]. destruct (Ascii.eqb a c); [reflexivity |].
  rewrite occurs_cons, Ha. now apply IH.
Qed.

Lemma after_last_whole (c : ascii) (s : string) :
  occurs c s = false -> Text.after_last c s = s.
Proof.
  destruct s as [| a s]; [reflexivity |].
  rewrite occurs_cons. intros H. apply orb_false_elim in H as [Ha Hs].
  cbn [Text.after_last]. fold (occurs c s).
  now rewrite Hs, Ascii.eqb_sym, Ha.
Qed.

Lemma after_last_app (c : ascii) (s t : string) :
  occurs c t = false -> Text.after_last c (s ++ String c t) = t.
Proof.
  intros Ht. induction s as [| a s IH]; cbn [append Text.after_last].
  - fold (occurs c t). now rewrite Ht, Ascii.eqb_refl.
  - fold (occurs c (s ++ String c t)).
    rewrite occurs_app, occurs_cons, Ascii.eqb_refl, orb_true_r. exact IH.
Qed.

Lemma occurs_after_last (c : ascii) (s : string) :
  occurs c (Text.after_last c s) = false.
Proof.
  induction s as [| a s IH]; [reflexivity |].
  cbn [Text.after_last]. fold (occurs c s).
  destruct (occurs c s) eqn:Hs; [exact IH |].
  destruct (Ascii.eqb a c) eqn:E; [exact Hs |].
  now rewrite occurs_cons, Ascii.eqb_sym, E.
Qed.

(** X12: The name of an alignment holds neither a dot nor a slash.  It is
    the part of the file name before its first dot, so that the files
    [stem.ext] of a directory have one name, and one path for their plot,
    whatever follows the first dot. *)
Theorem name_of_is_stem :
  (forall file_path,
      occurs "."%char (name_of file_path) = false
      /\ occurs "/"%char (name_of file_path) = false)
  /\ (forall dir stem ext,
         occurs "/"%char stem = false -> occurs "."%char stem = false ->
         occurs "/"%char ext = false ->
         name_of (dir ++ "/" ++ stem ++ "." ++ ext) = stem
         /\ name_of (stem ++ "." ++ ext) = stem
         /\ name_of stem = stem)
  /\ (forall dir stem ext1 ext2 output_dir,
         occurs "/"%char stem = false -> occurs "."%char stem = false ->
         occurs "/"%char ext1 = false -> occurs "/"%char ext2 = false ->
         plot_file output_dir (name_of (dir ++ "/" ++ stem ++ "." ++ ext1))
         = plot_file output_dir (name_of (dir ++ "/" ++ stem ++ "." ++ ext2))).
Proof.
  assert (Hstem : forall dir stem ext,
             occurs "/"%char stem = false -> occurs "."%char stem = false ->
             occurs "/"%char ext = false ->
             name_of (dir ++ "/" ++ stem ++ "." ++ ext) = stem).
  { intros dir stem ext Hs Hd He. unfold name_of, Text.basename.
    change (dir ++ "/" ++ stem ++ "." ++ ext)%string
      with (dir ++ String "/" (stem ++ String "." ext))%string.
    rewrite after_last_app.
    - now apply before_app.
    - now rewrite occurs_app, occurs_cons, Hs, He. }
  split; [| split].
  - intros file_path. unfold name_of. split; [apply occurs_before |].
    apply occurs_before_other. apply occurs_after_last.
  - intros dir stem ext Hs Hd He. split; [now apply Hstem | split].
    + unfold name_of, Text.basename.
      change (stem ++ "." ++ ext)%string with (stem ++ String "." ext)%string.
      rewrite after_last_whole
        by now rewrite occurs_app, occurs_cons, Hs, He.
      now apply before_app.
    + unfold name_of, Text.basename.
      rewrite after_last_whole by exact Hs. now apply before_whole.
  - intros dir stem ext1 ext2 output_dir Hs Hd H1 H2.
    now rewrite !Hstem.
Qed.

(** ** The length of an alignment *)

Lemma alignment_length_fold (msa : Bio.MultipleSeqAlignment) :
  forall m0,
    let res := fold_left (fun m r => if m <? String.length (Bio.seq r)
                                     then String.length (Bio.seq r) else m)
                         msa m0 in
    m0 <= res
    /\ (forall r, In r msa -> String.length (Bio.seq r) <= res)
    /\ (res = m0 \/ exists r, In r msa /\ String.length (Bio.seq r) = res).
Proof.
  induction msa as [| x msa IH]; intros m0; cbn [fold_left].
  - split; [lia | split; [intros r [] | now left]].
  - destruct (IH (if m0 <? String.length (Bio.seq x)
                  then String.length (Bio.seq x) else m0))
      as (H1 & H2 & H3).
    destruct (Nat.ltb_spec m0 (String.length (Bio.seq x))) as [Hlt | Hge].
    + split; [lia | split].
      * intros r [<- | Hr]; [exact H1 | now apply H2].
      * right. destruct H3 as [H3 | (r & Hr & H3)].
        -- exists x. split; [now left | now rewrite H3].
        -- exists r. split; [now right | exact H3].
    + split; [lia | split].
      * intros r [<- | Hr]; [lia | now apply H2].
      * destruct H3 as [H3 | (r & Hr & H3)]; [now left | right].
        exists r. split; [now right | exact H3].
Qed.

(** X13: The alignment length of a result is the greatest record length:
    no record is longer, some record of a non-empty alignment has that
    length, and it is the common length when all records have one. *)
Theorem alignment_length_is_greatest (msa : Bio.MultipleSeqAlignment) :
  (forall r, In r msa ->
             String.length (Bio.seq r) <= Bio.get_alignment_length msa)
  /\ (msa <> [] ->
      exists r, In r msa
                /\ String.length (Bio.seq r) = Bio.get_alignment_length msa)
  /\ (forall n, msa <> [] ->
                (forall r, In r msa -> String.length (Bio.seq r) = n) ->
                Bio.get_alignment_length msa = n)
  /\ Bio.get_alignment_length [] = 0.
Proof.
  destruct (alignment_length_fold msa 0) as (_ & H2 & H3).
  fold (Bio.get_alignment_length msa) in H2, H3.
  assert (Hex : msa <> [] ->
                exists r, In r msa
                          /\ String.length (Bio.seq r)
                             = Bio.get_alignment_length msa).
  { intros Hne. destruct H3 as [H0 | H3]; [| exact H3].
    destruct msa as [| x msa]; [contradiction |].
    exists x. split; [now left |].
    pose proof (H2 x (or_introl eq_refl)). lia. }
  split; [exact H2 | split; [exact Hex | split; [| reflexivity]]].
  intros n Hne Hall. destruct (Hex Hne) as (r & Hr & <-). now apply Hall.
Qed.

(** ** The last line of the report *)

Lemma list_ascii_app (s t : string) :
  list_ascii_of_string (s ++ t)
  = list_ascii_of_string s ++ list_ascii_of_string t.
Proof.
  induction s as [| a s IH]; [reflexivity |].
  cbn [append list_ascii_of_string]. now rewrite IH.
Qed.

Lemma rule_not_statement (x y : string) :
  (x ++ rule)%string <> (y ++ no_outliers_statement)%string.
Proof.
  intros H.
  apply (f_equal (fun s => rev (list_ascii_of_string s))) in H.
  rewrite !list_ascii_app, !rev_app_distr in H.
  remember (rev (list_ascii_of_string x)) as rx.
  remember (rev (list_ascii_of_string y)) as ry.
  vm_compute in H. discriminate H.
Qed.

Lemma no_outliers_processed (rs : list (option results)) :
  existsb has_outliers (processed rs) = false
  <-> forall r, In (Some r) rs -> outliers r = [].
Proof.
  split.
  - intros H r Hr. apply In_processed in Hr.
    destruct (outliers r) as [| o l] eqn:E; [reflexivity |].
    assert (Ht : existsb has_outliers (processed rs) = true).
    { apply existsb_exists. exists r. split; [exact Hr |].
      unfold has_outliers. now rewrite E. }
    congruence.
  - intros H. destruct (existsb has_outliers (processed rs)) eqn:E;
      [| reflexivity].
    apply existsb_exists in E as (r & Hr & Hh).
    apply In_processed in Hr. unfold has_outliers in Hh.
    now rewrite (H r Hr) in Hh.
Qed.

Section Closing.
Variable format_4f : float -> string.

Lemma sections_end_with_rule (l : list results) :
  l <> [] ->
  exists x,
    String.concat "" (flat_map (section_writes format_4f) l)
    = (x ++ rule)%string.
Proof.
  intros Hne. destruct (exists_last Hne) as (l' & r & ->).
  rewrite flat_map_app. cbn [flat_map]. rewrite app_nil_r.
  unfold section_writes at 2. rewrite !app_assoc, concat_app.
  eexists. reflexivity.
Qed.

(** X14: The report ends with the statement that no outlier was detected
    in any alignment exactly when no processed alignment has an
    outlier. *)
Theorem closing_statement_iff_no_outliers (rs : list (option results)) :
  ends_with (report_text format_4f rs) no_outliers_statement
  <-> forall r, In (Some r) rs -> outliers r = [].
Proof.
  rewrite <- no_outliers_processed.
  unfold report_text. rewrite report_writes_eq.
  destruct (existsb has_outliers (processed rs)) eqn:E.
  - split; [| discriminate]. intros [y Hy]. exfalso.
    assert (Hne : processed rs <> []).
    { intros Hnil. rewrite Hnil in E. discriminate. }
    destruct (sections_end_with_rule (processed rs) Hne) as [x Hx].
    rewrite app_nil_r, concat_app, Hx, <- append_assoc in Hy.
    exact (rule_not_statement _ _ Hy).
  - split; [reflexivity | intros _].
    rewrite app_assoc, concat_app. eexists. reflexivity.
Qed.

End Closing.

(** ** The plotting backend *)

Section Backend.
Variable display : option string.
Variable os_name : string.
Variable use : string -> Py.result unit.
Variable get_backend : string -> string.

Lemma setup_matplotlib_run (w : world) :
  setup_matplotlib display os_name use get_backend w
  = match use (backend display os_name) with
    | inr _ =>
        (inr tt,
         printed ("Using matplotlib backend: "
                    ++ get_backend (backend display os_name)) w)
    | inl e =>
        (inr tt,
         printed "Plots will be saved but may not display interactively."
           (printed ("Warning: Could not set matplotlib backend: "
                       ++ Py.str e) w))
    end.
Proof.
  unfold setup_matplotlib, IO.try_except, IO.bind, IO.lift.
  destruct (use (backend display os_name)); reflexivity.
Qed.


(** X15: [setup_matplotlib] never raises and touches neither the text
    files nor the figures: it prints the line that names the backend in
    use, or two lines of warning when the backend cannot be set.  Without
    a display it asks for [MacOSX] on every POSIX system, and for [Agg]
    only when the system is neither [nt] nor [posix]. *)
Theorem setup_matplotlib_effect (w : world) :
  (exists w',
      setup_matplotlib display os_name use get_backend w = (inr tt, w')
      /\ files w' = files w /\ figures w' = figures w
      /\ ((stdout w'
           = stdout w
               ++ [("Using matplotlib backend: "
                      ++ get_backend (backend display os_name))%string]
           /\ use (backend display os_name) = inr tt)
          \/ (exists e, stdout w'
                        = stdout w
                            ++ [("Warning: Could not set matplotlib backend: "
                                   ++ Py.str e)%string;
                                ("Plots will be saved but may not "
                                   ++ "display interactively.")%string]
                        /\ use (backend display os_name) = inl e)))
  /\ (backend display os_name = "Agg"%string
      <-> truthy display = false /\ os_name <> "nt"%string
          /\ os_name <> "posix"%string)
  /\ (truthy display = false -> os_name = "posix"%string ->
      backend display os_name = "MacOSX"%string).
Proof.
  split; [| split].
  - rewrite setup_matplotlib_run.
    destruct (use (backend display os_name)) as [e | []] eqn:Hu.
    + eexists. split; [reflexivity | split; [reflexivity | split]];
        [reflexivity |].
      right. exists e. split; [| reflexivity].
      cbn. now rewrite <- app_assoc.
    + eexists. split; [reflexivity | split; [reflexivity | split]];
        [reflexivity |].
      left. split; reflexivity.
  - unfold backend. destruct (truthy display).
    + split; [discriminate | intros [H _]; discriminate].
    + destruct (String.eqb_spec os_name "nt") as [-> | Hnt].
      * split; [discriminate | intros (_ & H & _); now contradiction H].
      * destruct (String.eqb_spec os_name "posix") as [-> | Hp].
        -- split; [discriminate | intros (_ & _ & H); now contradiction H].
        -- split; [intros _; now repeat split | reflexivity].
  - intros Hd ->. unfold backend. now rewrite Hd.
Qed.

End Backend.

(** ** A whole run *)




Section Whole.
Variable read : string -> string -> Py.result Bio.MultipleSeqAlignment.
Variable glob : string -> string -> list string.
Variable format_4f : float -> string.
Variable models : list string.
Variable mp :
  string -> list ascii -> Bio.SeqRecord -> Bio.SeqRecord -> Py.result float.
Variable float_str : float -> string.
Variable makedirs : string -> IO.t unit.
Variable abspath : string -> string.




End Whole.

(** ** Where the output goes *)

Lemma path_join_relative (a b : string) :
  (forall b', b <> String "/"%char b') ->
  Text.path_join a b
  = (a ++ (if (String.eqb a "" || Text.ends_with_slash a)%bool
           then "" else "/") ++ b)%string.
Proof.
  intros Hb. unfold Text.path_join.
  destruct b as [| c b'].
  - now destruct (String.eqb a "" || Text.ends_with_slash a)%bool.
  - destruct (Ascii.eqb_spec c "/"%char) as [-> | Hc];
      [now contradiction (Hb b') |].
    destruct c as [[] [] [] [] [] [] [] []];
      now destruct (String.eqb a "" || Text.ends_with_slash a)%bool.
Qed.

(** X17: The plot of a file and the report are placed in the output
    directory: each path is the output directory, a slash unless the
    directory is empty or ends with one, and a name without a slash that
    comes from the name of the alignment. *)
Theorem outputs_stay_in_output_dir (output_dir file_path : string) :
  let sep := if (String.eqb output_dir ""
                 || Text.ends_with_slash output_dir)%bool
             then ""%string else "/"%string in
  plot_file output_dir (name_of file_path)
  = (output_dir ++ sep ++ name_of file_path ++ "_distance_plot.png")%string
  /\ occurs "/"%char (name_of file_path ++ "_distance_plot.png") = false
  /\ Text.path_join output_dir "outlier_report.txt"
     = (output_dir ++ sep ++ "outlier_report.txt")%string.
Proof.
  intros sep.
  assert (Hname : occurs "/"%char (name_of file_path) = false).
  { unfold name_of. apply occurs_before_other. apply occurs_after_last. }
  assert (Hocc : occurs "/"%char (name_of file_path ++ "_distance_plot.png")
                 = false)
    by (rewrite occurs_app, Hname; reflexivity).
  split; [| split; [exact Hocc |]].
  - unfold plot_file. apply path_join_relative.
    intros b' E. rewrite E in Hocc. rewrite occurs_cons in Hocc.
    discriminate.
  - apply path_join_relative. intros b' E. discriminate.
Qed.

(** ** The diagonal *)

(** X18: The analysis reads no entry of the diagonal: two matrices that
    agree on every pair of different positions among the identifiers give
    the same outcome, an error included. *)
Theorem analysis_ignores_diagonal (dm dm' : Bio.DistanceMatrix)
        (ids : list string) (thr : float) :
  (forall i j, i < List.length ids -> j < List.length ids -> i <> j ->
               Bio.getitem dm' i j = Bio.getitem dm i j) ->
  analyze_distances dm' ids thr = analyze_distances dm ids thr.
Proof.
  intros H. unfold analyze_distances.
  replace (Py.mapM
             (fun i => ds <- seq_distances dm' (List.length ids) i ;;
                       Py.ret (Np.mean ds))
             (List.seq 0 (List.length ids)))
    with (Py.mapM
            (fun i => ds <- seq_distances dm (List.length ids) i ;;
                      Py.ret (Np.mean ds))
            (List.seq 0 (List.length ids))); [reflexivity |].
  apply mapM_ext_in. intros i Hi. apply in_seq in Hi.
  unfold seq_distances.
  replace (Py.mapM (fun j => Bio.getitem dm' i j)
             (filter (fun j => negb (i =? j))
                     (List.seq 0 (List.length ids))))
    with (Py.mapM (fun j => Bio.getitem dm i j)
            (filter (fun j => negb (i =? j))
                    (List.seq 0 (List.length ids)))); [reflexivity |].
  apply mapM_ext_in. intros j Hj. apply filter_In in Hj as [Hj Hne].
  apply in_seq in Hj. symmetry. apply H; try lia.
  destruct (Nat.eqb_spec i j); [discriminate | assumption].
Qed.

(** ** The further theorems at work *)

Lemma outliers_in_alignment_order_witness :
  analyze_distances (Sample.matrix_of Sample.abcd) Sample.abcd_ids 1.5%float
  = inr ([("D"%string, 1%float, Sample.z_D)],
         Sample.abcd_avgs, Sample.abcd_zs)
  /\ List.length Sample.abcd_avgs = List.length Sample.abcd_ids
  /\ List.length Sample.abcd_zs = List.length Sample.abcd_ids
  /\ [("D"%string, 1%float, Sample.z_D)]
     = map (fun i => (nth i Sample.abcd_ids ""%string,
                      nth i Sample.abcd_avgs PrimFloat.nan,
                      nth i Sample.abcd_zs PrimFloat.nan))
           (flagged_indices 1.5%float Sample.abcd_zs).
Proof.
  assert (H : analyze_distances (Sample.matrix_of Sample.abcd)
                Sample.abcd_ids 1.5%float
              = inr ([("D"%string, 1%float, Sample.z_D)],
                     Sample.abcd_avgs, Sample.abcd_zs))
    by (vm_compute; reflexivity).
  split; [exact H |].
  exact (outliers_in_alignment_order _ _ _ _ _ _ H).
Defined.

Lemma highlighted_positions_witness :
  analyze_distances (Sample.matrix_of Sample.abcd) Sample.abcd_ids 1.5%float
  = inr ([("D"%string, 1%float, Sample.z_D)],
         Sample.abcd_avgs, Sample.abcd_zs)
  /\ exists l,
      outlier_indices Sample.abcd_ids [("D"%string, 1%float, Sample.z_D)]
      = inr l
      /\ Forall (fun i => i < List.length Sample.abcd_avgs) l
      /\ map (fun i => nth i Sample.abcd_ids ""%string) l
         = map (fun o : outlier => fst (fst o))
               [("D"%string, 1%float, Sample.z_D)]
      /\ (Py.unique Sample.abcd_ids = true ->
          l = flagged_indices 1.5%float Sample.abcd_zs).
Proof.
  assert (H : analyze_distances (Sample.matrix_of Sample.abcd)
                Sample.abcd_ids 1.5%float
              = inr ([("D"%string, 1%float, Sample.z_D)],
                     Sample.abcd_avgs, Sample.abcd_zs))
    by (vm_compute; reflexivity).
  split; [exact H |].
  exact (highlighted_positions _ _ _ _ _ _ H).
Defined.

Lemma outliers_have_numeric_scores_witness :
  analyze_distances (Sample.matrix_of Sample.abcd) Sample.abcd_ids 1.5%float
  = inr ([("D"%string, 1%float, Sample.z_D)],
         Sample.abcd_avgs, Sample.abcd_zs)
  /\ (forall seq_id avg z,
         In (seq_id, avg, z) [("D"%string, 1%float, Sample.z_D)] ->
         PrimFloat.ltb 1.5 z = true
         /\ PrimFloat.is_nan z = false /\ PrimFloat.is_nan 1.5 = false)
  /\ (PrimFloat.is_nan 1.5 = true \/ 1.5%float = PrimFloat.infinity ->
      [("D"%string, 1%float, Sample.z_D)] = []).
Proof.
  assert (H : analyze_distances (Sample.matrix_of Sample.abcd)
                Sample.abcd_ids 1.5%float
              = inr ([("D"%string, 1%float, Sample.z_D)],
                     Sample.abcd_avgs, Sample.abcd_zs))
    by (vm_compute; reflexivity).
  split; [exact H |].
  exact (outliers_have_numeric_scores _ _ _ _ _ _ H).
Defined.

Lemma two_sequences_give_no_outlier_witness :
  analyze_distances (Sample.matrix_of Sample.abcd) ["A"; "B"]%string 0%float
  = inr ([], [0; 0]%float, [PrimFloat.nan; PrimFloat.nan])
  /\ (exists m, [0; 0]%float = [m; m])
  /\ [PrimFloat.nan; PrimFloat.nan] = [PrimFloat.nan; PrimFloat.nan]
  /\ @nil outlier = [].
Proof.
  assert (H : analyze_distances (Sample.matrix_of Sample.abcd)
                ["A"; "B"]%string 0%float
              = inr ([], [0; 0]%float, [PrimFloat.nan; PrimFloat.nan]))
    by (vm_compute; reflexivity).
  split; [exact H |].
  exact (two_sequences_give_no_outlier _ _ _ _ _ _ _ H).
Defined.

Lemma setitem_then_getitem_witness :
  exists dm',
    Bio.setitem (Sample.matrix_of Sample.abcd) "A" "D" 0.5%float = inr dm'
    /\ Bio.len dm' = Bio.len (Sample.matrix_of Sample.abcd)
    /\ (0 <> 3 -> Bio.getitem dm' 0 3 = inr 0.5%float
                  /\ Bio.getitem dm' 3 0 = inr 0.5%float)
    /\ (0 = 3 -> Bio.getitem dm' 0 3 = inr (float_of_nat 0))
    /\ (forall i j, i <> j -> ~ (i = 0 /\ j = 3) -> ~ (i = 3 /\ j = 0) ->
                    Bio.getitem dm' i j
                    = Bio.getitem (Sample.matrix_of Sample.abcd) i j).
Proof.
  assert (Hr : Py.index "A" (Bio.names (Sample.matrix_of Sample.abcd))
               = Some 0) by reflexivity.
  assert (Hc : Py.index "D" (Bio.names (Sample.matrix_of Sample.abcd))
               = Some 3) by reflexivity.
  destruct (Bio.setitem (Sample.matrix_of Sample.abcd) "A" "D" 0.5%float)
    as [e | dm'] eqn:E; [vm_compute in E; discriminate E |].
  exists dm'. split; [reflexivity |].
  exact (setitem_then_getitem _ _ _ _ _ _ _ Hr Hc E).
Defined.

Lemma matrix_entries_are_pairwise_distances_witness :
  calculate_distance_matrix ["identity"%string] Sample.no_matrix Sample.abcd
    "identity" Sample.w0
  = (inr (Some (Sample.matrix_of Sample.abcd)), Sample.w0)
  /\ exists calc,
      Bio.DistanceCalculator_init ["identity"%string] "identity" = inr calc
      /\ forall i j a b,
          i < j -> nth_error Sample.abcd i = Some a ->
          nth_error Sample.abcd j = Some b ->
          exists v, Bio.pairwise Sample.no_matrix calc a b = inr v
                    /\ Bio.getitem (Sample.matrix_of Sample.abcd) i j = inr v
                    /\ Bio.getitem (Sample.matrix_of Sample.abcd) j i = inr v.
Proof.
  assert (H : calculate_distance_matrix ["identity"%string] Sample.no_matrix
                Sample.abcd "identity" Sample.w0
              = (inr (Some (Sample.matrix_of Sample.abcd)), Sample.w0))
    by (rewrite calculate_distance_matrix_run; reflexivity).
  split; [exact H |].
  exact (matrix_entries_are_pairwise_distances _ _ _ _ _ _ _ H).
Defined.

Lemma equidistant_sequences_score_alike_witness :
  (forall i j,
      i < List.length (map Bio.id Sample.eleven) ->
      j < List.length (map Bio.id Sample.eleven) -> i <> j ->
      Bio.getitem (Sample.matrix_of Sample.eleven) i j
      = inr (1 - 1 / 11)%float)
  /\ analyze_distances (Sample.matrix_of Sample.eleven)
       (map Bio.id Sample.eleven) 0.5%float
     = inr (map (fun r => (Bio.id r, Np.mean (repeat (1 - 1 / 11)%float 10),
                           1%float))
                Sample.eleven,
            repeat (Np.mean (repeat (1 - 1 / 11)%float 10)) 11,
            repeat 1%float 11).
Proof.
  assert (H : forall i j,
             i < List.length (map Bio.id Sample.eleven) ->
             j < List.length (map Bio.id Sample.eleven) -> i <> j ->
             Bio.getitem (Sample.matrix_of Sample.eleven) i j
             = inr (1 - 1 / 11)%float).
  { intros i j Hi Hj Hne.
    change (List.length (map Bio.id Sample.eleven)) with 11 in Hi, Hj.
    do 11 (destruct i as [| i];
           [do 11 (destruct j as [| j];
                   [first [now contradiction Hne | vm_compute; reflexivity] |]);
            lia |]).
    lia. }
  split; [exact H |].
  destruct (equidistant_sequences_score_alike
              (Sample.matrix_of Sample.eleven) (map Bio.id Sample.eleven)
              0.5%float (1 - 1 / 11)%float H) as [E _].
  rewrite E. vm_compute. reflexivity.
Defined.

Lemma identical_sequences_give_no_outlier_witness :
  Py.unique (map Bio.id Sample.copies) = true
  /\ (forall r, In r Sample.copies -> Bio.seq r = "ACGT"%string)
  /\ (Z.of_nat (String.length "ACGT") < 2 ^ 53)%Z
  /\ exists dm,
      calculate_distance_matrix ["identity"%string] Sample.no_matrix
        Sample.copies "identity" Sample.w0
      = (inr (Some dm), Sample.w0)
      /\ forall thr, exists avgs,
          analyze_distances dm (map Bio.id Sample.copies) thr
          = inr ([], avgs, repeat PrimFloat.nan (List.length Sample.copies)).
Proof.
  assert (Hu : Py.unique (map Bio.id Sample.copies) = true) by reflexivity.
  assert (Hs : forall r, In r Sample.copies -> Bio.seq r = "ACGT"%string).
  { intros r Hr. simpl in Hr.
    destruct Hr as [<- | [<- | [<- | [<- | [<- | []]]]]]; reflexivity. }
  assert (Hl : (Z.of_nat (String.length "ACGT") < 2 ^ 53)%Z) by reflexivity.
  assert (He : "ACGT"%string = ""%string ->
               (Z.of_nat (List.length Sample.copies) < 2 ^ 53)%Z)
    by discriminate.
  split; [exact Hu | split; [exact Hs | split; [exact Hl |]]].
  exact (identical_sequences_give_no_outlier ["identity"%string]
           Sample.no_matrix Sample.copies "ACGT" Sample.w0 Hu Hs Hl He).
Defined.

Lemma identity_distance_ends_witness :
  (Z.of_nat (String.length "ACGT") < 2 ^ 53)%Z
  /\ ("ACGT"%string = ""%string ->
      Bio.pairwise Sample.no_matrix Sample.identity
        {| Bio.id := "s1"; Bio.seq := "ACGT" |}
        {| Bio.id := "s2"; Bio.seq := "ACGT" |} = inr 1%float)
  /\ ("ACGT"%string <> ""%string -> "ACGT"%string = "ACGT"%string ->
      Bio.pairwise Sample.no_matrix Sample.identity
        {| Bio.id := "s1"; Bio.seq := "ACGT" |}
        {| Bio.id := "s2"; Bio.seq := "ACGT" |} = inr 0%float)
  /\ (Bio.identity_score [] (list_ascii_of_string "ACGT")
        (list_ascii_of_string "ACGT") = 0 ->
      Bio.pairwise Sample.no_matrix Sample.identity
        {| Bio.id := "s1"; Bio.seq := "ACGT" |}
        {| Bio.id := "s2"; Bio.seq := "ACGT" |} = inr 1%float).
Proof.
  assert (H : (Z.of_nat (String.length "ACGT") < 2 ^ 53)%Z) by reflexivity.
  split; [exact H |].
  exact (identity_distance_ends Sample.no_matrix
           {| Bio.id := "s1"; Bio.seq := "ACGT" |}
           {| Bio.id := "s2"; Bio.seq := "ACGT" |} H).
Defined.

Lemma process_alignment_file_result_witness :
  exists res w',
    process_alignment_file Sample.reads_abcd ["identity"%string]
      Sample.no_matrix Sample.nan_str "data/genes.aln.fasta" "out" 1.5%float
      true Sample.w0
    = (inr (Some res), w')
    /\ exists msa dm avgs zs,
        Sample.reads_abcd "data/genes.aln.fasta" "fasta" = inr msa
        /\ Bio.get_distance Sample.no_matrix Sample.identity msa = inr dm
        /\ analyze_distances dm (map Bio.id msa) 1.5%float
           = inr (outliers res, avgs, zs)
        /\ alignment_name res = name_of "data/genes.aln.fasta"
        /\ file_path res = "data/genes.aln.fasta"%string
        /\ num_sequences res = List.length msa
        /\ alignment_length res = Bio.get_alignment_length msa
        /\ plot_path res
           = Some (plot_file "out" (name_of "data/genes.aln.fasta"))
        /\ w' = saved (plot_file "out" (name_of "data/genes.aln.fasta"))
                  Sample.w0
        /\ (true = true -> Plt.hist Sample.nan_str zs = inr tt).
Proof.
  destruct (process_alignment_file Sample.reads_abcd ["identity"%string]
              Sample.no_matrix Sample.nan_str "data/genes.aln.fasta" "out"
              1.5%float true Sample.w0) as [[e | [res |]] w'] eqn:E;
    [vm_compute in E; discriminate E | | vm_compute in E; discriminate E].
  exists res, w'. split; [reflexivity |].
  exact (process_alignment_file_result Sample.reads_abcd ["identity"%string]
           Sample.no_matrix Sample.nan_str "data/genes.aln.fasta" "out"
           1.5%float true Sample.w0 w' res E).
Defined.

Lemma name_of_is_stem_witness :
  name_of "data/genes.aln.fasta" = "genes"%string
  /\ plot_file "out" (name_of "data/genes.aln.fasta")
     = plot_file "out" (name_of "data/genes.fa").
Proof.
  split.
  - exact (proj1 (proj1 (proj2 name_of_is_stem) "data" "genes" "aln.fasta"
                    eq_refl eq_refl eq_refl))%string.
  - exact (proj2 (proj2 name_of_is_stem) "data" "genes" "aln.fasta" "fa" "out"
             eq_refl eq_refl eq_refl eq_refl)%string.
Defined.

Lemma analysis_ignores_diagonal_witness :
  (forall i j,
      i < List.length Sample.abcd_ids -> j < List.length Sample.abcd_ids ->
      i <> j ->
      Bio.getitem {| Bio.names := Sample.abcd_ids;
                     Bio.matrix := [[5]; [0; 5]; [0; 0; 5]; [1; 1; 1; 5]]%float |}
        i j
      = Bio.getitem (Sample.matrix_of Sample.abcd) i j)
  /\ analyze_distances
       {| Bio.names := Sample.abcd_ids;
          Bio.matrix := [[5]; [0; 5]; [0; 0; 5]; [1; 1; 1; 5]]%float |}
       Sample.abcd_ids 1.5%float
     = analyze_distances (Sample.matrix_of Sample.abcd) Sample.abcd_ids
         1.5%float.
Proof.
  assert (H : forall i j,
             i < List.length Sample.abcd_ids ->
             j < List.length Sample.abcd_ids -> i <> j ->
             Bio.getitem
               {| Bio.names := Sample.abcd_ids;
                  Bio.matrix :=
                    [[5]; [0; 5]; [0; 0; 5]; [1; 1; 1; 5]]%float |} i j
             = Bio.getitem (Sample.matrix_of Sample.abcd) i j).
  { intros i j Hi Hj Hne. simpl in Hi, Hj.
    destruct i as [| [| [| [| i]]]]; [| | | | lia];
      (destruct j as [| [| [| [| j]]]]; [| | | | lia]);
      try (vm_compute; reflexivity); lia. }
  split; [exact H |].
  exact (analysis_ignores_diagonal (Sample.matrix_of Sample.abcd) _
           Sample.abcd_ids 1.5%float H).
Defined.

Lemma zero_deviation_gives_nan_witness :
  analyze_distances (Sample.matrix_of Sample.copies)
    (map Bio.id Sample.copies) 1.5%float
  = inr ([], [0; 0; 0; 0; 0]%float,
         [PrimFloat.nan; PrimFloat.nan; PrimFloat.nan; PrimFloat.nan;
          PrimFloat.nan])
  /\ PrimFloat.eqb (Np.std [0; 0; 0; 0; 0]%float) 0%float = true
  /\ [PrimFloat.nan; PrimFloat.nan; PrimFloat.nan; PrimFloat.nan;
      PrimFloat.nan]
     = map (fun _ => PrimFloat.nan) [0; 0; 0; 0; 0]%float
  /\ @nil outlier = [].
Proof.
  assert (H1 : analyze_distances
                 (Sample.matrix_of Sample.copies)
                 (map Bio.id Sample.copies) 1.5%float
               = inr ([], [0; 0; 0; 0; 0]%float,
                      [PrimFloat.nan; PrimFloat.nan; PrimFloat.nan;
                       PrimFloat.nan; PrimFloat.nan]))
    by (vm_compute; reflexivity).
  assert (H2 : PrimFloat.eqb (Np.std [0; 0; 0; 0; 0]%float) 0%float = true)
    by (vm_compute; reflexivity).
  split; [exact H1 | split; [exact H2 |]].
  exact (proj1 (zero_deviation_gives_nan (Sample.matrix_of Sample.copies)
                  (map Bio.id Sample.copies) 1.5%float) _ _ _ H1 H2).
Defined.


(** ** Runs that stop *)

(** X19: Five copies of one sequence with a plot: the z-scores are all
    [nan], the histogram cannot be drawn, and [process_alignment_file]
    raises the [ValueError] of NumPy; nothing is printed and no figure is
    saved.  Without a plot the same file gives a result without outliers. *)
Theorem plot_of_identical_sequences_raises :
  process_alignment_file Sample.reads_copies ["identity"%string]
    Sample.no_matrix Sample.nan_str "data/genes.fasta" "out" 3%float true
    Sample.w0
  = (inl (Py.ValueError "autodetected range of [nan, nan] is not finite"),
     Sample.w0)
  /\ process_alignment_file Sample.reads_copies ["identity"%string]
       Sample.no_matrix Sample.nan_str "data/genes.fasta" "out" 3%float false
       Sample.w0
     = (inr (Some {| alignment_name := "genes";
                     file_path := "data/genes.fasta";
                     num_sequences := 5;
                     alignment_length := 4;
                     outliers := [];
                     plot_path := None |}),
        Sample.w0).
Proof. split; vm_compute; reflexivity. Qed.

(** X20: A run with [--plot] on a directory whose one file holds five
    copies of one sequence raises that [ValueError] after two lines are
    printed: no report is written and no figure is saved. *)
Theorem run_with_plot_of_identical_sequences_raises :
  main Sample.reads_copies Sample.one_file Sample.no_format
    ["identity"%string] Sample.no_matrix
    (setup_matplotlib None "posix" Sample.accepts (fun b => b))
    Sample.nan_str Sample.exists_ok (fun p => p) Sample.with_plot Sample.w0
  = (inl (Py.ValueError "autodetected range of [nan, nan] is not finite"),
     {| stdout := ["Found 1 alignment files to process."%string;
                   "Processing data/genes.fasta..."%string];
        files := [];
        figures := [] |}).
Proof. vm_compute. reflexivity. Qed.
